(** * Tunarr channel streaming core: a shallow embedding and its properties

    The development follows the TypeScript sources:
    - [helperFuncs] (lineup resolution, lineup item creation, filler picking,
      watermark selection),
    - [ffmpeg.ts] (the FFMPEG wrapper: argument list construction and the
      mapping of child-process exits to events),
    - [stream/VideoStream.ts] (the redirect loop of [startStream]).

    Numbers that the program uses as millisecond counts, pixel counts,
    indices and percentages are modelled as [Z].  JavaScript's [%] is
    [Z.rem] (the sign follows the dividend) and is [NaN] for a zero
    divisor; the places where [NaN] can arise are written out. *)

From Stdlib Require Import ZArith List String Ascii Bool Lia QArith DecimalString.
From stdpp Require Import gmap strings.
Import ListNotations.

#[local] Open Scope Z_scope.

(** ** Constants *)

Module Constants.

(** Modelled from the spec: [constants.SLACK].  The module [constants.js] is
    imported by the sources but is not part of them, so the functions below
    take the value as a parameter [SLACK]; the scenarios are evaluated at the
    value the glossary gives, "SLACK — 9,900 ms". *)
Definition SLACK : Z := 9900.

End Constants.

(** ** JavaScript library functions used by the sources *)

Module Js.

(** [Array.prototype.join]. *)
Fixpoint join (sep : string) (l : list string) : string :=
  match l with
  | [] => EmptyString
  | [x] => x
  | x :: rest => (x ++ sep ++ join sep rest)%string
  end.

(** [Number.prototype.toString] on an integer. *)
Definition showZ (z : Z) : string := NilZero.string_of_int (Z.to_int z).

(** A template literal: the concatenation of its parts. *)
Definition template (parts : list string) : string := String.concat "" parts.

(** An optional string inside a template literal: [undefined] prints as
    the word. *)
Definition showOption (o : option string) : string :=
  match o with
  | Some s => s
  | None => "undefined"
  end.

(** The double-quote character, as a string. *)
Definition dquote : string := String (ascii_of_nat 34) EmptyString.

(** A number with two decimals, given in hundredths, printed the way
    JavaScript prints it: [70] is 0.7, [125] is 1.25, [200] is 2. *)
Definition showHundredths (h : Z) : string :=
  let a := Z.abs h in
  let q := a / 100 in
  let r := a mod 100 in
  let sign := if h <? 0 then "-" else "" in
  if r =? 0 then (sign ++ showZ q)%string
  else if r mod 10 =? 0 then (sign ++ showZ q ++ "." ++ showZ (r / 10))%string
  else (sign ++ showZ q ++ "." ++ (if (r <? 10)%Z then "0" else "")
        ++ showZ r)%string.

(** [String.prototype.slice(1)]. *)
Definition slice1 (s : string) : string :=
  match s with
  | EmptyString => EmptyString
  | String _ rest => rest
  end.

(** [Math.ceil (a / b)] for integers [a], [b] with [b <> 0]. *)
Definition ceilDiv (a b : Z) : Z := - ((- a) / b).

(** [Math.round (a / b)] for integers [a] and [b > 0]: JavaScript rounds
    halves towards positive infinity, i.e. [floor (a/b + 1/2)]. *)
Definition roundDiv (a b : Z) : Z := (2 * a + b) / (2 * b).

(** [Array.prototype.includes] on strings. *)
Definition includes (x : string) (l : list string) : bool :=
  existsb (String.eqb x) l.

(** [String.prototype.includes]: [sub] occurs in [s]. *)
Fixpoint strIncludes (sub s : string) : bool :=
  if String.prefix sub s then true
  else match s with
       | EmptyString => false
       | String _ rest => strIncludes sub rest
       end.

End Js.

(** ** The pseudo-random engine ([random-js])

    The sources draw from a Mersenne-Twister engine through [random.bool]
    and [random.integer].  The engine is modelled by the list of raw values
    it is going to produce; an exhausted list keeps producing [0].  Every
    statement below that mentions an engine holds for all such lists. *)

Module Random.

Definition Engine := list Z.

(** [random.integer(lo, hi)]: a value of [lo..hi]. *)
Definition integer (lo hi : Z) (g : Engine) : Z * Engine :=
  match g with
  | [] => (lo, [])
  | r :: g' => (lo + r mod (hi - lo + 1), g')
  end.

(** [random.bool(numerator, denominator)]: [false] for a non-positive
    numerator and [true] for a numerator that reaches the denominator,
    without consulting the engine; otherwise [integer(0, denominator - 1) <
    numerator]. *)
Definition bool (numerator denominator : Z) (g : Engine) : bool * Engine :=
  if numerator <=? 0 then (false, g)
  else if denominator <=? numerator then (true, g)
  else let (k, g') := integer 0 (denominator - 1) g in (k <? numerator, g').

End Random.

(** ** Settings shared by the modules *)

Module Settings.

Record Resolution := mkResolution { widthPx : Z; heightPx : Z }.

(** [FfmpegSettings] of [@tunarr/types], with the fields the sources read. *)
Record FfmpegSettings := mkFfmpegSettings {
  ffmpegExecutablePath : string;
  enableTranscoding : bool;
  enableLogging : bool;
  numThreads : Z;
  concatMuxDelay : Z;
  videoEncoder : string;
  audioEncoder : string;
  targetResolution : Resolution;
  videoBitrate : Z;
  videoBufferSize : Z;
  audioBitrate : Z;
  audioBufferSize : Z;
  audioVolumePercent : Z;
  audioChannels : Z;
  audioSampleRate : Z;
  errorScreen : string;
  errorAudio : string;
  normalizeVideoCodec : bool;
  normalizeAudioCodec : bool;
  normalizeResolution : bool;
  normalizeAudio : bool;
  maxFPS : Z;
  scalingAlgorithm : string;
  deinterlaceFilter : string;
  disableChannelOverlay : bool
}.

End Settings.

(** ** helperFuncs: lineup resolution and lineup item creation *)

Module HelperFuncs.

(** Results of functions that may [throw]. *)
Inductive Result (A : Type) : Type :=
| Ok (a : A)
| Throw (message : string).
Arguments Ok {A} a.
Arguments Throw {A} message.

(** [Program] of [dao/db.js], with the fields the sources read.  Filler
    clips are program-like records and share the type. *)
Record Program := mkProgram {
  prog_type : string;
  prog_title : string;
  prog_key : string;
  prog_plexFile : string;
  prog_file : string;
  prog_ratingKey : string;
  prog_serverKey : string;
  prog_duration : Z;
  prog_isOffline : bool;
  prog_channel : string;            (* target of a redirect *)
  prog_fillerId : option string;
  prog_err : option string
}.

(** Modelled from the spec: [offlineProgram] of [dao/db.js] is imported but
    not part of the sources; the resolver's step 1 returns "an offline item
    of duration startTime − now". *)
Definition offlineProgram (duration : Z) : Program :=
  {| prog_type := "offline"; prog_title := ""; prog_key := "";
     prog_plexFile := ""; prog_file := ""; prog_ratingKey := "";
     prog_serverKey := ""; prog_duration := duration;
     prog_isOffline := true; prog_channel := "";
     prog_fillerId := None; prog_err := None |}.

Record ChannelIcon := mkChannelIcon {
  icon_path : string;
  icon_width : Z;
  icon_duration : Z;
  icon_position : string
}.

Record Watermark := mkWatermark {
  wm_enabled : bool;
  wm_url : option ChannelIcon;
  wm_width : Z;
  wm_verticalMargin : Z;
  wm_horizontalMargin : Z;
  wm_duration : Z;
  wm_position : string;
  wm_fixedSize : option bool;
  wm_animated : option bool
}.

(** The channel as [helperFuncs] reads it ([ImmutableChannel] and
    [ContextChannel]). *)
Record Channel := mkChannel {
  ch_number : Z;
  ch_startTimeEpoch : Z;
  ch_duration : Z;
  ch_programs : list Program;
  ch_offlineMode : string;
  ch_fallback : list Program;
  ch_fillerRepeatCooldown : option Z;
  ch_disableFillerOverlay : option bool;
  ch_watermark : option Watermark;
  ch_icon : option ChannelIcon
}.

Record ProgramAndTimeElapsed := mkPTE {
  program : Program;
  timeElapsed : Z;
  programIndex : Z
}.

Definition noProgramFound : string :=
  "No program found; find algorithm fucked up".

Section Resolver.

(** [constants.SLACK]. *)
Variable SLACK : Z.

(** The [for] loop of the resolver, from index [y] on: returns the final
    [timeElapsed] and [currentProgramIndex] ([-1] when the loop runs off the
    end of the lineup). *)
Fixpoint findProgram (programs : list Program) (l2 : Z) (y : Z)
    (timeElapsed : Z) : Z * Z :=
  match programs with
  | [] => (timeElapsed, -1)
  | program :: rest =>
      if timeElapsed - prog_duration program <? 0 then
        if (prog_duration program >? 2 * SLACK)
           && (timeElapsed >? prog_duration program - SLACK)
        then (0, Z.rem (y + 1) l2)
        else (timeElapsed, y)
      else findProgram rest l2 (y + 1) (timeElapsed - prog_duration program)
  end.

Definition getCurrentProgramAndTimeElapsed (date : Z) (channel : Channel)
    : Result ProgramAndTimeElapsed :=
  let channelStartTime := ch_startTimeEpoch channel in
  if channelStartTime >? date then
    Ok {| program := offlineProgram (channelStartTime - date);
          timeElapsed := 0; programIndex := -1 |}
  else if ch_duration channel =? 0 then
    (* [x % 0] is [NaN]: every comparison of the loop is false, the loop
       runs off the end and the index stays [-1] *)
    Throw noProgramFound
  else
    let '(timeElapsed, currentProgramIndex) :=
      findProgram (ch_programs channel)
        (Z.of_nat (length (ch_programs channel))) 0
        (Z.rem (date - channelStartTime) (ch_duration channel)) in
    if currentProgramIndex =? -1 then Throw noProgramFound
    else
      match ch_programs channel !! Z.to_nat currentProgramIndex with
      | Some p =>
          Ok {| program := p; timeElapsed := timeElapsed;
                programIndex := currentProgramIndex |}
      | None =>
          (* not reachable: the index found is within the lineup, see
             [findProgram_index_range] *)
          Throw "undefined program"
      end.

End Resolver.

(** The resolver in the words of the specification: the total duration of
    the first [n] lineup items, and the elapsed time within the loop. *)
Definition prefixDuration (n : nat) (programs : list Program) : Z :=
  fold_right Z.add 0 (map prog_duration (firstn n programs)).

Definition elapsedInLoop (now : Z) (channel : Channel) : Z :=
  (now - ch_startTimeEpoch channel) mod ch_duration channel.

(** Scenario S1: startTime 0, lineup A (60 s), B (120 s), C (30 s). *)
Definition contentProgram (title : string) (duration : Z) : Program :=
  {| prog_type := "program"; prog_title := title; prog_key := title;
     prog_plexFile := ""; prog_file := ""; prog_ratingKey := "";
     prog_serverKey := ""; prog_duration := duration;
     prog_isOffline := false; prog_channel := "";
     prog_fillerId := None; prog_err := None |}.

Definition channelOf (start duration : Z) (programs : list Program) : Channel :=
  {| ch_number := 1; ch_startTimeEpoch := start; ch_duration := duration;
     ch_programs := programs; ch_offlineMode := "pic"; ch_fallback := [];
     ch_fillerRepeatCooldown := None; ch_disableFillerOverlay := None;
     ch_watermark := None; ch_icon := None |}.

Definition progA := contentProgram "A" 60000.
Definition progB := contentProgram "B" 120000.
Definition progC := contentProgram "C" 30000.
Definition channelS1 : Channel := channelOf 0 210000 [progA; progB; progC].


(** The duration mismatch of the lineup of a channel. *)
Definition durationMismatch (channel : Channel) : Z :=
  Z.abs (prefixDuration (length (ch_programs channel)) (ch_programs channel)
         - ch_duration channel).

(** A lineup of 60 s in a channel that declares 100 s, and an empty lineup
    in a channel that starts at 5 s. *)
Definition mismatchedChannel : Channel := channelOf 0 100000 [progA].
Definition emptyLateChannel : Channel := channelOf 5000 1000 [].

(** *** Lineup items *)

(** [LineupItem] of [types.js], with the fields [createLineup] writes. *)
Record LineupItem := mkLineupItem {
  li_type : string;
  li_title : string;
  li_err : option string;
  li_key : option string;
  li_plexFile : option string;
  li_file : option string;
  li_ratingKey : option string;
  li_serverKey : option string;
  li_fillerId : option string;
  li_start : Z;
  li_streamDuration : Z;
  li_duration : Z;
  li_beginningOffset : Z
}.

(** *** The filler picker *)

Record FillerCollection := mkFillerCollection {
  fc_id : string;
  fc_content : list Program;
  fc_weight : Z;
  fc_cooldown : Z
}.

(** [ChannelCache] of [channelCache.js] is imported but not part of the
    sources: the picker only reads the two last-play times through it, so the
    cache is the pair of these two functions. *)
Record ChannelCache := mkChannelCache {
  getProgramLastPlayTime : Z -> Program -> Z;
  getFillerLastPlayTime : Z -> string -> Z
}.

Definition weighedPick (a total : Z) (g : Random.Engine) : bool * Random.Engine :=
  Random.bool a total g.

(** [norm_s]: on integers the two divisions are exact ceilings. *)
Definition norm_s (x : Z) : Z :=
  let y := Js.ceilDiv x 600 + 1 in
  let y := y * y in
  Js.ceilDiv y 1000000 + 1.

Section Picker.

(** [constants.SLACK]. *)
Variable SLACK : Z.

(** [norm_d] takes the natural logarithm of an IEEE double for durations of
    three minutes and more.  [logMillis d] stands for the JavaScript value
    [Math.ceil((3.0 + Math.log(d / 60000)) * 1000)].  Below three minutes the
    inner value is [Math.ceil(d / 60000 * 1000)], written here as the exact
    ceiling of [d / 60]: the rounding of the double product can move it by
    one for a few durations, none of them next to a multiple of 100, where
    alone the result would change. *)
Variable logMillis : Z -> Z.

Definition norm_d (x : Z) : Z :=
  let c := if 180000 <=? x then logMillis x else Js.ceilDiv x 60 in
  let y := 10000 * (c + 1) in
  Js.ceilDiv y 1000000 + 1.

(** The variables of [pickRandomWithMaxDuration] that live across both
    loops. *)
Record PickState := mkPickState {
  pick1 : option Program;
  minimumWait : Z;
  listM : Z;
  fillerId : option string;
  engine : Random.Engine
}.

Definition withMinimumWait (w : Z) (st : PickState) : PickState :=
  mkPickState (pick1 st) (Z.min (minimumWait st) w) (listM st) (fillerId st)
    (engine st).

(** The clip picked so far fits the maximum duration (the invariant of both
    loops). *)
Definition pickFits (maxDuration : Z) (st : PickState) : Prop :=
  forall c, pick1 st = Some c -> prog_duration c <= maxDuration + SLACK.

Definition D : Z := 7 * 24 * 60 * 60 * 1000.
Definition E : Z := 5 * 60 * 60 * 1000.

Section Loops.

Variable channelCache : ChannelCache.
Variable number : Z.                 (* channel.number *)
Variable fillerRepeatCooldown : Z.   (* channel.fillerRepeatCooldown *)
Variable maxDuration : Z.
Variable t0 : Z.                     (* new Date().getTime() *)

(** The tail of the clip loop body, from [if (timeSince <= 0) continue] on:
    returns the new [n] and state. *)
Definition weighClip (clip : Program) (timeSince n : Z) (st : PickState)
    : Z * PickState :=
  if timeSince <=? 0 then (n, st)
  else
    let s := norm_s (if E <=? timeSince then E else timeSince) in
    let d := norm_d (prog_duration clip) in
    let w := s + d in
    let n := n + w in
    let (picked, g) := weighedPick w n (engine st) in
    (n, mkPickState (if picked then Some clip else pick1 st)
          (minimumWait st) (listM st) (fillerId st) g).

(** The inner loop over the clips of collection [f], with its locals
    [pickedList] and [n]. *)
Fixpoint clipLoop (f : FillerCollection) (list : list Program)
    (pickedList : bool) (n : Z) (st : PickState) : PickState :=
  match list with
  | [] => st
  | clip :: rest =>
      if prog_duration clip <=? maxDuration + SLACK then
        let t1 := getProgramLastPlayTime channelCache number clip in
        let timeSince := if t1 =? 0 then D else t0 - t1 in
        if timeSince <? fillerRepeatCooldown - SLACK then
          let w := fillerRepeatCooldown - timeSince in
          let st :=
            if prog_duration clip + w <=? maxDuration + SLACK
            then withMinimumWait w st else st in
          (* timeSince = 0, hence [continue] *)
          clipLoop f rest pickedList n st
        else if negb pickedList then
          let t1' := getFillerLastPlayTime channelCache number (fc_id f) in
          let timeSince' := if t1' =? 0 then D else t0 - t1' in
          if fc_cooldown f <=? timeSince' + SLACK then
            let listM' := listM st + fc_weight f in
            let (picked, g) := weighedPick (fc_weight f) listM' (engine st) in
            if picked then
              let st := mkPickState (pick1 st) (minimumWait st) listM'
                          (Some (fc_id f)) g in
              let (n', st') := weighClip clip timeSince 0 st in
              clipLoop f rest true n' st'
            else
              (* break *)
              mkPickState (pick1 st) (minimumWait st) listM' (fillerId st) g
          else
            let w := fc_cooldown f - timeSince' in
            (* break *)
            if prog_duration clip + w <=? maxDuration + SLACK
            then withMinimumWait w st else st
        else
          let (n', st') := weighClip clip timeSince n st in
          clipLoop f rest pickedList n' st'
      else clipLoop f rest pickedList n st
  end.

(** The outer loop over the collections. *)
Definition collectionLoop (fillers : list FillerCollection) (st : PickState)
    : PickState :=
  fold_left (fun st f => clipLoop f (fc_content f) false 0 st) fillers st.

End Loops.

Record RandomResult := mkRandomResult {
  filler : option Program;
  rr_minimumWait : Z
}.

Definition withFillerId (id : option string) (p : Program) : Program :=
  mkProgram (prog_type p) (prog_title p) (prog_key p) (prog_plexFile p)
    (prog_file p) (prog_ratingKey p) (prog_serverKey p) (prog_duration p)
    (prog_isOffline p) (prog_channel p) id (prog_err p).

(** [pickRandomWithMaxDuration].  The first loop of the source, which
    concatenates all contents into [list], has no effect: [list] is assigned
    again before it is read.  An undefined [channel.fillerRepeatCooldown] is
    replaced by thirty minutes. *)
Definition pickRandomWithMaxDuration (channelCache : ChannelCache)
    (channel : Channel) (fillers : list FillerCollection) (maxDuration : Z)
    (t0 : Z) (g : Random.Engine) : RandomResult * Random.Engine :=
  let cooldown :=
    match ch_fillerRepeatCooldown channel with
    | None => 30 * 60 * 1000
    | Some c => c
    end in
  let st :=
    collectionLoop channelCache (ch_number channel) cooldown maxDuration t0
      fillers (mkPickState None 1000000000 0 None g) in
  ({| filler := option_map (withFillerId (fillerId st)) (pick1 st);
      rr_minimumWait := minimumWait st |}, engine st).

(** *** createLineup *)

(** The [maxDuration] argument that [createLineup] passes to the picker for
    an offline gap with [remaining] milliseconds left. *)
Definition fillerMaxDuration (remaining : Z) (isFirst : bool) : Z :=
  remaining + (if isFirst then 7 * 24 * 60 * 60 * 1000 else 0).

Definition createLineup (channelCache : ChannelCache)
    (obj : ProgramAndTimeElapsed) (channel : Channel)
    (fillers : list FillerCollection) (isFirst : bool)
    (t0 : Z) (g : Random.Engine) : list LineupItem * Random.Engine :=
  let timeElapsed := timeElapsed obj in
  let activeProgram := program obj in
  let beginningOffset := 0 in
  match prog_err activeProgram with
  | Some err =>
      let remaining := prog_duration activeProgram - timeElapsed in
      ([ {| li_type := "offline"; li_title := "Error"; li_err := Some err;
            li_key := None; li_plexFile := None; li_file := None;
            li_ratingKey := None; li_serverKey := None; li_fillerId := None;
            li_start := 0; li_streamDuration := remaining;
            li_duration := remaining;
            li_beginningOffset := beginningOffset |} ], g)
  | None =>
      if prog_isOffline activeProgram then
        let remaining := prog_duration activeProgram - timeElapsed in
        let special :=
          if String.eqb (ch_offlineMode channel) "clip"
             && negb (Nat.eqb (length (ch_fallback channel)) 0)
          then head (ch_fallback channel) else None in
        let (randomResult, g) :=
          pickRandomWithMaxDuration channelCache channel fillers
            (fillerMaxDuration remaining isFirst) t0 g in
        let remaining :=
          match filler randomResult with
          | None =>
              if remaining >? rr_minimumWait randomResult
              then rr_minimumWait randomResult else remaining
          | Some _ => remaining
          end in
        let '(filler, isSpecial) :=
          match filler randomResult with
          | None => (special, true)
          | Some f => (Some f, false)
          end in
        match filler with
        | Some filler =>
            let (fillerstart, g) :=
              if isSpecial then
                (if prog_duration filler >? remaining
                 then prog_duration filler - remaining else 0, g)
              else if isFirst then
                let fillerstart := Z.max 0 (prog_duration filler - remaining) in
                let more :=
                  Z.max 0 (prog_duration filler - fillerstart - 15000 - SLACK) in
                let (r, g) := Random.integer 0 more g in
                (fillerstart + r, g)
              else (0, g) in
            ([ {| li_type := "commercial"; li_title := prog_title filler;
                  li_err := None;
                  li_key := Some (prog_key filler);
                  li_plexFile := Some (prog_plexFile filler);
                  li_file := Some (prog_file filler);
                  li_ratingKey := Some (prog_ratingKey filler);
                  li_serverKey := Some (prog_serverKey filler);
                  li_fillerId := prog_fillerId filler;
                  li_start := fillerstart;
                  li_streamDuration :=
                    Z.max 1 (Z.min (prog_duration filler - fillerstart) remaining);
                  li_duration := prog_duration filler;
                  li_beginningOffset := beginningOffset |} ], g)
        | None =>
            let remaining := Z.min remaining (10 * 60 * 1000) in
            ([ {| li_type := "offline"; li_title := "Channel Offline";
                  li_err := None;
                  li_key := None; li_plexFile := None; li_file := None;
                  li_ratingKey := None; li_serverKey := None;
                  li_fillerId := None;
                  li_start := 0; li_streamDuration := remaining;
                  li_duration := remaining;
                  li_beginningOffset := beginningOffset |} ], g)
        end
      else
        let originalTimeElapsed := timeElapsed in
        let timeElapsed := if timeElapsed <? 30000 then 0 else timeElapsed in
        let beginningOffset := Z.max 0 (originalTimeElapsed - timeElapsed) in
        ([ {| li_type := "program"; li_title := prog_title activeProgram;
              li_err := None;
              li_key := Some (prog_key activeProgram);
              li_plexFile := Some (prog_plexFile activeProgram);
              li_file := Some (prog_file activeProgram);
              li_ratingKey := Some (prog_ratingKey activeProgram);
              li_serverKey := Some (prog_serverKey activeProgram);
              li_fillerId := None;
              li_start := timeElapsed;
              li_streamDuration := prog_duration activeProgram - timeElapsed;
              li_duration := prog_duration activeProgram;
              li_beginningOffset := beginningOffset |} ], g)
  end.

End Picker.

(** *** getWatermark *)

Definition iconUsable (icon : option ChannelIcon) : bool :=
  match icon with
  | None => false
  | Some i => negb (String.eqb (icon_path i) "")
  end.

Definition getWatermark (ffmpegSettings : Settings.FfmpegSettings)
    (channel : Channel) (type : string) : option Watermark :=
  if negb (Settings.enableTranscoding ffmpegSettings)
     || Settings.disableChannelOverlay ffmpegSettings
  then None
  else
    let disableFillerOverlay :=
      match ch_disableFillerOverlay channel with
      | None => true
      | Some b => b
      end in
    if String.eqb type "commercial" && disableFillerOverlay then None
    else
      match ch_watermark channel with
      | Some watermark =>
          if negb (wm_enabled watermark) then None
          else
            let icon :=
              if iconUsable (wm_url watermark) then wm_url watermark
              else ch_icon channel in
            if iconUsable icon then
              Some {| wm_enabled := true;
                      wm_url := icon;
                      wm_width := wm_width watermark;
                      wm_verticalMargin := wm_verticalMargin watermark;
                      wm_horizontalMargin := wm_horizontalMargin watermark;
                      wm_duration := wm_duration watermark;
                      wm_position := wm_position watermark;
                      wm_fixedSize :=
                        Some (match wm_fixedSize watermark with
                              | Some true => true | _ => false end);
                      wm_animated :=
                        Some (match wm_animated watermark with
                              | Some true => true | _ => false end) |}
            else None
      | None => None
      end.

(** *** Sample data for the scenarios *)

(** A playback cache in which nothing was ever played: both last-play times
    are [0]. *)
Definition neverPlayed : ChannelCache :=
  {| getProgramLastPlayTime := fun _ _ => 0;
     getFillerLastPlayTime := fun _ _ => 0 |}.

(** A value for the logarithmic branch of [norm_d] in the scenarios, whose
    clips are all shorter than three minutes, so that it is never read. *)
Definition logMillisUnread : Z -> Z := fun _ => 0.

(** One filler collection (weight 1, cooldown 0) with one clip of 100 s. *)
Definition longClip : Program := contentProgram "clip" 100000.
Definition oneCollection : list FillerCollection :=
  [ {| fc_id := "filler-1"; fc_content := [longClip]; fc_weight := 1;
       fc_cooldown := 0 |} ].

(** A channel whose only item is an offline slot of 10 s. *)
Definition offlineChannel : Channel := channelOf 0 10000 [offlineProgram 10000].

(** A channel with an enabled watermark that has no icon of its own, and a
    channel icon. *)
Definition sampleIcon : ChannelIcon :=
  {| icon_path := "/images/tunarr.png"; icon_width := 0; icon_duration := 0;
     icon_position := "bottom-right" |}.

Definition sampleWatermark : Watermark :=
  {| wm_enabled := true; wm_url := None; wm_width := 10;
     wm_verticalMargin := 5; wm_horizontalMargin := 5; wm_duration := 0;
     wm_position := "bottom-right"; wm_fixedSize := None;
     wm_animated := None |}.

Definition watermarkedChannel : Channel :=
  {| ch_number := 1; ch_startTimeEpoch := 0; ch_duration := 210000;
     ch_programs := [progA; progB; progC]; ch_offlineMode := "pic";
     ch_fallback := []; ch_fillerRepeatCooldown := None;
     ch_disableFillerOverlay := None;
     ch_watermark := Some sampleWatermark; ch_icon := Some sampleIcon |}.

Definition sampleSettings : Settings.FfmpegSettings :=
  {| Settings.ffmpegExecutablePath := "/usr/bin/ffmpeg";
     Settings.enableTranscoding := true;
     Settings.enableLogging := false;
     Settings.numThreads := 4;
     Settings.concatMuxDelay := 0;
     Settings.videoEncoder := "libx264";
     Settings.audioEncoder := "aac";
     Settings.targetResolution := Settings.mkResolution 1920 1080;
     Settings.videoBitrate := 10000;
     Settings.videoBufferSize := 1000;
     Settings.audioBitrate := 192;
     Settings.audioBufferSize := 50;
     Settings.audioVolumePercent := 100;
     Settings.audioChannels := 2;
     Settings.audioSampleRate := 48;
     Settings.errorScreen := "pic";
     Settings.errorAudio := "silent";
     Settings.normalizeVideoCodec := true;
     Settings.normalizeAudioCodec := true;
     Settings.normalizeResolution := true;
     Settings.normalizeAudio := true;
     Settings.maxFPS := 60;
     Settings.scalingAlgorithm := "bicubic";
     Settings.deinterlaceFilter := "none";
     Settings.disableChannelOverlay := false |}.

End HelperFuncs.

(** ** ffmpeg.ts: the FFMPEG wrapper *)

Module Ffmpeg.

Import Settings.

#[local] Open Scope string_scope.
#[local] Open Scope list_scope.
#[local] Open Scope Z_scope.

Definition MAXIMUM_ERROR_DURATION_MS : Z := 60000.
Definition REALLY_RIDICULOUSLY_HIGH_FPS_FOR_TUNARRS_USECASE : Z := 120.

Definition STILLIMAGE_SUPPORTED_ENCODERS : list string :=
  ["mpeg2video"; "libx264"; "h264_videotoolbox"].

(** [serverOptions()] of [globals.js]: the two values [ffmpeg.ts] reads. *)
Record ServerOptions := mkServerOptions {
  port : Z;
  databaseDirectory : string
}.

Record ChannelTranscoding := mkChannelTranscoding {
  ct_targetResolution : option Resolution;
  ct_videoBitrate : option Z;
  ct_videoBufferSize : option Z
}.

(** [ContextChannel], with the fields [ffmpeg.ts] reads. *)
Record ContextChannel := mkContextChannel {
  cc_name : string;
  cc_uuid : string;
  cc_transcoding : option ChannelTranscoding;
  cc_offlinePicture : option string;
  cc_offlineSoundtrack : option string
}.

(** [Watermark] of [@tunarr/types]. *)
Record Watermark := mkWatermark {
  w_url : option string;
  w_width : Z;
  w_verticalMargin : Z;
  w_horizontalMargin : Z;
  w_duration : Z;
  w_position : string;
  w_fixedSize : bool;
  w_animated : bool
}.

(** [VideoStats] of [plexTranscoder.js], with the fields [spawn] reads. *)
Record VideoStats := mkVideoStats {
  videoWidth : Z;
  videoHeight : Z;
  vs_duration : option Z;
  audioIndex : option string;
  videoFramerate : option Q;
  videoScanType : option string;
  vs_audioOnly : bool;
  placeholderImage : option string;
  anamorphic : bool;
  pixelP : option Z;
  pixelQ : option Z;
  videoCodec : option string;
  audioCodec : option string
}.

(** The first argument of [spawn]: a URL or an error descriptor. *)
Inductive StreamUrl :=
| Url (url : string)
| ErrorDescriptor (errorTitle : string) (subtitle : option string).

Definition isString (u : StreamUrl) : bool :=
  match u with Url _ => true | ErrorDescriptor _ _ => false end.

(** [isEmpty(streamUrl)] of lodash: an empty string, or an object without
    own properties (an error descriptor always has [errorTitle]). *)
Definition isEmptyUrl (u : StreamUrl) : bool :=
  match u with Url s => String.eqb s "" | ErrorDescriptor _ _ => false end.

(** The events of [FfmpegEvents]. *)
Inductive Event :=
| EvEnd (payload : option (Z * string))
| EvError (code : Z) (cmd : string)
| EvClose (code : option Z).

(** The fields of the [FFMPEG] object; [ffmpeg] holds the arguments the child
    process was started with, and [emitted] the events emitted so far. *)
Record FFMPEG := mkFFMPEG {
  opts : FfmpegSettings;
  errorPicturePath : string;
  ffmpegName : string;
  channel : ContextChannel;
  ffmpegPath : string;
  wantedW : Z;
  wantedH : Z;
  sentData : bool;
  apad : bool;
  audioChannelsSampleRate : bool;
  ensureResolution : bool;
  volumePercent : Z;
  hasBeenKilled : bool;
  audioOnly : bool;
  alignAudio : bool;
  ffmpeg : option (list string);
  emitted : list Event
}.

(** Assignments to the fields that the methods write. *)
Definition withFfmpegName (n : string) (t : FFMPEG) : FFMPEG :=
  mkFFMPEG (opts t) (errorPicturePath t) n (channel t) (ffmpegPath t)
    (wantedW t) (wantedH t) (sentData t) (apad t) (audioChannelsSampleRate t)
    (ensureResolution t) (volumePercent t) (hasBeenKilled t) (audioOnly t)
    (alignAudio t) (ffmpeg t) (emitted t).

Definition withWanted (w h : Z) (t : FFMPEG) : FFMPEG :=
  mkFFMPEG (opts t) (errorPicturePath t) (ffmpegName t) (channel t)
    (ffmpegPath t) w h (sentData t) (apad t) (audioChannelsSampleRate t)
    (ensureResolution t) (volumePercent t) (hasBeenKilled t) (audioOnly t)
    (alignAudio t) (ffmpeg t) (emitted t).

Definition withApad (b : bool) (t : FFMPEG) : FFMPEG :=
  mkFFMPEG (opts t) (errorPicturePath t) (ffmpegName t) (channel t)
    (ffmpegPath t) (wantedW t) (wantedH t) (sentData t) b
    (audioChannelsSampleRate t) (ensureResolution t) (volumePercent t)
    (hasBeenKilled t) (audioOnly t) (alignAudio t) (ffmpeg t) (emitted t).

Definition withAudioChannelsSampleRate (b : bool) (t : FFMPEG) : FFMPEG :=
  mkFFMPEG (opts t) (errorPicturePath t) (ffmpegName t) (channel t)
    (ffmpegPath t) (wantedW t) (wantedH t) (sentData t) (apad t) b
    (ensureResolution t) (volumePercent t) (hasBeenKilled t) (audioOnly t)
    (alignAudio t) (ffmpeg t) (emitted t).

Definition withEnsureResolution (b : bool) (t : FFMPEG) : FFMPEG :=
  mkFFMPEG (opts t) (errorPicturePath t) (ffmpegName t) (channel t)
    (ffmpegPath t) (wantedW t) (wantedH t) (sentData t) (apad t)
    (audioChannelsSampleRate t) b (volumePercent t) (hasBeenKilled t)
    (audioOnly t) (alignAudio t) (ffmpeg t) (emitted t).

Definition withVolumePercent (v : Z) (t : FFMPEG) : FFMPEG :=
  mkFFMPEG (opts t) (errorPicturePath t) (ffmpegName t) (channel t)
    (ffmpegPath t) (wantedW t) (wantedH t) (sentData t) (apad t)
    (audioChannelsSampleRate t) (ensureResolution t) v (hasBeenKilled t)
    (audioOnly t) (alignAudio t) (ffmpeg t) (emitted t).

Definition withHasBeenKilled (b : bool) (t : FFMPEG) : FFMPEG :=
  mkFFMPEG (opts t) (errorPicturePath t) (ffmpegName t) (channel t)
    (ffmpegPath t) (wantedW t) (wantedH t) (sentData t) (apad t)
    (audioChannelsSampleRate t) (ensureResolution t) (volumePercent t) b
    (audioOnly t) (alignAudio t) (ffmpeg t) (emitted t).

Definition withFfmpeg (p : option (list string)) (t : FFMPEG) : FFMPEG :=
  mkFFMPEG (opts t) (errorPicturePath t) (ffmpegName t) (channel t)
    (ffmpegPath t) (wantedW t) (wantedH t) (sentData t) (apad t)
    (audioChannelsSampleRate t) (ensureResolution t) (volumePercent t)
    (hasBeenKilled t) (audioOnly t) (alignAudio t) p (emitted t).

Definition emit (e : Event) (t : FFMPEG) : FFMPEG :=
  mkFFMPEG (opts t) (errorPicturePath t) (ffmpegName t) (channel t)
    (ffmpegPath t) (wantedW t) (wantedH t) (sentData t) (apad t)
    (audioChannelsSampleRate t) (ensureResolution t) (volumePercent t)
    (hasBeenKilled t) (audioOnly t) (alignAudio t) (ffmpeg t)
    (emitted t ++ [e]).

(** [setAudioOnly]. *)
Definition setAudioOnly (b : bool) (t : FFMPEG) : FFMPEG :=
  mkFFMPEG (opts t) (errorPicturePath t) (ffmpegName t) (channel t)
    (ffmpegPath t) (wantedW t) (wantedH t) (sentData t) (apad t)
    (audioChannelsSampleRate t) (ensureResolution t) (volumePercent t)
    (hasBeenKilled t) b (alignAudio t) (ffmpeg t) (emitted t).

(** The settings with transcoding completely disabled. *)
Definition transcodingDisabled (o : FfmpegSettings) : FfmpegSettings :=
  {| ffmpegExecutablePath := ffmpegExecutablePath o;
     enableTranscoding := enableTranscoding o;
     enableLogging := enableLogging o;
     numThreads := numThreads o;
     concatMuxDelay := concatMuxDelay o;
     videoEncoder := videoEncoder o;
     audioEncoder := audioEncoder o;
     targetResolution := targetResolution o;
     videoBitrate := videoBitrate o;
     videoBufferSize := videoBufferSize o;
     audioBitrate := audioBitrate o;
     audioBufferSize := audioBufferSize o;
     audioVolumePercent := 100;
     audioChannels := audioChannels o;
     audioSampleRate := audioSampleRate o;
     errorScreen := "kill";
     errorAudio := errorAudio o;
     normalizeVideoCodec := false;
     normalizeAudioCodec := false;
     normalizeResolution := false;
     normalizeAudio := false;
     maxFPS := REALLY_RIDICULOUSLY_HIGH_FPS_FOR_TUNARRS_USECASE;
     scalingAlgorithm := scalingAlgorithm o;
     deinterlaceFilter := deinterlaceFilter o;
     disableChannelOverlay := disableChannelOverlay o |}.

Definition withVideoBitrate (v : Z) (o : FfmpegSettings) : FfmpegSettings :=
  mkFfmpegSettings (ffmpegExecutablePath o) (enableTranscoding o)
    (enableLogging o) (numThreads o) (concatMuxDelay o) (videoEncoder o)
    (audioEncoder o) (targetResolution o) v (videoBufferSize o)
    (audioBitrate o) (audioBufferSize o) (audioVolumePercent o)
    (audioChannels o) (audioSampleRate o) (errorScreen o) (errorAudio o)
    (normalizeVideoCodec o) (normalizeAudioCodec o) (normalizeResolution o)
    (normalizeAudio o) (maxFPS o) (scalingAlgorithm o) (deinterlaceFilter o)
    (disableChannelOverlay o).

Definition withVideoBufferSize (v : Z) (o : FfmpegSettings) : FfmpegSettings :=
  mkFfmpegSettings (ffmpegExecutablePath o) (enableTranscoding o)
    (enableLogging o) (numThreads o) (concatMuxDelay o) (videoEncoder o)
    (audioEncoder o) (targetResolution o) (videoBitrate o) v
    (audioBitrate o) (audioBufferSize o) (audioVolumePercent o)
    (audioChannels o) (audioSampleRate o) (errorScreen o) (errorAudio o)
    (normalizeVideoCodec o) (normalizeAudioCodec o) (normalizeResolution o)
    (normalizeAudio o) (maxFPS o) (scalingAlgorithm o) (deinterlaceFilter o)
    (disableChannelOverlay o).

(** The constructor. *)
Definition newFFMPEG (env : ServerOptions) (o : FfmpegSettings)
    (ch : ContextChannel) : FFMPEG :=
  let this_opts := if negb (enableTranscoding o) then transcodingDisabled o else o in
  let targetResolution :=
    match cc_transcoding ch with
    | Some tr =>
        match ct_targetResolution tr with
        | Some r => r
        | None => targetResolution o
        end
    | None => targetResolution o
    end in
  let this_opts :=
    match cc_transcoding ch with
    | Some tr =>
        match ct_videoBitrate tr with
        | Some b => if negb (b =? 0) then withVideoBitrate b this_opts else this_opts
        | None => this_opts
        end
    | None => this_opts
    end in
  let this_opts :=
    match cc_transcoding ch with
    | Some tr =>
        match ct_videoBufferSize tr with
        | Some b => if negb (b =? 0) then withVideoBufferSize b this_opts else this_opts
        | None => this_opts
        end
    | None => this_opts
    end in
  {| opts := this_opts;
     errorPicturePath :=
       Js.template ["http://localhost:"; Js.showZ (port env);
                    "/images/generic-error-screen.png"];
     ffmpegName := "unnamed ffmpeg";
     channel := ch;
     ffmpegPath := ffmpegExecutablePath o;
     wantedW := widthPx targetResolution;
     wantedH := heightPx targetResolution;
     sentData := false;
     apad := normalizeAudio this_opts;
     audioChannelsSampleRate := normalizeAudio this_opts;
     ensureResolution := normalizeResolution this_opts;
     volumePercent := audioVolumePercent this_opts;
     hasBeenKilled := false;
     audioOnly := false;
     alignAudio := false;
     ffmpeg := None;
     emitted := [] |}.

(** [kill]. *)
Definition kill (t : FFMPEG) : FFMPEG := withHasBeenKilled true t.

(** *** Helpers at the end of the file *)

Definition isDifferentVideoCodec (codec : option string) (encoder : string) : bool :=
  match codec with
  | Some "mpeg2video" => negb (Js.strIncludes "mpeg2" encoder)
  | Some "h264" => negb (Js.strIncludes "264" encoder)
  | Some "hevc" =>
      negb (Js.strIncludes "265" encoder || Js.strIncludes "hevc" encoder)
  | _ => true
  end.

Definition isDifferentAudioCodec (codec : option string) (encoder : string) : bool :=
  match codec with
  | Some "mp3" =>
      negb (Js.strIncludes "mp3" encoder || Js.strIncludes "lame" encoder)
  | Some "aac" => negb (Js.strIncludes "aac" encoder)
  | Some "ac3" => negb (Js.strIncludes "ac3" encoder)
  | Some "flac" => negb (Js.strIncludes "flac" encoder)
  | _ => true
  end.

Definition isLargerResolution (w1 h1 w2 h2 : Z) : bool :=
  (w1 >? w2) || (h1 >? h2) || (Z.rem w1 2 =? 1) || (Z.rem h1 2 =? 1).

(** [gcd]: the [while (b != 0)] loop; on integers [|a % b| < |b|], so
    [|b| + 1] iterations are enough. *)
Fixpoint gcdLoop (fuel : nat) (a b : Z) : Z :=
  match fuel with
  | O => a
  | S fuel => if b =? 0 then a else gcdLoop fuel b (Z.rem a b)
  end.

Definition gcd (a b : Z) : Z := gcdLoop (S (Z.abs_nat b)) a b.

(** *** spawn: the argument list *)

(** The local variables of [spawn] that are assigned more than once. *)
Record Locals := mkLocals {
  ffmpegArgs : list string;
  useStillImageTune : bool;
  duration : option string;
  inputFiles : Z;
  audioFile : Z;
  videoFile : Z;
  overlayFile : Z;
  doOverlay : bool;
  iW : Z;
  iH : Z;
  currentVideo : string;
  currentAudio : string;
  audioComplex : string;
  videoComplex : string
}.

Definition push (xs : list string) (l : Locals) : Locals :=
  mkLocals (ffmpegArgs l ++ xs) (useStillImageTune l) (duration l)
    (inputFiles l) (audioFile l) (videoFile l) (overlayFile l) (doOverlay l)
    (iW l) (iH l) (currentVideo l) (currentAudio l) (audioComplex l)
    (videoComplex l).

Definition withStillImageTune (b : bool) (l : Locals) : Locals :=
  mkLocals (ffmpegArgs l) b (duration l) (inputFiles l) (audioFile l)
    (videoFile l) (overlayFile l) (doOverlay l) (iW l) (iH l)
    (currentVideo l) (currentAudio l) (audioComplex l) (videoComplex l).

Definition withDuration (d : option string) (l : Locals) : Locals :=
  mkLocals (ffmpegArgs l) (useStillImageTune l) d (inputFiles l)
    (audioFile l) (videoFile l) (overlayFile l) (doOverlay l) (iW l) (iH l)
    (currentVideo l) (currentAudio l) (audioComplex l) (videoComplex l).

Definition withInputFiles (n : Z) (l : Locals) : Locals :=
  mkLocals (ffmpegArgs l) (useStillImageTune l) (duration l) n
    (audioFile l) (videoFile l) (overlayFile l) (doOverlay l) (iW l) (iH l)
    (currentVideo l) (currentAudio l) (audioComplex l) (videoComplex l).

Definition withOverlayFile (n : Z) (l : Locals) : Locals :=
  mkLocals (ffmpegArgs l) (useStillImageTune l) (duration l) (inputFiles l)
    (audioFile l) (videoFile l) n (doOverlay l) (iW l) (iH l)
    (currentVideo l) (currentAudio l) (audioComplex l) (videoComplex l).

Definition withDoOverlay (b : bool) (l : Locals) : Locals :=
  mkLocals (ffmpegArgs l) (useStillImageTune l) (duration l) (inputFiles l)
    (audioFile l) (videoFile l) (overlayFile l) b (iW l) (iH l)
    (currentVideo l) (currentAudio l) (audioComplex l) (videoComplex l).

Definition withSize (w h : Z) (l : Locals) : Locals :=
  mkLocals (ffmpegArgs l) (useStillImageTune l) (duration l) (inputFiles l)
    (audioFile l) (videoFile l) (overlayFile l) (doOverlay l) w h
    (currentVideo l) (currentAudio l) (audioComplex l) (videoComplex l).

Definition withCurrentVideo (v : string) (l : Locals) : Locals :=
  mkLocals (ffmpegArgs l) (useStillImageTune l) (duration l) (inputFiles l)
    (audioFile l) (videoFile l) (overlayFile l) (doOverlay l) (iW l) (iH l)
    v (currentAudio l) (audioComplex l) (videoComplex l).

Definition withCurrentAudio (a : string) (l : Locals) : Locals :=
  mkLocals (ffmpegArgs l) (useStillImageTune l) (duration l) (inputFiles l)
    (audioFile l) (videoFile l) (overlayFile l) (doOverlay l) (iW l) (iH l)
    (currentVideo l) a (audioComplex l) (videoComplex l).

Definition withAudioComplex (a : string) (l : Locals) : Locals :=
  mkLocals (ffmpegArgs l) (useStillImageTune l) (duration l) (inputFiles l)
    (audioFile l) (videoFile l) (overlayFile l) (doOverlay l) (iW l) (iH l)
    (currentVideo l) (currentAudio l) a (videoComplex l).

Definition withVideoComplex (v : string) (l : Locals) : Locals :=
  mkLocals (ffmpegArgs l) (useStillImageTune l) (duration l) (inputFiles l)
    (audioFile l) (videoFile l) (overlayFile l) (doOverlay l) (iW l) (iH l)
    (currentVideo l) (currentAudio l) (audioComplex l) v.

(** [videoComplex += filter; currentVideo = pad]. *)
Definition addVideoFilter (filter pad : string) (l : Locals) : Locals :=
  withCurrentVideo pad (withVideoComplex (videoComplex l ++ filter)%string l).

Definition addAudioFilter (filter pad : string) (l : Locals) : Locals :=
  withCurrentAudio pad (withAudioComplex (audioComplex l ++ filter)%string l).

Definition showOptionZ (o : option Z) : string :=
  match o with
  | Some z => Js.showZ z
  | None => "undefined"
  end.

(** The audio index of the map: [streamStats.audioIndex] in a template. *)
Definition audioIndexOf (stats : VideoStats) : string :=
  Js.showOption (audioIndex stats).

(** Lines 350-403: the opening arguments, the input, and the initial labels
    of the filter graph. *)
Definition openingArgs (this : FFMPEG) (streamUrl : StreamUrl)
    (stats : VideoStats) (startTime : option Z) (duration : option string)
    (limitRead : bool) (watermark : option Watermark) : Locals :=
  let args :=
    ["-threads"; Js.showZ (numThreads (opts this)); "-fflags";
     "+genpts+discardcorrupt+igndts"] in
  let args :=
    if limitRead && (negb (audioOnly this) || isString streamUrl)
    then args ++ ["-re"] else args in
  let args :=
    match startTime with
    | Some s => args ++ ["-ss"; Js.showZ s]
    | None => args
    end in
  let '(args, inputFiles, videoFile, audioFile) :=
    match streamUrl with
    | Url s =>
        if negb (String.eqb s "") then (args ++ ["-i"; s], 1, 0, 0)
        else (args, 0, -1, -1)
    | ErrorDescriptor _ _ => (args, 0, -1, -1)
    end in
  {| ffmpegArgs := args;
     useStillImageTune := false;
     duration := duration;
     inputFiles := inputFiles;
     audioFile := audioFile;
     videoFile := videoFile;
     overlayFile := -1;
     doOverlay := match watermark with Some _ => true | None => false end;
     iW := videoWidth stats;
     iH := videoHeight stats;
     currentVideo := "[video]";
     currentAudio := "[audio]";
     audioComplex :=
       Js.template [";["; Js.showZ audioFile; ":"; audioIndexOf stats;
                    "]anull[audio]"];
     videoComplex :=
       Js.template [";["; Js.showZ videoFile; ":"; "v"; "]null[video]"] |}.

(** Lines 409-421: the frame-rate cap and the deinterlace filter. *)
Definition frameRateAndDeinterlace (this : FFMPEG) (stats : VideoStats)
    (l : Locals) : Locals :=
  let framerate :=
    match videoFramerate stats with Some f => f | None => 0%Q end in
  let l :=
    if Qle_bool (Qplus (inject_Z (maxFPS (opts this))) (Qmake 1 1000000))
         framerate
    then addVideoFilter
           (Js.template [";"; currentVideo l; "fps=";
                         Js.showZ (maxFPS (opts this)); "[fpchange]"])
           "[fpchange]" l
    else l in
  if match videoScanType stats with
     | Some t => String.eqb t "interlaced"
     | None => false
     end
     && negb (String.eqb (deinterlaceFilter (opts this)) "none")
  then addVideoFilter
         (Js.template [";"; currentVideo l; deinterlaceFilter (opts this);
                       "[deinterlaced]"])
         "[deinterlaced]" l
  else l.

(** Lines 436-502: the generated video input of an error or offline
    screen. *)
Definition generateVideo (env : ServerOptions) (this : FFMPEG)
    (streamUrl : StreamUrl) (stats : VideoStats) (l : Locals) : Locals :=
  let l := push ["-r"; "24"] l in
  let errorScreenPic :=
    if String.eqb (errorScreen (opts this)) "pic"
    then Some (errorPicturePath this) else None in
  let pic :=
    match streamUrl with
    | Url _ =>
        if vs_audioOnly stats then placeholderImage stats else errorScreenPic
    | ErrorDescriptor errorTitle _ =>
        if String.eqb errorTitle "offline" then
          let defaultOfflinePic :=
            Js.template ["http://localhost:"; Js.showZ (port env);
                         "/images/generic-offline-screen.png"] in
          Some (match cc_offlinePicture (channel this) with
                | Some p => p
                | None => defaultOfflinePic
                end)
        else errorScreenPic
    end in
  let size := Js.template [Js.showZ (iW l); "x"; Js.showZ (iH l)] in
  match pic with
  | Some (String c rest as p) =>
      let l := push ["-i"; p] l in
      let l :=
        match duration l, vs_duration stats with
        | None, Some d => withDuration (Some (Js.template [Js.showZ (d + 150); "ms"])) l
        | _, _ => l
        end in
      let l :=
        withVideoComplex
          (Js.template
             [";["; Js.showZ (inputFiles l); ":0]format=yuv420p[formatted]";
              ";[formatted]scale=w="; Js.showZ (iW l); ":h="; Js.showZ (iH l);
              ":force_original_aspect_ratio=1[scaled]";
              ";[scaled]pad="; Js.showZ (iW l); ":"; Js.showZ (iH l);
              ":(ow-iw)/2:(oh-ih)/2[padded]";
              ";[padded]loop=loop=-1:size=1:start=0[looped]";
              ";[looped]realtime[videox]"])
          (withInputFiles (inputFiles l + 1) l) in
      if Js.includes (videoEncoder (opts this)) STILLIMAGE_SUPPORTED_ENCODERS
      then withStillImageTune true l else l
  | _ =>
      if String.eqb (errorScreen (opts this)) "static" then
        let l := push ["-f"; "lavfi"; "-i"; "nullsrc=s=64x36"] l in
        withInputFiles (inputFiles l + 1)
          (withVideoComplex
             (Js.template
                [";geq=random(1)*255:128:128[videoz];[videoz]scale=";
                 Js.showZ (iW l); ":"; Js.showZ (iH l);
                 "[videoy];[videoy]realtime[videox]"]) l)
      else if String.eqb (errorScreen (opts this)) "testsrc" then
        let l :=
          push ["-f"; "lavfi"; "-i"; Js.template ["testsrc=size="; size]] l in
        withInputFiles (inputFiles l + 1)
          (withVideoComplex ";realtime[videox]" l)
      else
        match streamUrl with
        | ErrorDescriptor errorTitle subtitle =>
            if String.eqb (errorScreen (opts this)) "text" then
              let sz2 := Js.ceilDiv (iH l) 33 in
              let sz1 := Js.ceilDiv (sz2 * 3) 2 in
              let sz3 := 2 * sz2 in
              let l :=
                push ["-f"; "lavfi"; "-i";
                      Js.template ["color=c=black:s="; size]] l in
              let l := withInputFiles (inputFiles l + 1) l in
              withVideoComplex
                (Js.template
                   [";drawtext=fontfile="; databaseDirectory env;
                    "/font.ttf:fontsize="; Js.showZ sz1;
                    ":fontcolor=white:x=(w-text_w)/2:y=(h-text_h)/2:text='";
                    errorTitle;
                    "',drawtext=fontfile="; databaseDirectory env;
                    "/font.ttf:fontsize="; Js.showZ sz2;
                    ":fontcolor=white:x=(w-text_w)/2:y=(h+text_h+";
                    Js.showZ sz3; ")/2:text='"; Js.showOption subtitle;
                    "'[videoy];[videoy]realtime[videox]"]) l
            else
              let l :=
                push ["-f"; "lavfi"; "-i";
                      Js.template ["color=c=black:s="; size]] l in
              withVideoComplex ";realtime[videox]"
                (withInputFiles (inputFiles l + 1) l)
        | Url _ =>
            let l :=
              push ["-f"; "lavfi"; "-i";
                    Js.template ["color=c=black:s="; size]] l in
            withVideoComplex ";realtime[videox]"
              (withInputFiles (inputFiles l + 1) l)
        end
  end.

(** Lines 504-532: the generated audio of an error or offline screen. *)
Definition generateAudio (this : FFMPEG) (errorTitle : string)
    (durstr : string) (l : Locals) : FFMPEG * Locals :=
  let l := withAudioComplex (Js.template [";aevalsrc=0:"; durstr; "[audioy]"]) l in
  let '(this, l) :=
    if String.eqb errorTitle "offline" then
      match cc_offlineSoundtrack (channel this) with
      | Some (String c rest as soundtrack) =>
          let l := push ["-i"; soundtrack] l in
          (this,
           withInputFiles (inputFiles l + 1)
             (withAudioComplex
                (Js.template [";["; Js.showZ (inputFiles l);
                              ":a]aloop=loop=-1:size=2147483647[audioy]"]) l))
      | _ => (this, l)
      end
    else if String.eqb (errorAudio (opts this)) "whitenoise"
            || (negb (String.eqb (errorAudio (opts this)) "sine")
                && audioOnly this)
    then
      (withVolumePercent (Z.min 70 (volumePercent this)) this,
       withAudioComplex
         (Js.template [";aevalsrc=random(0):"; durstr; "[audioy]"]) l)
    else if String.eqb (errorAudio (opts this)) "sine" then
      (withVolumePercent (Z.min 70 (volumePercent this)) this,
       withAudioComplex (Js.template [";sine=f=440:"; durstr; "[audioy]"]) l)
    else (this, l) in
  let l := if negb (audioOnly this) then push ["-pix_fmt"; "yuv420p"] l else l in
  (this, addAudioFilter ";[audioy]arealtime[audiox]" "[audiox]" l).

(** Lines 424-534: the inputs that have to be generated when there is no
    real video. *)
Definition generateInputs (env : ServerOptions) (this : FFMPEG)
    (streamUrl : StreamUrl) (stats : VideoStats) (l : Locals)
    : FFMPEG * Locals :=
  if negb (isString streamUrl) || isEmptyUrl streamUrl || vs_audioOnly stats
  then
    let l := withDoOverlay false l in
    let this := withAudioChannelsSampleRate true (withApad false this) in
    let l := withSize (wantedW this) (wantedH this) l in
    let l :=
      if negb (audioOnly this) then generateVideo env this streamUrl stats l
      else l in
    let durstr :=
      Js.template ["duration="; showOptionZ (vs_duration stats); "ms"] in
    let '(this, l) :=
      match streamUrl with
      | ErrorDescriptor errorTitle _ => generateAudio this errorTitle durstr l
      | Url _ => (this, l)
      end in
    (this, withCurrentVideo "[videox]" l)
  else (this, l).

(** Lines 535-542: the watermark input. *)
Definition overlayInput (this : FFMPEG) (watermark : option Watermark)
    (l : Locals) : FFMPEG * Locals :=
  match watermark with
  | Some wm =>
      match w_url wm with
      | Some url =>
          if doOverlay l then
            let l := if w_animated wm then push ["-ignore_loop"; "0"] l else l in
            let l := push ["-i"; url] l in
            (withEnsureResolution true this,
             withInputFiles (inputFiles l + 1)
               (withOverlayFile (inputFiles l) l))
          else (this, l)
      | None => (this, l)
      end
  | None => (this, l)
  end.

(** Lines 544-605: the resolution fix.  The result is [None] when the
    arithmetic leaves the integers: an undefined pixel aspect ([NaN], on
    which [gcd] may loop forever), or a division by zero. *)
Definition fixResolution (this : FFMPEG) (stats : VideoStats) (l : Locals)
    : option (FFMPEG * Locals) :=
  let beforeSizeChange := currentVideo l in
  let algo := scalingAlgorithm (opts this) in
  if negb (vs_audioOnly stats)
     && ((ensureResolution this
          && (anamorphic stats
              || negb (iW l =? wantedW this)
              || negb (iH l =? wantedH this)))
         || isLargerResolution (iW l) (iH l) (wantedW this) (wantedH this))
  then
    match pixelP stats, pixelQ stats with
    | Some pixelP, Some pixelQ =>
        let p := iW l * pixelP in
        let q := iH l * pixelQ in
        let g := gcd q p in
        if g =? 0 then None
        else
          let p := p / g in
          let q := q / g in
          if p =? 0 then None
          else
            let hypotheticalW1 := wantedW this in
            let hypotheticalH1 := (hypotheticalW1 * q) / p in
            let hypotheticalH2 := wantedH this in
            let size :=
              if hypotheticalH1 <=? wantedH this
              then Some (hypotheticalW1, hypotheticalH1)
              else if q =? 0 then None
                   else Some ((wantedH this * p) / q, hypotheticalH2) in
            match size with
            | None => None
            | Some (cw, ch) =>
                let l :=
                  addVideoFilter
                    (Js.template [";"; currentVideo l; "scale="; Js.showZ cw;
                                  ":"; Js.showZ ch; ":flags="; algo; "[scaled]"])
                    "scaled" l in
                let this :=
                  if ensureResolution this then this
                  else if (Z.rem cw 2 =? 1) || (Z.rem ch 2 =? 1)
                       then withWanted (cw + Z.rem cw 2) (ch + Z.rem ch 2) this
                       else this in
                let l :=
                  if negb (wantedW this =? cw) || negb (wantedH this =? ch)
                  then addVideoFilter
                         (Js.template [";["; currentVideo l; "]pad=";
                                       Js.showZ (wantedW this); ":";
                                       Js.showZ (wantedH this);
                                       ":(ow-iw)/2:(oh-ih)/2[blackpadded]"])
                         "blackpadded" l
                  else l in
                let name :=
                  if negb (ensureResolution this)
                     && negb (String.eqb beforeSizeChange "[fpchange]")
                  then "minsiz" else "siz" in
                let l :=
                  addVideoFilter
                    (Js.template [";["; currentVideo l; "]setsar=1["; name; "]"])
                    (Js.template ["["; name; "]"]) l in
                Some (this, withSize (wantedW this) (wantedH this) l)
            end
    | _, _ => None
    end
  else Some (this, l).

(** Lines 607-645: the watermark overlay. *)
Definition overlayFilter (this : FFMPEG) (watermark : option Watermark)
    (l : Locals) : Locals :=
  match watermark with
  | Some wm =>
      if doOverlay l && negb (audioOnly this) then
        let w := Js.roundDiv (w_width wm * iW l) 100 in
        let horz := Js.roundDiv (w_horizontalMargin wm * iW l) 100 in
        let vert := Js.roundDiv (w_verticalMargin wm * iH l) 100 in
        let icnDur :=
          if w_duration wm >? 0
          then Js.template [":enable='between(t,0,"; Js.showZ (w_duration wm); ")'"]
          else "" in
        let waterVideo := Js.template ["["; Js.showZ (overlayFile l); ":v]"] in
        let '(l, waterVideo) :=
          if negb (w_fixedSize wm)
          then (withVideoComplex
                  (videoComplex l
                   ++ Js.template [";"; waterVideo; "scale="; Js.showZ w;
                                   ":-1[icn]"])%string l,
                "[icn]")
          else (l, waterVideo) in
        let position :=
          if String.eqb (w_position wm) "top-left" then
            Js.template ["x="; Js.showZ horz; ":y="; Js.showZ vert]
          else if String.eqb (w_position wm) "top-right" then
            Js.template ["x=W-w-"; Js.showZ horz; ":y="; Js.showZ vert]
          else if String.eqb (w_position wm) "bottom-left" then
            Js.template ["x="; Js.showZ horz; ":y=H-h-"; Js.showZ vert]
          else if String.eqb (w_position wm) "bottom-right" then
            Js.template ["x=W-w-"; Js.showZ horz; ":y=H-h-"; Js.showZ vert]
          else "undefined" in
        let overlayShortest := if w_animated wm then "shortest=1:" else "" in
        addVideoFilter
          (Js.template [";"; currentVideo l; waterVideo; "overlay=";
                        overlayShortest; position; icnDur; "[comb]"])
          "[comb]" l
      else l
  | None => l
  end.

(** Lines 647-651: the volume filter. *)
Definition volumeFilter (this : FFMPEG) (l : Locals) : Locals :=
  if negb (volumePercent this =? 100) then
    addAudioFilter
      (Js.template [";"; currentAudio l; "volume=";
                    Js.showHundredths (volumePercent this); "[boosted]"])
      "[boosted]" l
  else l.

(** Lines 653-663: the audio padding.  The assignment [transcodeAudio = true]
    of the other branch is overwritten at line 671 before it is read. *)
Definition padAudio (this : FFMPEG) (stats : VideoStats) (l : Locals) : Locals :=
  if apad this && negb (audioOnly this) then
    addAudioFilter
      (Js.template [";"; currentAudio l; "apad=whole_dur=";
                    showOptionZ (vs_duration stats); "ms[padded]"])
      "[padded]" l
  else l.

Definition kilo (z : Z) : string := Js.template [Js.showZ z; "k"].

(** Lines 668-782: the codec decisions, the filter graph and the output
    mapping. *)
Definition mappingArgs (this : FFMPEG) (stats : VideoStats) (l : Locals)
    (beforeSizeChange : string) : list string :=
  let o := opts this in
  let transcodeVideo :=
    normalizeVideoCodec o
    && isDifferentVideoCodec (videoCodec stats) (videoEncoder o) in
  let transcodeAudio :=
    normalizeAudioCodec o
    && isDifferentAudioCodec (audioCodec stats) (audioEncoder o) in
  let currentVideo :=
    if negb transcodeVideo && String.eqb (currentVideo l) "[minsiz]"
    then beforeSizeChange else currentVideo l in
  let '(transcodeVideo, filterComplex, currentVideo) :=
    if negb (audioOnly this) then
      if negb (String.eqb currentVideo "[video]")
      then (true, videoComplex l, currentVideo)
      else (transcodeVideo, "", Js.template [Js.showZ (videoFile l); ":"; "v"])
    else (transcodeVideo, "", currentVideo) in
  let '(transcodeAudio, filterComplex, currentAudio) :=
    if negb (String.eqb (currentAudio l) "[audio]")
    then (true, (filterComplex ++ audioComplex l)%string, currentAudio l)
    else (transcodeAudio, filterComplex,
          Js.template [Js.showZ (audioFile l); ":"; audioIndexOf stats]) in
  let args := ffmpegArgs l in
  let args :=
    if negb (String.eqb filterComplex "") then
      args ++ ["-filter_complex"; Js.slice1 filterComplex]
      ++ (if alignAudio this then ["-shortest"] else [])
    else args in
  let args :=
    if negb (audioOnly this) then
      args
      ++ ["-map"; currentVideo; "-c:v";
          if transcodeVideo then videoEncoder o else "copy";
          "-sc_threshold"; "1000000000"]
      ++ (if useStillImageTune l then ["-tune"; "stillimage"] else [])
    else args in
  let args := args ++ ["-map"; currentAudio; "-flags"; "cgop+ilme"] in
  let args :=
    if transcodeVideo && negb (audioOnly this) then
      args ++ ["-b:v"; kilo (videoBitrate o); "-maxrate:v";
               kilo (videoBitrate o); "-bufsize:v"; kilo (videoBufferSize o)]
    else args in
  let args :=
    if transcodeAudio then
      args ++ ["-b:a"; kilo (audioBitrate o); "-maxrate:a";
               kilo (audioBitrate o); "-bufsize:a"; kilo (audioBufferSize o)]
      ++ (if audioChannelsSampleRate this
          then ["-ac"; Js.showZ (audioChannels o); "-ar";
                kilo (audioSampleRate o)]
          else [])
    else args in
  let args :=
    args ++ ["-c:a"; if transcodeAudio then audioEncoder o else "copy";
             "-map_metadata"; "-1"; "-movflags"; "+faststart";
             "-muxdelay"; "0"; "-muxpreload"; "0"] in
  args ++ ["-metadata";
           Js.template ["service_provider="; Js.dquote; "tunarr"; Js.dquote];
           "-metadata";
           Js.template ["service_name="; Js.dquote; cc_name (channel this);
                        Js.dquote]].

(** Lines 784-789: the duration limit and the muxer. *)
Definition closingArgs (duration : option string) : list string :=
  match duration with
  | Some d => ["-t"; d]
  | None => []
  end ++ ["-f"; "mpegts"; "pipe:1"].

(** What a call of [spawn] comes to. *)
Inductive SpawnResult :=
| Spawned (args : list string)   (* the child process runs with [args] *)
| PreemptivelyKilled             (* [hasBeenKilled]: nothing is started *)
| Disabled                       (* spawnError, spawnOffline: no transcoding *)
| ThrowsTypeError                (* [streamStats] is undefined *)
| LeavesIntegers.                (* see [fixResolution] *)

Definition spawn (env : ServerOptions) (this : FFMPEG) (streamUrl : StreamUrl)
    (streamStats : option VideoStats) (startTime : option Z)
    (duration : option string) (limitRead : bool)
    (watermark : option Watermark) : SpawnResult * FFMPEG :=
  match streamStats with
  | None => (ThrowsTypeError, this)
  | Some stats =>
      let l :=
        openingArgs this streamUrl stats startTime duration limitRead
          watermark in
      let l := frameRateAndDeinterlace this stats l in
      let '(this, l) := generateInputs env this streamUrl stats l in
      let '(this, l) := overlayInput this watermark l in
      let beforeSizeChange := currentVideo l in
      match fixResolution this stats l with
      | None => (LeavesIntegers, this)
      | Some (this, l) =>
          let l := overlayFilter this watermark l in
          let l := volumeFilter this l in
          let l := padAudio this stats l in
          let ffmpegArgs :=
            mappingArgs this stats l beforeSizeChange
            ++ closingArgs (Ffmpeg.duration l) in
          if hasBeenKilled this then (PreemptivelyKilled, this)
          else (Spawned ffmpegArgs,
                withFfmpegName "Stream FFMPEG"
                  (withFfmpeg (Some ffmpegArgs) this))
      end
  end.

Definition spawnStream (env : ServerOptions) (this : FFMPEG)
    (streamUrl : string) (streamStats : option VideoStats)
    (startTime : option Z) (duration : option string)
    (enableIcon : option Watermark) : SpawnResult * FFMPEG :=
  spawn env this (Url streamUrl) streamStats startTime duration true enableIcon.

Definition errorStats (this : FFMPEG) (duration : Z) : VideoStats :=
  {| videoWidth := wantedW this; videoHeight := wantedH this;
     vs_duration := Some duration; audioIndex := None;
     videoFramerate := None; videoScanType := None; vs_audioOnly := false;
     placeholderImage := None; anamorphic := false; pixelP := None;
     pixelQ := None; videoCodec := None; audioCodec := None |}.

Definition spawnError (env : ServerOptions) (this : FFMPEG) (title : string)
    (subtitle : option string) (duration : option Z)
    : SpawnResult * FFMPEG :=
  if negb (enableTranscoding (opts this))
     || String.eqb (errorScreen (opts this)) "kill"
  then
    (Disabled,
     emit (EvError (-1)
             (Js.template ["error stream disabled. "; title; " ";
                           Js.showOption subtitle])) this)
  else
    let duration :=
      match duration with
      | None => MAXIMUM_ERROR_DURATION_MS
      | Some d => d
      end in
    let duration := Z.min MAXIMUM_ERROR_DURATION_MS duration in
    let streamStats := errorStats this duration in
    spawn env this (ErrorDescriptor title subtitle) (Some streamStats) None
      (Some (Js.template [showOptionZ (vs_duration streamStats); "ms"]))
      true None.

Definition spawnOffline (env : ServerOptions) (this : FFMPEG) (duration : Z)
    : SpawnResult * FFMPEG :=
  if negb (enableTranscoding (opts this)) then
    (Disabled, emit (EvEnd (Some (-1, "offline stream disabled."))) this)
  else
    spawn env this (ErrorDescriptor "offline" None)
      (Some (errorStats this duration)) None
      (Some (Js.template [Js.showZ duration; "ms"])) true None.

(** *** The exit handler *)

(** The events that the ['exit'] handler installed by [spawn] emits, for the
    exit [code] of the child ([None] is [null]: the child was ended by a
    signal). *)
Definition exitCommand (this : FFMPEG) (ffmpegArgs : list string) : string :=
  Js.template [ffmpegExecutablePath (opts this); " "; Js.join " " ffmpegArgs].

Definition exitEvents (this : FFMPEG) (ffmpegArgs : list string)
    (code : option Z) : list Event :=
  let cmd := exitCommand this ffmpegArgs in
  match code with
  | None => [EvClose None]
  | Some code =>
      if code =? 0 then [EvEnd None]
      else if code =? 255 then
        if hasBeenKilled this then [EvClose (Some code)]
        else (if negb (sentData this) then [EvError code cmd] else [])
             ++ [EvClose (Some code)]
      else [EvError code cmd]
  end.

Definition onExit (this : FFMPEG) (ffmpegArgs : list string)
    (code : option Z) : FFMPEG :=
  fold_left (fun t e => emit e t) (exitEvents this ffmpegArgs code) this.

Definition isEnd (e : Event) : bool :=
  match e with EvEnd _ => true | _ => false end.
Definition isError (e : Event) : bool :=
  match e with EvError _ _ => true | _ => false end.
Definition isClose (e : Event) : bool :=
  match e with EvClose _ => true | _ => false end.

(** The methods of the wrapper and the exit of its child, as the operations
    that change an [FFMPEG] object. *)
Inductive Operation :=
| OpSetAudioOnly (b : bool)
| OpSpawn (streamUrl : StreamUrl) (streamStats : option VideoStats)
    (startTime : option Z) (duration : option string) (limitRead : bool)
    (watermark : option Watermark)
| OpSpawnError (title : string) (subtitle : option string)
    (duration : option Z)
| OpSpawnOffline (duration : Z)
| OpKill
| OpExit (code : option Z).

Definition perform (env : ServerOptions) (this : FFMPEG) (op : Operation)
    : FFMPEG :=
  match op with
  | OpSetAudioOnly b => setAudioOnly b this
  | OpSpawn u s t d r w => snd (spawn env this u s t d r w)
  | OpSpawnError t s d => snd (spawnError env this t s d)
  | OpSpawnOffline d => snd (spawnOffline env this d)
  | OpKill => kill this
  | OpExit code =>
      match ffmpeg this with
      | Some args => onExit this args code
      | None => this
      end
  end.

(** *** Sample data *)

Definition sampleEnv : ServerOptions :=
  {| port := 8000; databaseDirectory := "/data" |}.

Definition sampleChannel : ContextChannel :=
  {| cc_name := "Channel 1"; cc_uuid := "b3c1"; cc_transcoding := None;
     cc_offlinePicture := None; cc_offlineSoundtrack := None |}.

Definition sampleFFMPEG : FFMPEG :=
  newFFMPEG sampleEnv HelperFuncs.sampleSettings sampleChannel.

(** *** The inputs of an encoder plan *)

(** Everything the argument list is built from: the ffmpeg settings and the
    channel given to the constructor, the audio-only switch, and the
    arguments of [spawn]. *)
Record PlanInputs := mkPlanInputs {
  pi_settings : FfmpegSettings;
  pi_channel : ContextChannel;
  pi_audioOnly : bool;
  pi_streamUrl : StreamUrl;
  pi_streamStats : option VideoStats;
  pi_startTime : option Z;
  pi_duration : option string;
  pi_limitRead : bool;
  pi_watermark : option Watermark
}.

(** One invocation of the argument-list construction: a wrapper is made
    from the settings and the channel, and [spawn] is called on it. *)
Definition encoderPlan (env : ServerOptions) (i : PlanInputs) : SpawnResult :=
  fst (spawn env
         (setAudioOnly (pi_audioOnly i)
            (newFFMPEG env (pi_settings i) (pi_channel i)))
         (pi_streamUrl i) (pi_streamStats i) (pi_startTime i)
         (pi_duration i) (pi_limitRead i) (pi_watermark i)).

(** The wrapper with the fields that [spawn] does not read cleared. *)
Definition readFields (t : FFMPEG) : FFMPEG :=
  mkFFMPEG (opts t) (errorPicturePath t) "" (channel t) "" (wantedW t)
    (wantedH t) false (apad t) (audioChannelsSampleRate t)
    (ensureResolution t) (volumePercent t) (hasBeenKilled t) (audioOnly t)
    (alignAudio t) None [].

(** Two wrappers agree on every field that [spawn] reads. *)
Definition sameReadFields (a b : FFMPEG) : Prop := readFields a = readFields b.

(** A source of 641x481 square pixels in a codec that has to be transcoded,
    for settings that do not normalise the resolution (target 1280x720). *)
Definition oddSizedStats : VideoStats :=
  {| videoWidth := 641; videoHeight := 481; vs_duration := Some 100000;
     audioIndex := Some "1"; videoFramerate := None; videoScanType := None;
     vs_audioOnly := false; placeholderImage := None; anamorphic := false;
     pixelP := Some 1; pixelQ := Some 1; videoCodec := Some "mpeg4";
     audioCodec := Some "aac" |}.

Definition unnormalisedSettings : FfmpegSettings :=
  mkFfmpegSettings "/usr/bin/ffmpeg" true false 4 0 "libx264" "aac"
    (mkResolution 1280 720) 10000 1000 192 50 100 2 48 "pic" "silent"
    true true false false 60 "bicubic" "none" false.

Definition oddSizedInputs : PlanInputs :=
  {| pi_settings := unnormalisedSettings; pi_channel := sampleChannel;
     pi_audioOnly := false; pi_streamUrl := Url "http://plex/video.mkv";
     pi_streamStats := Some oddSizedStats; pi_startTime := Some 12;
     pi_duration := Some "30000ms"; pi_limitRead := true;
     pi_watermark := None |}.

(** *** Proof tools *)

(** Reading a local variable after assignments. *)
Ltac read_locals :=
  cbn [push withStillImageTune withDuration withInputFiles withOverlayFile
       withDoOverlay withSize withCurrentVideo withCurrentAudio
       withAudioComplex withVideoComplex addVideoFilter addAudioFilter
       ffmpegArgs useStillImageTune duration inputFiles audioFile videoFile
       overlayFile doOverlay iW iH currentVideo currentAudio audioComplex
       videoComplex fst snd
       withFfmpegName withWanted withApad withAudioChannelsSampleRate
       withEnsureResolution withVolumePercent withHasBeenKilled withFfmpeg
       emit setAudioOnly opts errorPicturePath ffmpegName channel ffmpegPath
       wantedW wantedH sentData apad audioChannelsSampleRate ensureResolution
       volumePercent hasBeenKilled audioOnly alignAudio ffmpeg emitted] in *.

(** Case analysis on every condition of a step of [spawn]. *)
Ltac break_conditions :=
  repeat (read_locals;
          match goal with
          | |- context [match ?x with _ => _ end] =>
              lazymatch x with
              | context [match _ with _ => _ end] => fail
              | _ => destruct x
              end
          end);
  read_locals.


End Ffmpeg.

(** ** stream/VideoStream.ts: the redirect loop of startStream *)

Module VideoStream.

Import HelperFuncs.

#[local] Open Scope string_scope.
#[local] Open Scope list_scope.
#[local] Open Scope Z_scope.

(** [StreamLineupItem] of [dao/derived_types/StreamLineup], with the fields
    [startStream] reads and writes. *)
Record StreamLineupItem := mkStreamLineupItem {
  sli_type : string;
  sli_title : option string;
  sli_error : option string;
  sli_duration : Z;
  sli_start : Z;
  sli_streamDuration : option Z;
  sli_beginningOffset : option Z
}.

(** The channels of the store ([channelDB]), by uuid, each with its lineup;
    [loadChannelAndLineup] is a lookup. *)
Definition loadChannelAndLineup (store : gmap string Channel) (id : string)
    : option Channel :=
  store !! id.

(** The item recorded when a redirect points at a channel already visited
    (lines 159-166). *)
Definition recursiveRedirectItem (redirectChannels : list string)
    : StreamLineupItem :=
  {| sli_type := "offline";
     sli_title := Some "Error";
     sli_error :=
       Some ("Recursive channel redirect found: "
             ++ Js.join ", " redirectChannels)%string;
     sli_duration := 60000;
     sli_start := 0;
     sli_streamDuration := None;
     sli_beginningOffset := None |}.

Definition invalidRedirect : string :=
  "Invalid redirect to a channel that doesn't exist".

(** Modelled from the spec: [createOfflineStreamLineupIteam] is imported but
    not part of the sources; the walker surfaces "a 60 s offline item
    bearing the error", here as the program of the current position. *)
Definition offlineProgramWithError (duration : Z) (msg : string) : Program :=
  mkProgram "offline" "" "" "" "" "" "" duration true "" None (Some msg).

Section RedirectLoop.

(** [constants.SLACK], which the resolver reads. *)
Variable SLACK : Z.

(** [serverCtx.channelCache] is not part of the sources.  The loop uses two of
    its operations; they are parameters here, with the cache as the state
    they read and change. *)
Variable Cache : Type.
Variable getCurrentLineupItem : Cache -> string -> Z -> option StreamLineupItem.
Variable recordPlayback : Cache -> string -> Z -> StreamLineupItem -> Cache.

Variable store : gmap string Channel.
Variable startTimestamp : Z.

(** The variables of [startStream] that the loop reads and writes. *)
Record LoopState := mkLoopState {
  currentProgram : ProgramAndTimeElapsed;
  channelContext : string;              (* channelContext.uuid *)
  redirectChannels : list string;
  upperBounds : list Z;
  lineupItem : option StreamLineupItem;
  cache : Cache
}.

Inductive Iteration :=
| Continue (st : LoopState)      (* back to the loop condition *)
| Break (st : LoopState)         (* [break] *)
| Rejects (message : string).    (* the resolver throws *)

Definition isRedirect (st : LoopState) : bool :=
  String.eqb (prog_type (program (currentProgram st))) "redirect".

(** One run of the loop body, lines 149-200. *)
Definition iteration (st : LoopState) : Iteration :=
  let p := program (currentProgram st) in
  let redirectChannels := redirectChannels st ++ [channelContext st] in
  let upperBounds :=
    upperBounds st ++ [prog_duration p - timeElapsed (currentProgram st)] in
  let cache :=
    if Js.includes (prog_channel p) redirectChannels
    then recordPlayback (cache st) (channelContext st) startTimestamp
           (recursiveRedirectItem redirectChannels)
    else cache st in
  let nextChannelId := prog_channel p in
  match loadChannelAndLineup store nextChannelId with
  | None =>
      Continue
        {| currentProgram :=
             {| program := offlineProgramWithError 60000 invalidRedirect;
                timeElapsed := 0; programIndex := -1 |};
           channelContext := channelContext st;
           redirectChannels := redirectChannels;
           upperBounds := upperBounds;
           lineupItem := lineupItem st;
           cache := cache |}
  | Some newChannel =>
      match getCurrentLineupItem cache nextChannelId startTimestamp with
      | Some item =>
          Break
            {| currentProgram := currentProgram st;
               channelContext := nextChannelId;
               redirectChannels := redirectChannels;
               upperBounds := upperBounds;
               lineupItem := Some item;
               cache := cache |}
      | None =>
          match getCurrentProgramAndTimeElapsed SLACK startTimestamp newChannel with
          | Ok next =>
              Continue
                {| currentProgram := next;
                   channelContext := nextChannelId;
                   redirectChannels := redirectChannels;
                   upperBounds := upperBounds;
                   lineupItem := None;
                   cache := cache |}
          | Throw message => Rejects message
          end
      end
  end.

Inductive Outcome :=
| Finished (st : LoopState)
| Rejected (message : string).

(** The [while] loop, lines 145-201, run for at most [hops] iterations:
    [None] when the loop is still running after them. *)
Fixpoint redirectLoop (hops : nat) (st : LoopState) : option Outcome :=
  if isRedirect st then
    match hops with
    | O => None
    | S hops =>
        match iteration st with
        | Continue st' => redirectLoop hops st'
        | Break st' => Some (Finished st')
        | Rejects message => Some (Rejected message)
        end
    end
  else Some (Finished st).

(** Lines 132-143: the state in which the loop is entered for the channel of
    the request. *)
Definition enterLoop (uuid : string) (channel : Channel) (c : Cache)
    : Result LoopState :=
  match getCurrentProgramAndTimeElapsed SLACK startTimestamp channel with
  | Ok p =>
      Ok {| currentProgram := p; channelContext := uuid;
            redirectChannels := []; upperBounds := [];
            lineupItem := None; cache := c |}
  | Throw message => Throw message
  end.

Definition MAX_SAFE_INTEGER : Z := 9007199254740991.

Definition withStreamDuration (d : Z) (i : StreamLineupItem) : StreamLineupItem :=
  mkStreamLineupItem (sli_type i) (sli_title i) (sli_error i) (sli_duration i)
    (sli_start i) (Some d) (sli_beginningOffset i).

(** Lines 263-286: the loop over the redirects, innermost first; [pairs] are
    the remaining [(redirectChannels[i], upperBounds[i])], last ones first. *)
Fixpoint adjustUpperBounds (pairs : list (string * Z)) (beginningOffset : Z)
    (upperBound : Z) (item : StreamLineupItem) (c : Cache)
    : StreamLineupItem * Cache :=
  match pairs with
  | [] => (item, c)
  | (channel, thisUpperBound) :: rest =>
      let nextBound := thisUpperBound + beginningOffset in
      let prevBound :=
        match sli_streamDuration item with
        | None => upperBound
        | Some d => Z.min upperBound d
        end in
      let newDuration := Z.min nextBound prevBound in
      let item := withStreamDuration newDuration item in
      adjustUpperBounds rest beginningOffset newDuration item
        (recordPlayback c channel startTimestamp item)
  end.

(** Lines 259-287 for a lineup item that the loop took from the cache. *)
Definition surfaceCachedItem (st : LoopState) : option (StreamLineupItem * Cache) :=
  match lineupItem st with
  | Some item =>
      let beginningOffset :=
        match sli_beginningOffset item with Some b => b | None => 0 end in
      Some (adjustUpperBounds
              (rev (combine (redirectChannels st) (upperBounds st)))
              beginningOffset MAX_SAFE_INTEGER item (cache st))
  | None => None
  end.

(** The channels the loop has been at, including the current one. *)
Definition visitedSet (st : LoopState) : gset string :=
  list_to_set (channelContext st :: redirectChannels st).

(** The invariant of the loop, for a set [recorded] of channels for which the
    loop has recorded a recursive-redirect item: what was visited or recorded
    is a channel of the store, a recorded channel has an item in the cache,
    and the current channel is not recorded. *)
Record LoopInvariant (st : LoopState) (recorded : gset string) : Prop :=
  mkLoopInvariant {
    inv_visited : visitedSet st ⊆ dom store;
    inv_recorded : recorded ⊆ dom store;
    inv_cached :
      forall r, r ∈ recorded ->
                getCurrentLineupItem (cache st) r startTimestamp <> None;
    inv_current : channelContext st ∉ recorded
  }.

(** The number of iterations that can still continue. *)
Definition remainingHops (st : LoopState) (recorded : gset string) : nat :=
  ((size (dom store) - size (visitedSet st))
   + (size (dom store) - 1 - size recorded))%nat.

End RedirectLoop.

(** *** A reference cache and scenario S5 *)

(** The least cache that returns what was recorded: a map from the channel
    to the timestamp and item recorded last, read back at that timestamp. *)
Definition recordingGet (c : gmap string (Z * StreamLineupItem))
    (channel : string) (t : Z) : option StreamLineupItem :=
  match c !! channel with
  | Some (t0, item) => if t0 =? t then Some item else None
  | None => None
  end.

Definition recordingPut (c : gmap string (Z * StreamLineupItem))
    (channel : string) (t : Z) (item : StreamLineupItem)
    : gmap string (Z * StreamLineupItem) :=
  <[channel := (t, item)]> c.

Definition redirectProgram (target : string) (duration : Z) : Program :=
  mkProgram "redirect" "" "" "" "" "" "" duration true target None None.

(** Channels X and Y, each with a single redirect item of 600 s to the
    other. *)
Definition channelX : Channel := channelOf 0 600000 [redirectProgram "Y" 600000].
Definition channelY : Channel := channelOf 0 600000 [redirectProgram "X" 600000].
Definition storeS5 : gmap string Channel :=
  <["X" := channelX]> (<["Y" := channelY]> ∅).

Definition enterS5 : Result (LoopState (gmap string (Z * StreamLineupItem))) :=
  enterLoop Constants.SLACK (gmap string (Z * StreamLineupItem)) 1000 "X"
    channelX ∅.

Definition loopS5 (hops : nat)
    : option (Outcome (gmap string (Z * StreamLineupItem))) :=
  match enterS5 with
  | Ok st =>
      redirectLoop Constants.SLACK _ recordingGet recordingPut storeS5 1000
        hops st
  | Throw _ => None
  end.

End VideoStream.

(** ** The fields of the wrapper that no argument list is built into *)

Module FfmpegFrame.

Import Ffmpeg.

(** [keeps a b]: wrapper [b] has the values of [a] in every field except
    those that the steps of [spawn] assign while they build the argument
    list ([wantedW], [wantedH], [apad], [audioChannelsSampleRate],
    [ensureResolution], [volumePercent]) and the name of the child. *)
Definition keeps (a b : FFMPEG) : Prop :=
  opts b = opts a
  /\ errorPicturePath b = errorPicturePath a
  /\ channel b = channel a
  /\ ffmpegPath b = ffmpegPath a
  /\ sentData b = sentData a
  /\ hasBeenKilled b = hasBeenKilled a
  /\ audioOnly b = audioOnly a
  /\ alignAudio b = alignAudio a
  /\ ffmpeg b = ffmpeg a
  /\ emitted b = emitted a.

End FfmpegFrame.

(** * Properties of the lineup resolver *)

Module ResolverProperties.

Import HelperFuncs.

Section WithSlack.

(** The properties hold for every value of [constants.SLACK]. *)
Variable SLACK : Z.

#[local] Abbreviation findProgram := (HelperFuncs.findProgram SLACK).
#[local] Abbreviation getCurrentProgramAndTimeElapsed :=
  (HelperFuncs.getCurrentProgramAndTimeElapsed SLACK).

Lemma prefixDuration_nil n : prefixDuration n [] = 0.
Proof. destruct n; reflexivity. Qed.

Lemma prefixDuration_cons n p rest :
  prefixDuration (S n) (p :: rest) = prog_duration p + prefixDuration n rest.
Proof. reflexivity. Qed.

Lemma prefixDuration_0 programs : prefixDuration 0 programs = 0.
Proof. reflexivity. Qed.

(** The loop stops at the first index whose running total exceeds the time
    it was started with, and applies the boundary smoothing there. *)
Lemma findProgram_first_exceeding :
  forall (rest : list Program) (l2 y t : Z) (i : nat) (item : Program),
    rest !! i = Some item ->
    (forall k, (k < i)%nat -> prefixDuration (S k) rest <= t) ->
    t < prefixDuration (S i) rest ->
    findProgram rest l2 y t =
      let timeIntoItem := t - prefixDuration i rest in
      if (prog_duration item >? 2 * SLACK)
         && (timeIntoItem >? prog_duration item - SLACK)
      then (0, Z.rem (y + Z.of_nat i + 1) l2)
      else (timeIntoItem, y + Z.of_nat i).
Proof.
  induction rest as [|p rest IH]; intros l2 y t i item Hlook Hbefore Hexceeds.
  - discriminate.
  - destruct i as [|i].
    + injection Hlook as ->.
      rewrite prefixDuration_cons, prefixDuration_0 in Hexceeds.
      cbn [HelperFuncs.findProgram]. rewrite prefixDuration_0.
      replace (t - prog_duration item <? 0) with true
        by (symmetry; apply Z.ltb_lt; lia).
      cbv zeta. rewrite !Z.add_0_r, Z.sub_0_r. reflexivity.
    + cbn in Hlook.
      assert (Hp : prog_duration p <= t).
      { specialize (Hbefore 0%nat ltac:(lia)).
        rewrite prefixDuration_cons, prefixDuration_0 in Hbefore. lia. }
      cbn [HelperFuncs.findProgram].
      replace (t - prog_duration p <? 0) with false
        by (symmetry; apply Z.ltb_ge; lia).
      rewrite (IH l2 (y + 1) (t - prog_duration p) i item Hlook).
      * cbv zeta. rewrite prefixDuration_cons.
        replace (t - prog_duration p - prefixDuration i rest)
          with (t - (prog_duration p + prefixDuration i rest)) by lia.
        replace (y + 1 + Z.of_nat i + 1) with (y + Z.of_nat (S i) + 1) by lia.
        replace (y + 1 + Z.of_nat i) with (y + Z.of_nat (S i)) by lia.
        reflexivity.
      * intros k Hk. specialize (Hbefore (S k) ltac:(lia)).
        rewrite prefixDuration_cons in Hbefore. lia.
      * rewrite prefixDuration_cons in Hexceeds. lia.
Qed.

(** The index the loop returns is [-1] or an index of the lineup. *)
Lemma findProgram_index_range :
  forall (rest : list Program) (l2 y t : Z),
    0 <= y -> l2 = y + Z.of_nat (length rest) ->
    snd (findProgram rest l2 y t) = -1
    \/ 0 <= snd (findProgram rest l2 y t) < l2.
Proof.
  induction rest as [|p rest IH]; intros l2 y t Hy Hl2; cbn [HelperFuncs.findProgram].
  - left. reflexivity.
  - cbn [length] in Hl2.
    destruct (t - prog_duration p <? 0).
    + right.
      destruct ((prog_duration p >? 2 * SLACK)
                && (t >? prog_duration p - SLACK)); cbn [snd].
      * pose proof (Z.rem_bound_pos (y + 1) l2 ltac:(lia) ltac:(lia)). lia.
      * lia.
    + apply IH; lia.
Qed.

(** The time the loop returns is not negative when it starts that way. *)
Lemma findProgram_time_nonneg :
  forall (rest : list Program) (l2 y t : Z),
    0 <= t -> 0 <= fst (findProgram rest l2 y t).
Proof.
  induction rest as [|p rest IH]; intros l2 y t Ht; cbn [HelperFuncs.findProgram].
  - exact Ht.
  - destruct (t - prog_duration p <? 0) eqn:Hlt.
    + destruct ((prog_duration p >? 2 * SLACK)
                && (t >? prog_duration p - SLACK)); cbn [fst]; lia.
    + apply IH. apply Z.ltb_ge in Hlt. lia.
Qed.

(** The loop finds an item as soon as the lineup lasts longer than the
    (non-negative) time it is started with. *)
Lemma findProgram_found :
  forall (rest : list Program) (l2 y t : Z),
    0 <= y -> l2 = y + Z.of_nat (length rest) ->
    0 <= t < prefixDuration (length rest) rest ->
    snd (findProgram rest l2 y t) <> -1.
Proof.
  induction rest as [|p rest IH]; intros l2 y t Hy Hl2 Hsum.
  - cbn in Hsum. lia.
  - cbn [length] in Hsum, Hl2. rewrite prefixDuration_cons in Hsum.
    cbn [HelperFuncs.findProgram].
    destruct (t - prog_duration p <? 0) eqn:Hlt.
    + destruct ((prog_duration p >? 2 * SLACK)
                && (t >? prog_duration p - SLACK)); cbn [snd].
      * pose proof (Z.rem_bound_pos (y + 1) l2 ltac:(lia) ltac:(lia)). lia.
      * lia.
    + apply Z.ltb_ge in Hlt. apply IH; lia.
Qed.

Lemma elapsed_rem (now : Z) (channel : Channel) :
  ch_startTimeEpoch channel <= now -> 0 < ch_duration channel ->
  Z.rem (now - ch_startTimeEpoch channel) (ch_duration channel)
  = elapsedInLoop now channel.
Proof.
  intros Hstart Hdur. unfold elapsedInLoop.
  apply Z.rem_mod_nonneg; lia.
Qed.

(** What the resolver returns is decided by the loop. *)
Lemma resolver_unfold (now : Z) (channel : Channel) (t idx : Z) (p : Program) :
  ch_startTimeEpoch channel <= now -> 0 < ch_duration channel ->
  findProgram (ch_programs channel)
    (Z.of_nat (length (ch_programs channel))) 0
    (elapsedInLoop now channel) = (t, idx) ->
  0 <= idx ->
  ch_programs channel !! Z.to_nat idx = Some p ->
  getCurrentProgramAndTimeElapsed now channel
  = Ok {| program := p; timeElapsed := t; programIndex := idx |}.
Proof.
  intros Hstart Hdur Hloop Hidx Hp. unfold HelperFuncs.getCurrentProgramAndTimeElapsed.
  cbv zeta.
  replace (ch_startTimeEpoch channel >? now) with false
    by (symmetry; rewrite Z.gtb_ltb; apply Z.ltb_ge; lia).
  replace (ch_duration channel =? 0) with false
    by (symmetry; apply Z.eqb_neq; lia).
  rewrite elapsed_rem, Hloop by assumption.
  replace (idx =? -1) with false by (symmetry; apply Z.eqb_neq; lia).
  rewrite Hp. reflexivity.
Qed.

(** C1. For a channel with a non-empty lineup and a time [now] at or after
    its start time (the modulus, [channel.duration], being positive), let
    [elapsed = (now - startTime) mod channel.duration] and let [i] be the
    first index at which the running total of the item durations exceeds
    [elapsed].  The resolver returns index [i] with [timeIntoItem = elapsed]
    minus the durations of the items before [i]; except that when the item
    lasts more than [2 * SLACK] and [timeIntoItem > duration - SLACK] it
    returns index [(i + 1) mod N] with [timeIntoItem = 0].  In particular
    scenario S1 resolves at 70 s to (B, 10 s, 1). *)
Theorem resolver_walk_and_smoothing :
  (forall (now : Z) (channel : Channel) (i : nat) (item : Program),
      ch_programs channel <> [] ->
      ch_startTimeEpoch channel <= now ->
      0 < ch_duration channel ->
      ch_programs channel !! i = Some item ->
      (forall k, (k < i)%nat ->
                 prefixDuration (S k) (ch_programs channel)
                 <= elapsedInLoop now channel) ->
      elapsedInLoop now channel < prefixDuration (S i) (ch_programs channel) ->
      let N := Z.of_nat (length (ch_programs channel)) in
      let timeIntoItem :=
        elapsedInLoop now channel - prefixDuration i (ch_programs channel) in
      if (prog_duration item >? 2 * SLACK)
         && (timeIntoItem >? prog_duration item - SLACK)
      then
        exists next,
          ch_programs channel !! Z.to_nat ((Z.of_nat i + 1) mod N) = Some next
          /\ getCurrentProgramAndTimeElapsed now channel
             = Ok {| program := next; timeElapsed := 0;
                     programIndex := (Z.of_nat i + 1) mod N |}
      else
        getCurrentProgramAndTimeElapsed now channel
        = Ok {| program := item; timeElapsed := timeIntoItem;
                programIndex := Z.of_nat i |})
  /\ HelperFuncs.getCurrentProgramAndTimeElapsed Constants.SLACK 70000
       channelS1
     = Ok {| program := progB; timeElapsed := 10000; programIndex := 1 |}.
Proof.
  split; [|reflexivity].
  intros now channel i item Hne Hstart Hdur Hlook Hbefore Hexceeds N timeIntoItem.
  pose proof (findProgram_first_exceeding (ch_programs channel) N 0
                (elapsedInLoop now channel) i item Hlook Hbefore Hexceeds)
    as Hloop.
  cbv zeta in Hloop. fold timeIntoItem in Hloop.
  assert (HN : N = Z.of_nat (length (ch_programs channel))) by reflexivity.
  clearbody N. subst N.
  assert (Hi : (i < length (ch_programs channel))%nat)
    by (eapply lookup_lt_Some; eassumption).
  destruct ((prog_duration item >? 2 * SLACK)
            && (timeIntoItem >? prog_duration item - SLACK)).
  - remember (Z.of_nat (length (ch_programs channel))) as len eqn:Hlen.
    assert (Hrange : 0 <= (Z.of_nat i + 1) mod len < len)
      by (apply Z.mod_pos_bound; lia).
    destruct (lookup_lt_is_Some_2 (ch_programs channel)
                (Z.to_nat ((Z.of_nat i + 1) mod len))) as [next Hnext].
    { revert Hrange. generalize ((Z.of_nat i + 1) mod len). intros m Hm. lia. }
    exists next. split; [exact Hnext|].
    apply resolver_unfold; try assumption; [|lia].
    rewrite <- Hlen, Hloop. f_equal.
    rewrite Z.add_0_l. apply Z.rem_mod_nonneg; lia.
  - apply resolver_unfold; try assumption; try lia.
    rewrite Nat2Z.id. exact Hlook.
Qed.

(** A result of the resolver never carries a negative elapsed time. *)
Lemma resolver_time_nonneg (now : Z) (channel : Channel)
    (obj : ProgramAndTimeElapsed) :
  getCurrentProgramAndTimeElapsed now channel = Ok obj ->
  0 <= timeElapsed obj.
Proof.
  unfold HelperFuncs.getCurrentProgramAndTimeElapsed. cbv zeta.
  destruct (ch_startTimeEpoch channel >? now) eqn:Hstart.
  - intros [= <-]. cbn. lia.
  - destruct (ch_duration channel =? 0) eqn:Hdur; [discriminate|].
    apply Z.eqb_neq in Hdur.
    rewrite Z.gtb_ltb in Hstart. apply Z.ltb_ge in Hstart.
    pose proof (findProgram_time_nonneg (ch_programs channel)
                  (Z.of_nat (length (ch_programs channel))) 0
                  (Z.rem (now - ch_startTimeEpoch channel)
                     (ch_duration channel))
                  ltac:(apply Z.rem_nonneg; lia)) as Hnonneg.
    destruct (findProgram _ _ _ _) as [t idx]. cbn [fst] in Hnonneg.
    destruct (idx =? -1); [discriminate|].
    destruct (ch_programs channel !! Z.to_nat idx); [|discriminate].
    intros [= <-]. exact Hnonneg.
Qed.

(** Under the data-model invariant (the item durations sum to a positive
    [channel.duration]) the resolver returns an item at every time at or
    after the start time. *)
Lemma resolver_total (now : Z) (channel : Channel) :
  ch_startTimeEpoch channel <= now ->
  0 < ch_duration channel ->
  prefixDuration (length (ch_programs channel)) (ch_programs channel)
  = ch_duration channel ->
  exists obj, getCurrentProgramAndTimeElapsed now channel = Ok obj.
Proof.
  intros Hstart Hdur Hsum.
  set (N := Z.of_nat (length (ch_programs channel))).
  pose proof (Z.mod_pos_bound (now - ch_startTimeEpoch channel)
                (ch_duration channel) Hdur) as Hbound.
  fold (elapsedInLoop now channel) in Hbound.
  pose proof (findProgram_found (ch_programs channel) N 0
                (elapsedInLoop now channel) ltac:(lia) ltac:(unfold N; lia)
                ltac:(rewrite Hsum; exact Hbound)) as Hfound.
  pose proof (findProgram_index_range (ch_programs channel) N 0
                (elapsedInLoop now channel) ltac:(lia) ltac:(unfold N; lia))
    as Hrange.
  destruct (findProgram (ch_programs channel) N 0 (elapsedInLoop now channel))
    as [t idx] eqn:Hloop.
  cbn [snd] in Hfound, Hrange.
  destruct Hrange as [Hrange|Hrange]; [contradiction|].
  destruct (lookup_lt_is_Some_2 (ch_programs channel) (Z.to_nat idx))
    as [p Hp]; [unfold N in Hrange; lia|].
  eexists. apply (resolver_unfold now channel t idx p); try assumption; lia.
Qed.

(** The loop runs off the end when no running total exceeds the time it is
    started with. *)
Lemma findProgram_not_found :
  forall (rest : list Program) (l2 y t : Z),
    (forall k, (k < length rest)%nat -> prefixDuration (S k) rest <= t) ->
    snd (findProgram rest l2 y t) = -1.
Proof.
  induction rest as [|p rest IH]; intros l2 y t Hall; cbn [HelperFuncs.findProgram].
  - reflexivity.
  - assert (Hp : prog_duration p <= t).
    { specialize (Hall 0%nat ltac:(cbn; lia)).
      rewrite prefixDuration_cons, prefixDuration_0 in Hall. lia. }
    replace (t - prog_duration p <? 0) with false
      by (symmetry; apply Z.ltb_ge; lia).
    apply IH. intros k Hk. specialize (Hall (S k) ltac:(cbn; lia)).
    rewrite prefixDuration_cons in Hall. lia.
Qed.

(** Conversely, when the loop runs off the end, no running total exceeded
    the time it was started with. *)
Lemma findProgram_overrun :
  forall (rest : list Program) (l2 y t : Z),
    0 <= y -> l2 = y + Z.of_nat (length rest) ->
    snd (findProgram rest l2 y t) = -1 ->
    forall k, (k < length rest)%nat -> prefixDuration (S k) rest <= t.
Proof.
  induction rest as [|p rest IH]; intros l2 y t Hy Hl2 Hend k Hk.
  - cbn in Hk. lia.
  - cbn [length] in Hl2, Hk. cbn [HelperFuncs.findProgram] in Hend.
    destruct (t - prog_duration p <? 0) eqn:Hlt.
    + destruct ((prog_duration p >? 2 * SLACK)
                && (t >? prog_duration p - SLACK)); cbn [snd] in Hend.
      * pose proof (Z.rem_bound_pos (y + 1) l2 ltac:(lia) ltac:(lia)). lia.
      * lia.
    + apply Z.ltb_ge in Hlt. rewrite prefixDuration_cons.
      destruct k as [|k]; [rewrite prefixDuration_0; lia|].
      pose proof (IH l2 (y + 1) (t - prog_duration p) ltac:(lia) ltac:(lia)
                    Hend k ltac:(lia)).
      lia.
Qed.

(** C5, amended.  Before the channel's start time the resolver returns an
    offline item of duration [startTime - now], whatever the lineup.  At or
    after the start time it has one error ("No program found ..."), thrown
    exactly when [channel.duration] is 0 or no running total of the item
    durations exceeds [elapsed = (now - startTime) % channel.duration]: in
    particular when the lineup is empty, and for a positive
    [channel.duration] only when the item durations sum to less than
    [channel.duration].  In every other case it returns an item of the lineup
    at a valid index: the summed durations are compared neither with
    [channel.duration] nor with SLACK. *)
Theorem resolver_failures :
  forall (now : Z) (channel : Channel),
    let programs := ch_programs channel in
    let elapsed :=
      Z.rem (now - ch_startTimeEpoch channel) (ch_duration channel) in
    (now < ch_startTimeEpoch channel ->
     getCurrentProgramAndTimeElapsed now channel
     = Ok {| program := offlineProgram (ch_startTimeEpoch channel - now);
             timeElapsed := 0; programIndex := -1 |})
    /\ (ch_startTimeEpoch channel <= now ->
        (getCurrentProgramAndTimeElapsed now channel = Throw noProgramFound
         <-> ch_duration channel = 0
             \/ forall k, (k < length programs)%nat ->
                          prefixDuration (S k) programs <= elapsed)
        /\ (programs = [] ->
            getCurrentProgramAndTimeElapsed now channel
            = Throw noProgramFound)
        /\ (getCurrentProgramAndTimeElapsed now channel = Throw noProgramFound
            -> 0 < ch_duration channel ->
            prefixDuration (length programs) programs < ch_duration channel)
        /\ (forall message,
               getCurrentProgramAndTimeElapsed now channel = Throw message ->
               message = noProgramFound)
        /\ (ch_duration channel <> 0 ->
            forall k, (k < length programs)%nat ->
                      elapsed < prefixDuration (S k) programs ->
                      exists obj,
                        getCurrentProgramAndTimeElapsed now channel = Ok obj
                        /\ 0 <= programIndex obj < Z.of_nat (length programs)
                        /\ programs !! Z.to_nat (programIndex obj)
                           = Some (program obj))).
Proof.
  intros now channel programs elapsed. split.
  - intros Hbefore. unfold HelperFuncs.getCurrentProgramAndTimeElapsed.
    cbv zeta.
    replace (ch_startTimeEpoch channel >? now) with true
      by (symmetry; rewrite Z.gtb_ltb; apply Z.ltb_lt; lia).
    reflexivity.
  - intros Hstart.
    set (N := Z.of_nat (length programs)).
    pose proof (findProgram_index_range programs N 0 elapsed ltac:(lia)
                  ltac:(unfold N; lia)) as Hrange.
    pose proof (findProgram_overrun programs N 0 elapsed ltac:(lia)
                  ltac:(unfold N; lia)) as Hoverrun.
    pose proof (findProgram_not_found programs N 0 elapsed) as Hnot.
    assert (Hresult :
      getCurrentProgramAndTimeElapsed now channel
      = if ch_duration channel =? 0 then Throw noProgramFound
        else if snd (findProgram programs N 0 elapsed) =? -1
             then Throw noProgramFound
             else
               match programs
                     !! Z.to_nat (snd (findProgram programs N 0 elapsed)) with
               | Some p =>
                   Ok {| program := p;
                         timeElapsed :=
                           fst (findProgram programs N 0 elapsed);
                         programIndex :=
                           snd (findProgram programs N 0 elapsed) |}
               | None => Throw "undefined program"
               end).
    { unfold HelperFuncs.getCurrentProgramAndTimeElapsed. cbv zeta.
      replace (ch_startTimeEpoch channel >? now) with false
        by (symmetry; rewrite Z.gtb_ltb; apply Z.ltb_ge; lia).
      fold programs. fold N. fold elapsed.
      destruct (findProgram programs N 0 elapsed) as [t idx].
      reflexivity. }
    destruct (findProgram programs N 0 elapsed) as [t idx] eqn:Hloop.
    cbn [fst snd] in *.
    assert (Hcases :
      (ch_duration channel = 0
       /\ getCurrentProgramAndTimeElapsed now channel = Throw noProgramFound)
      \/ (ch_duration channel <> 0 /\ idx = -1
          /\ getCurrentProgramAndTimeElapsed now channel
             = Throw noProgramFound)
      \/ (ch_duration channel <> 0 /\ 0 <= idx < N
          /\ exists p,
               programs !! Z.to_nat idx = Some p
               /\ getCurrentProgramAndTimeElapsed now channel
                  = Ok {| program := p; timeElapsed := t;
                          programIndex := idx |})).
    { rewrite Hresult.
      destruct (Z.eqb_spec (ch_duration channel) 0) as [Hzero|Hzero];
        [left; split; [exact Hzero|reflexivity]|].
      right. destruct Hrange as [->|Hidx].
      - left. split; [exact Hzero|]. split; reflexivity.
      - right. split; [exact Hzero|]. split; [exact Hidx|].
        destruct (lookup_lt_is_Some_2 programs (Z.to_nat idx)) as [p Hp];
          [unfold N in Hidx; lia|].
        exists p. split; [exact Hp|].
        replace (idx =? -1) with false by (symmetry; apply Z.eqb_neq; lia).
        rewrite Hp. reflexivity. }
    assert (Hthrow :
      getCurrentProgramAndTimeElapsed now channel = Throw noProgramFound
      <-> ch_duration channel = 0
          \/ forall k, (k < length programs)%nat ->
                       prefixDuration (S k) programs <= elapsed).
    { split.
      - intros Hfails.
        destruct Hcases as [[Hzero _]|[(_ & Hend & _)|(_ & _ & p & _ & Hok)]].
        + left. exact Hzero.
        + right. apply Hoverrun. exact Hend.
        + rewrite Hok in Hfails. discriminate.
      - intros [Hzero|Hall].
        + destruct Hcases as [[_ Hfails]|[(Hne & _)|(Hne & _)]];
            [exact Hfails|contradiction|contradiction].
        + specialize (Hnot Hall).
          destruct Hcases as [[_ Hfails]|[(_ & _ & Hfails)|(_ & Hidx & _)]];
            [exact Hfails|exact Hfails|lia]. }
    split; [exact Hthrow|]. split; [|split; [|split]].
    + intros Hempty. apply Hthrow. right. rewrite Hempty. cbn. lia.
    + intros Hfails Hpositive. apply Hthrow in Hfails.
      destruct Hfails as [Hzero|Hall]; [lia|].
      pose proof (Z.rem_bound_pos (now - ch_startTimeEpoch channel)
                    (ch_duration channel) ltac:(lia) Hpositive) as Hbound.
      fold elapsed in Hbound.
      destruct (length programs) as [|n] eqn:Hlength.
      * rewrite prefixDuration_0. exact Hpositive.
      * specialize (Hall n ltac:(lia)). lia.
    + intros message Hfails.
      destruct Hcases as [[_ Hsame]|[(_ & _ & Hsame)|(_ & _ & p & _ & Hok)]];
        rewrite ?Hsame, ?Hok in Hfails; [| |discriminate];
        injection Hfails as <-; reflexivity.
    + intros Hne k Hk Hexceeds.
      destruct Hcases as [[Hzero _]|[(_ & Hend & _)|(_ & Hidx & p & Hp & Hok)]].
      * contradiction.
      * specialize (Hoverrun Hend k Hk). lia.
      * eexists. split; [exact Hok|]. split; [exact Hidx|exact Hp].
Qed.

End WithSlack.

Lemma resolver_walk_and_smoothing_witness :
  getCurrentProgramAndTimeElapsed Constants.SLACK 70000 channelS1
  = Ok {| program := progB; timeElapsed := 10000; programIndex := 1 |}.
Proof.
  refine (proj1 (resolver_walk_and_smoothing Constants.SLACK) 70000 channelS1
            1%nat progB
            _ _ _ _ _ _).
  - discriminate.
  - vm_compute. discriminate.
  - reflexivity.
  - reflexivity.
  - intros k Hk. assert (k = 0%nat) as -> by lia. vm_compute. discriminate.
  - reflexivity.
Defined.

(** C5, as stated, fails.  A lineup whose summed durations (60 s) differ from
    [channel.duration] (100 s) by more than SLACK is resolved without any
    error; and an empty lineup queried before the channel's start time yields
    an offline item instead of an error. *)
Lemma resolver_mismatch_not_detected :
  (Constants.SLACK < durationMismatch mismatchedChannel
   /\ getCurrentProgramAndTimeElapsed Constants.SLACK 0 mismatchedChannel
      = Ok {| program := progA; timeElapsed := 0; programIndex := 0 |})
  /\ (ch_programs emptyLateChannel = []
      /\ getCurrentProgramAndTimeElapsed Constants.SLACK 0 emptyLateChannel
         = Ok {| program := offlineProgram 5000; timeElapsed := 0;
                 programIndex := -1 |}).
Proof. repeat split; vm_compute; reflexivity. Qed.

Lemma resolver_failures_witness :
  getCurrentProgramAndTimeElapsed Constants.SLACK 7000 emptyLateChannel
  = Throw noProgramFound
  /\ getCurrentProgramAndTimeElapsed Constants.SLACK 70000 mismatchedChannel
     = Throw noProgramFound
  /\ getCurrentProgramAndTimeElapsed Constants.SLACK 0 emptyLateChannel
     = Ok {| program := offlineProgram 5000; timeElapsed := 0;
             programIndex := -1 |}.
Proof.
  split; [|split].
  - apply (proj2 (resolver_failures Constants.SLACK 7000 emptyLateChannel)).
    + vm_compute. discriminate.
    + reflexivity.
  - apply (proj1 (proj2 (resolver_failures Constants.SLACK 70000
                           mismatchedChannel)
                    ltac:(vm_compute; discriminate))).
    right. intros k Hk. cbn in Hk. assert (k = 0%nat) as -> by lia.
    vm_compute. discriminate.
  - apply (proj1 (resolver_failures Constants.SLACK 0 emptyLateChannel)).
    reflexivity.
Defined.

End ResolverProperties.

(** * Properties of lineup item creation and of the filler picker *)

Module LineupProperties.

Import HelperFuncs.

Section WithParameters.

(** The properties hold for every value of [constants.SLACK] and of the
    logarithmic term of [norm_d]. *)
Variable SLACK : Z.
Variable logMillis : Z -> Z.

#[local] Abbreviation getCurrentProgramAndTimeElapsed :=
  (HelperFuncs.getCurrentProgramAndTimeElapsed SLACK).
#[local] Abbreviation createLineup := (HelperFuncs.createLineup SLACK logMillis).
#[local] Abbreviation pickRandomWithMaxDuration :=
  (HelperFuncs.pickRandomWithMaxDuration SLACK logMillis).
#[local] Abbreviation clipLoop := (HelperFuncs.clipLoop SLACK logMillis).
#[local] Abbreviation collectionLoop :=
  (HelperFuncs.collectionLoop SLACK logMillis).
#[local] Abbreviation weighClip := (HelperFuncs.weighClip logMillis).
#[local] Abbreviation pickFits := (HelperFuncs.pickFits SLACK).

(** C7. A content item that the resolver returned with less than 30000 ms
    elapsed is started at 0 and carries the elapsed time as
    [beginningOffset]; with 30000 ms or more elapsed it is started at the
    elapsed time with [beginningOffset] 0.  In particular scenario S1 at
    65 s resolves to item B at index 1, which is started at 0 with a
    [beginningOffset] of 5 s. *)
Theorem start_snap :
  (forall (channelCache : ChannelCache) (now : Z) (channel : Channel)
          (obj : ProgramAndTimeElapsed) (fillers : list FillerCollection)
          (isFirst : bool) (t0 : Z) (g : Random.Engine),
      getCurrentProgramAndTimeElapsed now channel = Ok obj ->
      prog_err (program obj) = None ->
      prog_isOffline (program obj) = false ->
      exists item,
        createLineup channelCache obj channel fillers isFirst t0 g
        = ([item], g)
        /\ li_type item = "program"%string
        /\ li_title item = prog_title (program obj)
        /\ li_duration item = prog_duration (program obj)
        /\ (timeElapsed obj < 30000 ->
            li_start item = 0 /\ li_beginningOffset item = timeElapsed obj)
        /\ (30000 <= timeElapsed obj ->
            li_start item = timeElapsed obj /\ li_beginningOffset item = 0))
  /\ (forall (channelCache : ChannelCache) (fillers : list FillerCollection)
             (isFirst : bool) (t0 : Z) (g : Random.Engine),
         exists obj item,
           HelperFuncs.getCurrentProgramAndTimeElapsed Constants.SLACK 65000
             channelS1 = Ok obj
           /\ program obj = progB /\ programIndex obj = 1
           /\ HelperFuncs.createLineup Constants.SLACK logMillis channelCache
                obj channelS1 fillers isFirst t0 g = ([item], g)
           /\ li_title item = "B"%string
           /\ li_start item = 0
           /\ li_beginningOffset item = 5000).
Proof.
  split.
  - intros channelCache now channel obj fillers isFirst t0 g Hres Herr Hoff.
    pose proof (resolver_time_nonneg := ResolverProperties.resolver_time_nonneg
                                          SLACK now channel obj Hres).
    unfold HelperFuncs.createLineup. cbv zeta. rewrite Herr, Hoff.
    eexists. split; [reflexivity|]. cbn.
    repeat split.
    + destruct (timeElapsed obj <? 30000) eqn:Hlt; [reflexivity|].
      apply Z.ltb_ge in Hlt. lia.
    + destruct (timeElapsed obj <? 30000) eqn:Hlt; [lia|].
      apply Z.ltb_ge in Hlt. lia.
    + destruct (timeElapsed obj <? 30000) eqn:Hlt; [|reflexivity].
      apply Z.ltb_lt in Hlt. lia.
    + destruct (timeElapsed obj <? 30000) eqn:Hlt; [|lia].
      apply Z.ltb_lt in Hlt. lia.
  - intros channelCache fillers isFirst t0 g.
    eexists. eexists. split; [reflexivity|]. cbn.
    repeat split.
Qed.

(** *** The filler picker *)

Lemma pickFits_same_pick (maxDuration : Z) (st st' : PickState) :
  pick1 st' = pick1 st -> pickFits maxDuration st -> pickFits maxDuration st'.
Proof. unfold HelperFuncs.pickFits. intros ->. auto. Qed.

Lemma weighClip_fits (maxDuration : Z) (clip : Program) (timeSince n : Z)
    (st : PickState) :
  prog_duration clip <= maxDuration + SLACK ->
  pickFits maxDuration st ->
  pickFits maxDuration (snd (weighClip clip timeSince n st)).
Proof.
  intros Hclip Hst. unfold HelperFuncs.weighClip.
  destruct (timeSince <=? 0); [exact Hst|].
  cbv zeta. destruct (weighedPick _ _ _) as [picked g]. cbn [snd].
  destruct picked.
  - intros c [= <-]. exact Hclip.
  - exact Hst.
Qed.

Lemma clipLoop_fits (channelCache : ChannelCache)
    (number cooldown maxDuration t0 : Z) (f : FillerCollection) :
  forall (list : list Program) (pickedList : bool) (n : Z) (st : PickState),
    pickFits maxDuration st ->
    pickFits maxDuration
      (clipLoop channelCache number cooldown maxDuration t0 f list
         pickedList n st).
Proof.
  induction list as [|clip rest IH]; intros pickedList n st Hst;
    cbn [HelperFuncs.clipLoop]; [exact Hst|].
  destruct (prog_duration clip <=? maxDuration + SLACK) eqn:Hfit;
    [|apply IH; exact Hst].
  apply Z.leb_le in Hfit. cbv zeta.
  destruct (_ <? cooldown - SLACK).
  { apply IH. destruct (_ <=? _); [|exact Hst].
    eapply pickFits_same_pick; [|exact Hst]. reflexivity. }
  destruct (negb pickedList).
  - destruct (fc_cooldown f <=? _).
    + destruct (weighedPick _ _ _) as [picked g]. destruct picked.
      * match goal with
        | |- context [weighClip ?c ?t ?m ?s] =>
            pose proof (weighClip_fits maxDuration c t m s Hfit) as Hw;
            destruct (weighClip c t m s) as [n' st']
        end.
        apply IH. apply Hw.
        eapply pickFits_same_pick; [|exact Hst]. reflexivity.
      * eapply pickFits_same_pick; [|exact Hst]. reflexivity.
    + destruct (_ <=? _); [|exact Hst].
      eapply pickFits_same_pick; [|exact Hst]. reflexivity.
  - match goal with
    | |- context [weighClip ?c ?t ?m ?s] =>
        pose proof (weighClip_fits maxDuration c t m s Hfit Hst) as Hw;
        destruct (weighClip c t m s) as [n' st']
    end.
    apply IH. exact Hw.
Qed.

Lemma collectionLoop_fits (channelCache : ChannelCache)
    (number cooldown maxDuration t0 : Z) :
  forall (fillers : list FillerCollection) (st : PickState),
    pickFits maxDuration st ->
    pickFits maxDuration
      (collectionLoop channelCache number cooldown maxDuration t0
         fillers st).
Proof.
  unfold HelperFuncs.collectionLoop.
  induction fillers as [|f fillers IH]; intros st Hst; cbn [fold_left].
  - exact Hst.
  - apply IH. apply clipLoop_fits. exact Hst.
Qed.

(** Whatever the picker returns fits the [maxDuration] it was called with. *)
Lemma pickRandomWithMaxDuration_fits (channelCache : ChannelCache)
    (channel : Channel) (fillers : list FillerCollection)
    (maxDuration t0 : Z) (g : Random.Engine) (c : Program) :
  filler (fst (pickRandomWithMaxDuration channelCache channel
                 fillers maxDuration t0 g)) = Some c ->
  prog_duration c <= maxDuration + SLACK.
Proof.
  unfold HelperFuncs.pickRandomWithMaxDuration. cbv zeta. cbn [fst filler].
  match goal with
  | |- context [collectionLoop ?cc ?nb ?cd ?md ?t ?fs ?s] =>
      pose proof (collectionLoop_fits cc nb cd md t fs s) as Hfits;
      destruct (collectionLoop cc nb cd md t fs s) as [p mw lm fid e]
  end.
  cbn [pick1 fillerId] in *.
  destruct p as [p|]; [|discriminate].
  intros [= <-]. cbn. apply Hfits; [|reflexivity].
  intros c' [=].
Qed.

(** C4, amended.  A clip that the picker returns for an offline gap with
    [R] milliseconds remaining lasts at most [R + SLACK] when [isFirst] is
    false, and at most [R + 7 days + SLACK] when [isFirst] is true:
    [createLineup] then calls the picker with the larger [maxDuration] and
    copies the clip's duration to the commercial item it returns.  This holds
    for every channel, list of collections, cache state, clock value and
    random engine. *)
Theorem filler_fit :
  (forall (channelCache : ChannelCache) (channel : Channel)
          (fillers : list FillerCollection) (R : Z) (isFirst : bool)
          (t0 : Z) (g : Random.Engine) (c : Program),
      filler (fst (pickRandomWithMaxDuration channelCache channel
                     fillers (fillerMaxDuration R isFirst) t0 g)) = Some c ->
      prog_duration c <= R + (if isFirst then 604800000 else 0) + SLACK)
  /\ (forall (channelCache : ChannelCache) (obj : ProgramAndTimeElapsed)
             (channel : Channel) (fillers : list FillerCollection)
             (isFirst : bool) (t0 : Z) (g : Random.Engine) (c : Program),
         prog_err (program obj) = None ->
         prog_isOffline (program obj) = true ->
         let R := prog_duration (program obj) - timeElapsed obj in
         filler (fst (pickRandomWithMaxDuration channelCache channel
                        fillers (fillerMaxDuration R isFirst) t0 g)) = Some c ->
         exists item g',
           createLineup channelCache obj channel fillers isFirst
             t0 g = ([item], g')
           /\ li_type item = "commercial"%string
           /\ li_duration item = prog_duration c
           /\ li_duration item
              <= R + (if isFirst then 604800000 else 0) + SLACK).
Proof.
  split.
  - intros channelCache channel fillers R isFirst t0 g c Hpick.
    apply pickRandomWithMaxDuration_fits in Hpick.
    unfold fillerMaxDuration in Hpick. destruct isFirst; lia.
  - intros channelCache obj channel fillers isFirst t0 g c Herr Hoff R Hpick.
    pose proof (pickRandomWithMaxDuration_fits _ _ _ _ _ _ _ Hpick) as Hfit.
    unfold HelperFuncs.createLineup. cbv zeta. rewrite Herr, Hoff. fold R.
    destruct (pickRandomWithMaxDuration channelCache channel
                fillers (fillerMaxDuration R isFirst) t0 g)
      as [randomResult g1].
    cbn [fst] in Hpick. rewrite Hpick.
    destruct isFirst.
    + destruct (Random.integer _ _ g1) as [r g2].
      eexists. eexists. split; [reflexivity|]. cbn.
      repeat split. unfold fillerMaxDuration in Hfit. lia.
    + eexists. eexists. split; [reflexivity|]. cbn.
      repeat split. unfold fillerMaxDuration in Hfit. lia.
Qed.

End WithParameters.

Lemma start_snap_witness :
  exists item,
    HelperFuncs.createLineup Constants.SLACK logMillisUnread neverPlayed
      {| program := progB; timeElapsed := 5000; programIndex := 1 |}
      channelS1 [] false 0 [] = ([item], [])
    /\ li_start item = 0 /\ li_beginningOffset item = 5000.
Proof.
  destruct (proj1 (start_snap Constants.SLACK logMillisUnread) neverPlayed
              65000 channelS1
              {| program := progB; timeElapsed := 5000; programIndex := 1 |}
              [] false 0 [] eq_refl eq_refl eq_refl)
    as (item & Hitem & _ & _ & _ & Hsnap & _).
  exists item. split; [exact Hitem|]. apply Hsnap. cbn. lia.
Defined.

(** C4, as stated, fails when [isFirst] is true: for an offline gap of 10 s
    the picker returns the 100 s clip, which is longer than
    [10 s + SLACK], and [createLineup] emits it as a commercial item. *)
Lemma filler_longer_than_gap_on_first_join :
  filler (fst (HelperFuncs.pickRandomWithMaxDuration Constants.SLACK
                 logMillisUnread neverPlayed
                 offlineChannel oneCollection
                 (fillerMaxDuration 10000 true) 0 []))
  = Some (withFillerId (Some "filler-1"%string) longClip)
  /\ ~ (prog_duration (withFillerId (Some "filler-1"%string) longClip)
        <= 10000 + Constants.SLACK)
  /\ (exists item g,
        HelperFuncs.createLineup Constants.SLACK logMillisUnread neverPlayed
          {| program := offlineProgram 10000; timeElapsed := 0;
             programIndex := 0 |}
          offlineChannel oneCollection true 0 [] = ([item], g)
        /\ li_type item = "commercial"%string
        /\ li_duration item = 100000).
Proof.
  split; [vm_compute; reflexivity|].
  split; [vm_compute; intros H; apply H; reflexivity|].
  eexists. eexists. split; [vm_compute; reflexivity|].
  split; reflexivity.
Qed.

Lemma filler_fit_witness :
  prog_duration (withFillerId (Some "filler-1"%string) longClip)
  <= 10000 + 604800000 + Constants.SLACK.
Proof.
  apply (proj1 (filler_fit Constants.SLACK logMillisUnread) neverPlayed
           offlineChannel
           oneCollection 10000 true 0 []).
  vm_compute. reflexivity.
Defined.

End LineupProperties.

(** * Properties of the watermark selection *)

Module WatermarkProperties.

Import HelperFuncs.

Lemma iconUsable_spec (icon : option ChannelIcon) :
  iconUsable icon = true ->
  exists i, icon = Some i /\ icon_path i <> ""%string.
Proof.
  destruct icon as [i|]; cbn; [|discriminate].
  intros H. exists i. split; [reflexivity|].
  intros Hpath. rewrite Hpath in H. discriminate.
Qed.

(** C10. [getWatermark] returns no watermark when transcoding is disabled or
    the channel overlay is globally disabled; when the channel has no
    watermark or its watermark is not enabled; and when the item type is
    'commercial' and [disableFillerOverlay] is true or undefined.  A
    watermark it returns has [enabled = true] and an icon with a non-empty
    path. *)
Theorem getWatermark_gates :
  forall (ffmpegSettings : Settings.FfmpegSettings) (channel : Channel)
         (type : string),
    (Settings.enableTranscoding ffmpegSettings = false
     \/ Settings.disableChannelOverlay ffmpegSettings = true ->
     getWatermark ffmpegSettings channel type = None)
    /\ (ch_watermark channel = None ->
        getWatermark ffmpegSettings channel type = None)
    /\ (forall w, ch_watermark channel = Some w -> wm_enabled w = false ->
                  getWatermark ffmpegSettings channel type = None)
    /\ (type = "commercial"%string ->
        ch_disableFillerOverlay channel = Some true
        \/ ch_disableFillerOverlay channel = None ->
        getWatermark ffmpegSettings channel type = None)
    /\ (forall w, getWatermark ffmpegSettings channel type = Some w ->
                  wm_enabled w = true
                  /\ exists icon, wm_url w = Some icon
                                  /\ icon_path icon <> ""%string).
Proof.
  intros ffmpegSettings channel type. unfold getWatermark.
  split; [|split; [|split; [|split; [|intros w Hw; split; revert Hw]]]].
  - intros [-> | ->]; [reflexivity|]. rewrite orb_true_r. reflexivity.
  - intros ->. destruct (_ || _); [reflexivity|].
    destruct (_ && _); reflexivity.
  - intros w -> ->. destruct (_ || _); [reflexivity|].
    destruct (_ && _); reflexivity.
  - intros -> Hflag. destruct (_ || _); [reflexivity|].
    destruct Hflag as [-> | ->]; reflexivity.
  - destruct (_ || _); [discriminate|].
    destruct (_ && _); [discriminate|].
    destruct (ch_watermark channel) as [wm|]; [|discriminate].
    destruct (negb (wm_enabled wm)); [discriminate|].
    destruct (iconUsable (if iconUsable (wm_url wm) then wm_url wm
                          else ch_icon channel)); [|discriminate].
    intros [= <-]. reflexivity.
  - destruct (_ || _); [discriminate|].
    destruct (_ && _); [discriminate|].
    destruct (ch_watermark channel) as [wm|]; [|discriminate].
    destruct (negb (wm_enabled wm)); [discriminate|].
    destruct (iconUsable (if iconUsable (wm_url wm) then wm_url wm
                          else ch_icon channel)) eqn:Husable; [|discriminate].
    intros [= <-]. cbn [wm_url]. apply iconUsable_spec. exact Husable.
Qed.

Lemma getWatermark_gates_witness :
  getWatermark sampleSettings watermarkedChannel "commercial" = None
  /\ exists w,
       getWatermark sampleSettings watermarkedChannel "program" = Some w
       /\ wm_enabled w = true
       /\ exists icon, wm_url w = Some icon /\ icon_path icon <> ""%string.
Proof.
  pose proof (getWatermark_gates sampleSettings watermarkedChannel
                "commercial") as (_ & _ & _ & Hfiller & _).
  pose proof (getWatermark_gates sampleSettings watermarkedChannel
                "program") as (_ & _ & _ & _ & Hreturned).
  split.
  - apply Hfiller; [reflexivity|]. right. reflexivity.
  - eexists. split; [reflexivity|]. apply Hreturned. reflexivity.
Defined.

End WatermarkProperties.

(** * Properties of the FFMPEG wrapper *)

Module FfmpegProperties.

Import Settings Ffmpeg.

#[local] Open Scope string_scope.
#[local] Open Scope list_scope.
#[local] Open Scope Z_scope.

(** *** [gcd] *)

(** The loop of [gcd] ends within the iterations given to it: any larger
    number of iterations returns the same value. *)
Lemma gcdLoop_enough :
  forall (n fuel1 fuel2 : nat) (a b : Z),
    (Z.abs_nat b <= n)%nat ->
    (Z.abs_nat b < fuel1)%nat -> (Z.abs_nat b < fuel2)%nat ->
    gcdLoop fuel1 a b = gcdLoop fuel2 a b.
Proof.
  induction n as [|n IH]; intros fuel1 fuel2 a b Hn H1 H2;
    destruct fuel1 as [|fuel1]; destruct fuel2 as [|fuel2]; try lia;
    cbn [gcdLoop]; destruct (Z.eqb_spec b 0) as [Hb|Hb]; try reflexivity;
    try lia.
  pose proof (Z.rem_bound_abs a b Hb) as Hrem.
  apply IH; lia.
Qed.

Lemma gcd_more_fuel (fuel : nat) (a b : Z) :
  (Z.abs_nat b < fuel)%nat -> gcdLoop fuel a b = gcd a b.
Proof.
  intros Hfuel. unfold gcd.
  apply (gcdLoop_enough (Z.abs_nat b)); lia.
Qed.

(** *** The [duration] argument through the steps of [spawn] *)














(** *** The exit handler *)

(** C2, as stated, fails: a child that exits with code 0 makes the wrapper
    emit 'end' and no 'close', and one that exits with code 1 makes it emit
    'error' and no 'close'; so 'close' is not emitted on every terminal
    state.  The same is seen on a wrapper that has started an error screen:
    all it has emitted after the child's exit with code 0 is 'end'. *)
Lemma exit_without_close :
  (exitEvents sampleFFMPEG [] (Some 0) = [EvEnd None]
   /\ existsb isClose (exitEvents sampleFFMPEG [] (Some 0)) = false)
  /\ (exitEvents sampleFFMPEG [] (Some 1)
      = [EvError 1 (exitCommand sampleFFMPEG [])]
      /\ existsb isClose (exitEvents sampleFFMPEG [] (Some 1)) = false)
  /\ emitted
       (perform sampleEnv
          (perform sampleEnv sampleFFMPEG (OpSpawnError "boom" None (Some 90000)))
          (OpExit (Some 0)))
     = [EvEnd None].
Proof.
  split; [split; reflexivity|].
  split; [split; reflexivity|].
  vm_compute. reflexivity.
Qed.

(** C2, amended.  The exit handler emits: for an exit by signal, 'close'
    alone; for exit code 0, 'end' alone; for exit code 255 of a killed
    wrapper, 'close' alone; for exit code 255 of a wrapper that was not
    killed and whose [sentData] flag is unset, 'error' and then 'close'; for
    any other exit code, 'error' alone.  So 'close' is emitted exactly for an
    exit by signal and for exit code 255, and 'end' exactly for exit
    code 0. *)
Theorem exit_event_mapping :
  forall (this : FFMPEG) (ffmpegArgs : list string) (code : option Z),
    let events := exitEvents this ffmpegArgs code in
    let cmd := exitCommand this ffmpegArgs in
    (code = None -> events = [EvClose None])
    /\ (code = Some 0 -> events = [EvEnd None])
    /\ (code = Some 255 -> hasBeenKilled this = true ->
        events = [EvClose (Some 255)])
    /\ (code = Some 255 -> hasBeenKilled this = false ->
        sentData this = false ->
        events = [EvError 255 cmd; EvClose (Some 255)])
    /\ (forall c, code = Some c -> c <> 0 -> c <> 255 ->
                  events = [EvError c cmd])
    /\ (existsb isClose events = true <-> code = None \/ code = Some 255)
    /\ (existsb isEnd events = true <-> code = Some 0).
Proof.
  intros this ffmpegArgs code events cmd. subst events cmd.
  unfold exitEvents, exitCommand.
  split; [intros ->; reflexivity|].
  split; [intros ->; reflexivity|].
  split; [intros -> Hkilled; cbn; rewrite Hkilled; reflexivity|].
  split; [intros -> Hkilled Hsent; cbn; rewrite Hkilled, Hsent; reflexivity|].
  split.
  { intros c -> Hzero H255.
    destruct (Z.eqb_spec c 0); [contradiction|].
    destruct (Z.eqb_spec c 255); [contradiction|]. reflexivity. }
  destruct code as [c|].
  - destruct (Z.eqb_spec c 0) as [->|Hzero].
    + split; split; cbn; intros H; try discriminate; try reflexivity.
      destruct H as [H|H]; discriminate.
    + destruct (Z.eqb_spec c 255) as [->|H255].
      * split; split; intros H; try discriminate.
        -- right. reflexivity.
        -- destruct (hasBeenKilled this); [reflexivity|].
           destruct (sentData this); reflexivity.
        -- destruct (hasBeenKilled this); [discriminate|].
           destruct (sentData this); discriminate.
      * split; split; cbn; intros H; try discriminate.
        -- destruct H as [H|H]; [discriminate|]. injection H as ->.
           contradiction.
        -- injection H as ->. contradiction.
  - split; split; cbn; intros H; try discriminate; try reflexivity.
    left. reflexivity.
Qed.

Lemma exit_event_mapping_witness :
  exitEvents sampleFFMPEG [] (Some 255)
  = [EvError 255 (exitCommand sampleFFMPEG []); EvClose (Some 255)]
  /\ exitEvents (kill sampleFFMPEG) [] (Some 255) = [EvClose (Some 255)]
  /\ existsb isEnd (exitEvents sampleFFMPEG [] (Some 0)) = true.
Proof.
  pose proof (exit_event_mapping sampleFFMPEG [] (Some 255))
    as (_ & _ & _ & Herror & _).
  pose proof (exit_event_mapping (kill sampleFFMPEG) [] (Some 255))
    as (_ & _ & Hkilled & _).
  pose proof (exit_event_mapping sampleFFMPEG [] (Some 0))
    as (_ & _ & _ & _ & _ & _ & Hend).
  split; [apply Herror; reflexivity|].
  split; [apply Hkilled; reflexivity|].
  apply Hend. reflexivity.
Defined.

(** No operation of the wrapper sets [sentData]: the flag keeps its initial
    value [false]. *)
Lemma sentData_emit e this : sentData (emit e this) = sentData this.
Proof. reflexivity. Qed.

Lemma sentData_generateInputs env this streamUrl stats l :
  sentData (fst (generateInputs env this streamUrl stats l)) = sentData this.
Proof.
  unfold generateInputs, generateAudio. break_conditions; reflexivity.
Qed.

Lemma sentData_overlayInput this watermark l :
  sentData (fst (overlayInput this watermark l)) = sentData this.
Proof. unfold overlayInput. break_conditions; reflexivity. Qed.

Lemma sentData_fixResolution this stats l this' l' :
  fixResolution this stats l = Some (this', l') -> sentData this' = sentData this.
Proof.
  unfold fixResolution. cbv zeta.
  break_conditions; intros [= <- <-] || discriminate; reflexivity.
Qed.

Lemma sentData_spawn env this streamUrl streamStats startTime d limitRead
    watermark :
  sentData (snd (spawn env this streamUrl streamStats startTime d limitRead
                   watermark)) = sentData this.
Proof.
  unfold spawn. destruct streamStats as [stats|]; [|reflexivity].
  match goal with
  | |- context [generateInputs ?e ?t ?u ?s ?m] =>
      pose proof (sentData_generateInputs e t u s m) as Hgen;
      destruct (generateInputs e t u s m) as [this1 l1]
  end.
  pose proof (sentData_overlayInput this1 watermark l1) as Hov.
  destruct (overlayInput this1 watermark l1) as [this2 l2].
  cbn [fst] in Hgen, Hov.
  destruct (fixResolution this2 stats l2) as [[this3 l3]|] eqn:Hfix.
  - apply sentData_fixResolution in Hfix.
    destruct (hasBeenKilled this3); cbn; congruence.
  - cbn. congruence.
Qed.

Lemma sentData_perform env this op :
  sentData (perform env this op) = sentData this.
Proof.
  destruct op; cbn [perform].
  - reflexivity.
  - apply sentData_spawn.
  - unfold spawnError. destruct (_ || _); [reflexivity|]. apply sentData_spawn.
  - unfold spawnOffline. destruct (negb _); [reflexivity|]. apply sentData_spawn.
  - reflexivity.
  - destruct (ffmpeg this) as [args|]; [|reflexivity].
    unfold onExit. generalize (exitEvents this args code).
    intros events. revert this.
    induction events as [|e events IH]; intros this; [reflexivity|].
    cbn [fold_left]. rewrite IH. reflexivity.
Qed.

Lemma sentData_never_set env settings ch (ops : list Operation) :
  sentData (fold_left (perform env) ops (newFFMPEG env settings ch)) = false.
Proof.
  assert (Hgen : forall this, sentData this = false ->
                              sentData (fold_left (perform env) ops this) = false).
  { induction ops as [|op ops IH]; intros this Hthis; [exact Hthis|].
    cbn [fold_left]. apply IH. rewrite sentData_perform. exact Hthis. }
  apply Hgen. reflexivity.
Qed.

(** *** The argument list depends on the inputs only *)

(** Two wrappers that agree on the fields [spawn] reads share them. *)
Ltac share_read_fields a b H :=
  destruct a, b; unfold sameReadFields, readFields in H |- *;
  cbn in H |- *; injection H as -> -> -> -> -> -> -> -> -> -> -> ->.

Lemma openingArgs_reads a b streamUrl stats startTime d limitRead watermark :
  sameReadFields a b ->
  openingArgs a streamUrl stats startTime d limitRead watermark
  = openingArgs b streamUrl stats startTime d limitRead watermark.
Proof. intros H. share_read_fields a b H. reflexivity. Qed.

Lemma frameRateAndDeinterlace_reads a b stats l :
  sameReadFields a b ->
  frameRateAndDeinterlace a stats l = frameRateAndDeinterlace b stats l.
Proof. intros H. share_read_fields a b H. reflexivity. Qed.

Lemma generateInputs_reads env a b streamUrl stats l :
  sameReadFields a b ->
  sameReadFields (fst (generateInputs env a streamUrl stats l))
    (fst (generateInputs env b streamUrl stats l))
  /\ snd (generateInputs env a streamUrl stats l)
     = snd (generateInputs env b streamUrl stats l).
Proof.
  intros H. share_read_fields a b H.
  unfold generateInputs, generateAudio, sameReadFields, readFields.
  break_conditions; split; reflexivity.
Qed.

Lemma overlayInput_reads a b watermark l :
  sameReadFields a b ->
  sameReadFields (fst (overlayInput a watermark l))
    (fst (overlayInput b watermark l))
  /\ snd (overlayInput a watermark l) = snd (overlayInput b watermark l).
Proof.
  intros H. share_read_fields a b H.
  unfold overlayInput, sameReadFields, readFields.
  break_conditions; split; reflexivity.
Qed.

Lemma fixResolution_reads a b stats l :
  sameReadFields a b ->
  match fixResolution a stats l, fixResolution b stats l with
  | Some (a', la), Some (b', lb) => sameReadFields a' b' /\ la = lb
  | None, None => True
  | _, _ => False
  end.
Proof.
  intros H. share_read_fields a b H.
  unfold fixResolution, sameReadFields, readFields. cbv zeta.
  break_conditions; try exact I; split; reflexivity.
Qed.

Lemma overlayFilter_reads a b watermark l :
  sameReadFields a b -> overlayFilter a watermark l = overlayFilter b watermark l.
Proof. intros H. share_read_fields a b H. reflexivity. Qed.

Lemma volumeFilter_reads a b l :
  sameReadFields a b -> volumeFilter a l = volumeFilter b l.
Proof. intros H. share_read_fields a b H. reflexivity. Qed.

Lemma padAudio_reads a b stats l :
  sameReadFields a b -> padAudio a stats l = padAudio b stats l.
Proof. intros H. share_read_fields a b H. reflexivity. Qed.

Lemma mappingArgs_reads a b stats l beforeSizeChange :
  sameReadFields a b ->
  mappingArgs a stats l beforeSizeChange = mappingArgs b stats l beforeSizeChange.
Proof. intros H. share_read_fields a b H. reflexivity. Qed.

Lemma hasBeenKilled_reads a b :
  sameReadFields a b -> hasBeenKilled a = hasBeenKilled b.
Proof. intros H. share_read_fields a b H. reflexivity. Qed.

(** The result of [spawn] is the same on two wrappers that agree on the
    fields it reads, whatever their names, process handles, [sentData] flags
    and emitted events are; and the wrappers agree on these fields again
    afterwards. *)
Lemma spawn_reads env a b streamUrl streamStats startTime d limitRead watermark :
  sameReadFields a b ->
  fst (spawn env a streamUrl streamStats startTime d limitRead watermark)
  = fst (spawn env b streamUrl streamStats startTime d limitRead watermark)
  /\ sameReadFields
       (snd (spawn env a streamUrl streamStats startTime d limitRead
               watermark))
       (snd (spawn env b streamUrl streamStats startTime d limitRead
               watermark)).
Proof.
  intros H. unfold spawn.
  destruct streamStats as [stats|]; [|split; [reflexivity|exact H]].
  rewrite (openingArgs_reads a b _ _ _ _ _ _ H),
    (frameRateAndDeinterlace_reads a b _ _ H).
  match goal with
  | |- context [generateInputs env a ?u ?s ?l] =>
      destruct (generateInputs_reads env a b u s l H) as [Hgen Hl1];
      destruct (generateInputs env a u s l) as [a1 la1];
      destruct (generateInputs env b u s l) as [b1 lb1]
  end.
  cbn [fst snd] in Hgen, Hl1. subst lb1.
  destruct (overlayInput_reads a1 b1 watermark la1 Hgen) as [Hov Hl2].
  destruct (overlayInput a1 watermark la1) as [a2 la2].
  destruct (overlayInput b1 watermark la1) as [b2 lb2].
  cbn [fst snd] in Hov, Hl2. subst lb2.
  pose proof (fixResolution_reads a2 b2 stats la2 Hov) as Hfix.
  destruct (fixResolution a2 stats la2) as [[a3 la3]|];
    destruct (fixResolution b2 stats la2) as [[b3 lb3]|];
    try contradiction; [|split; [reflexivity|exact Hov]].
  destruct Hfix as [Hfix ->].
  rewrite (overlayFilter_reads a3 b3 _ _ Hfix),
    (volumeFilter_reads a3 b3 _ Hfix), (padAudio_reads a3 b3 _ _ Hfix),
    (mappingArgs_reads a3 b3 _ _ _ Hfix), (hasBeenKilled_reads a3 b3 Hfix).
  destruct (hasBeenKilled b3); cbn [fst snd];
    (split; [reflexivity|]); [exact Hfix|].
  unfold sameReadFields in *. exact Hfix.
Qed.

Lemma readFields_emit e this : readFields (emit e this) = readFields this.
Proof. reflexivity. Qed.

Lemma readFields_onExit this args code :
  readFields (onExit this args code) = readFields this.
Proof.
  unfold onExit. generalize (exitEvents this args code). intros events.
  revert this. induction events as [|e events IH]; intros this;
    [reflexivity|].
  cbn [fold_left]. rewrite IH. apply readFields_emit.
Qed.

(** Every call keeps two wrappers in agreement on the fields [spawn]
    reads. *)
Lemma perform_reads env a b op :
  sameReadFields a b ->
  sameReadFields (perform env a op) (perform env b op).
Proof.
  intros H.
  destruct op as [audio|u s t d r w|title subtitle d|d| |code];
    cbn [perform].
  - share_read_fields a b H. reflexivity.
  - apply spawn_reads. exact H.
  - unfold spawnError.
    assert (Hopts : opts a = opts b) by (share_read_fields a b H; reflexivity).
    assert (Hstats : forall n, errorStats a n = errorStats b n)
      by (intros n; share_read_fields a b H; reflexivity).
    rewrite Hopts, Hstats.
    destruct (_ || _); cbn [snd]; [|apply spawn_reads; exact H].
    unfold sameReadFields. rewrite !readFields_emit. exact H.
  - unfold spawnOffline.
    assert (Hopts : opts a = opts b) by (share_read_fields a b H; reflexivity).
    assert (Hstats : forall n, errorStats a n = errorStats b n)
      by (intros n; share_read_fields a b H; reflexivity).
    rewrite Hopts, Hstats.
    destruct (negb _); cbn [snd]; [|apply spawn_reads; exact H].
    unfold sameReadFields. rewrite !readFields_emit. exact H.
  - share_read_fields a b H. reflexivity.
  - unfold sameReadFields.
    destruct (ffmpeg a), (ffmpeg b); rewrite ?readFields_onExit; exact H.
Qed.

Lemma perform_all_reads env (ops : list Operation) :
  forall a b,
    sameReadFields a b ->
    sameReadFields (fold_left (perform env) ops a)
      (fold_left (perform env) ops b).
Proof.
  induction ops as [|op ops IH]; intros a b H; [exact H|].
  cbn [fold_left]. apply IH, perform_reads, H.
Qed.

(** On a wrapper that normalises the resolution, [spawn] of a real source
    assigns no field that it reads. *)
Lemma spawn_settled env this url stats startTime d limitRead watermark :
  url <> "" ->
  vs_audioOnly stats = false ->
  ensureResolution this = true ->
  sameReadFields this
    (snd (spawn env this (Url url) (Some stats) startTime d limitRead
            watermark)).
Proof.
  intros Hurl Hstats Hensure. unfold spawn.
  match goal with
  | |- context [generateInputs env this ?u ?s ?l] =>
      assert (Hgen : generateInputs env this u s l = (this, l))
  end.
  { unfold generateInputs. cbn [isString isEmptyUrl negb orb].
    apply String.eqb_neq in Hurl. rewrite Hurl, Hstats. reflexivity. }
  rewrite Hgen.
  match goal with
  | |- context [overlayInput this watermark ?l] =>
      assert (Hov : sameReadFields this (fst (overlayInput this watermark l))
                    /\ ensureResolution (fst (overlayInput this watermark l))
                       = true);
      [|destruct (overlayInput this watermark l) as [this2 l2]]
  end.
  { unfold overlayInput, sameReadFields.
    destruct watermark as [wm|]; [|split; [reflexivity|exact Hensure]].
    destruct (w_url wm); [|split; [reflexivity|exact Hensure]].
    destruct (doOverlay _); [|split; [reflexivity|exact Hensure]].
    cbn [fst]. split; [|reflexivity].
    destruct this. cbn in Hensure. subst. reflexivity. }
  cbn [fst] in Hov. destruct Hov as [Hsame Hensure2].
  assert (Hfix : forall this3 l3,
             fixResolution this2 stats l2 = Some (this3, l3) ->
             this3 = this2).
  { intros this3 l3. unfold fixResolution. cbv zeta. rewrite Hensure2.
    break_conditions; intros [= <- <-] || discriminate; reflexivity. }
  destruct (fixResolution this2 stats l2) as [[this3 l3]|] eqn:Hresult;
    [|exact Hsame].
  rewrite (Hfix this3 l3 eq_refl).
  destruct (hasBeenKilled this2); cbn [snd]; exact Hsame.
Qed.

(** C6, amended.  The argument list that [spawn] builds is determined by its
    arguments (stream URL or error descriptor, probe stats, start time,
    duration, [limitRead], watermark), the server options, and the state of
    the wrapper it is called on, namely the fields [opts],
    [errorPicturePath], [channel], [wantedW], [wantedH], [apad],
    [audioChannelsSampleRate], [ensureResolution], [volumePercent],
    [hasBeenKilled], [audioOnly] and [alignAudio]: two invocations that agree
    on all of these have the same outcome and byte-identical lists, whatever
    the other fields of the wrappers are, and leave wrappers that agree on
    them again; so two wrappers that agree on these fields and go through the
    same calls build the same list at every call.  On a wrapper that
    normalises the resolution, a second [spawn] of the same real source
    builds the same list as the first. *)
Theorem encoder_plan_deterministic :
  (forall (env : ServerOptions) (a b : FFMPEG) (streamUrl : StreamUrl)
          (streamStats : option VideoStats) (startTime : option Z)
          (d : option string) (limitRead : bool)
          (watermark : option Watermark),
      sameReadFields a b ->
      fst (spawn env a streamUrl streamStats startTime d limitRead watermark)
      = fst (spawn env b streamUrl streamStats startTime d limitRead
               watermark)
      /\ sameReadFields
           (snd (spawn env a streamUrl streamStats startTime d limitRead
                   watermark))
           (snd (spawn env b streamUrl streamStats startTime d limitRead
                   watermark)))
  /\ (forall (env : ServerOptions) (ops : list Operation) (a b : FFMPEG)
             (streamUrl : StreamUrl) (streamStats : option VideoStats)
             (startTime : option Z) (d : option string) (limitRead : bool)
             (watermark : option Watermark),
         sameReadFields a b ->
         fst (spawn env (fold_left (perform env) ops a) streamUrl streamStats
                startTime d limitRead watermark)
         = fst (spawn env (fold_left (perform env) ops b) streamUrl
                  streamStats startTime d limitRead watermark))
  /\ (forall (env : ServerOptions) (this : FFMPEG) (url : string)
             (stats : VideoStats) (startTime : option Z) (d : option string)
             (limitRead : bool) (watermark : option Watermark),
         url <> "" ->
         vs_audioOnly stats = false ->
         ensureResolution this = true ->
         let first :=
           spawn env this (Url url) (Some stats) startTime d limitRead
             watermark in
         fst (spawn env (snd first) (Url url) (Some stats) startTime d
                limitRead watermark)
         = fst first).
Proof.
  split; [|split].
  - intros env a b streamUrl streamStats startTime d limitRead watermark Hab.
    apply spawn_reads. exact Hab.
  - intros env ops a b streamUrl streamStats startTime d limitRead watermark
      Hab.
    apply spawn_reads, perform_all_reads, Hab.
  - intros env this url stats startTime d limitRead watermark Hurl Hstats
      Hensure first.
    symmetry. apply spawn_reads.
    apply spawn_settled; assumption.
Qed.

Lemma encoder_plan_deterministic_witness :
  fst (spawn sampleEnv (withFfmpegName "renamed" sampleFFMPEG)
         (Url "http://plex/video.mkv") (Some oddSizedStats) (Some 12)
         (Some "30000ms") true None)
  = fst (spawn sampleEnv sampleFFMPEG
           (Url "http://plex/video.mkv") (Some oddSizedStats) (Some 12)
           (Some "30000ms") true None)
  /\ fst (spawn sampleEnv
            (snd (spawn sampleEnv sampleFFMPEG (Url "http://plex/video.mkv")
                    (Some oddSizedStats) (Some 12) (Some "30000ms") true
                    None))
            (Url "http://plex/video.mkv") (Some oddSizedStats) (Some 12)
            (Some "30000ms") true None)
     = fst (spawn sampleEnv sampleFFMPEG (Url "http://plex/video.mkv")
              (Some oddSizedStats) (Some 12) (Some "30000ms") true None).
Proof.
  split.
  - apply (proj1 encoder_plan_deterministic). reflexivity.
  - apply (proj2 (proj2 encoder_plan_deterministic) sampleEnv sampleFFMPEG
             "http://plex/video.mkv" oddSizedStats (Some 12)
             (Some "30000ms") true None).
    + discriminate.
    + reflexivity.
    + reflexivity.
Defined.

(** C6, as stated, fails.  The inputs the claim lists do not determine the
    list: [spawn] writes [wantedW] and [wantedH] when it pads an odd size, so
    a second invocation on the same wrapper with the same arguments builds
    another filter graph (the eleventh argument). *)
Lemma spawn_again_on_same_wrapper_differs :
  let this := newFFMPEG sampleEnv unnormalisedSettings sampleChannel in
  let first :=
    spawn sampleEnv this (Url "http://plex/video.mkv") (Some oddSizedStats)
      (Some 12) (Some "30000ms") true None in
  let second :=
    spawn sampleEnv (snd first) (Url "http://plex/video.mkv")
      (Some oddSizedStats) (Some 12) (Some "30000ms") true None in
  exists args1 args2,
    fst first = Spawned args1
    /\ fst second = Spawned args2
    /\ args1 !! 10%nat
       = Some
           "[0:v]null[video];[video]scale=959:720:flags=bicubic[scaled];[scaled]pad=960:720:(ow-iw)/2:(oh-ih)/2[blackpadded];[blackpadded]setsar=1[minsiz]"
    /\ args2 !! 10%nat
       = Some
           "[0:v]null[video];[video]scale=960:720:flags=bicubic[scaled];[scaled]setsar=1[minsiz]"
    /\ wantedW this = 1280
    /\ wantedW (snd first) = 960.
Proof.
  cbv zeta. eexists. eexists.
  split; [vm_compute; reflexivity|]. split; [vm_compute; reflexivity|].
  repeat split; vm_compute; reflexivity.
Qed.

End FfmpegProperties.

(** * Properties of the redirect loop *)

Module RedirectProperties.

Import HelperFuncs VideoStream.

#[local] Open Scope string_scope.
#[local] Open Scope list_scope.
#[local] Open Scope Z_scope.

Lemma includes_elem_of (x : string) (l : list string) :
  Js.includes x l = true <-> x ∈ l.
Proof.
  unfold Js.includes. rewrite existsb_exists. split.
  - intros (y & Hin & Heq). apply String.eqb_eq in Heq. subst y.
    apply list_elem_of_In. exact Hin.
  - intros Hin. exists x. split; [apply list_elem_of_In; exact Hin|].
    apply String.eqb_refl.
Qed.

Lemma prefix_append (s t : string) : String.prefix s (s ++ t) = true.
Proof.
  induction s as [|a s IH]; [destruct t; reflexivity|].
  change (String a s ++ t)%string with (String a (s ++ t)). simpl.
  destruct (ascii_dec a a); [exact IH|contradiction].
Qed.

Lemma strIncludes_unfold (sub s : string) :
  Js.strIncludes sub s
  = if String.prefix sub s then true
    else match s with
         | EmptyString => false
         | String _ rest => Js.strIncludes sub rest
         end.
Proof. destruct s; reflexivity. Qed.

Lemma strIncludes_here (sub rest : string) :
  Js.strIncludes sub (sub ++ rest) = true.
Proof. rewrite strIncludes_unfold, prefix_append. reflexivity. Qed.

Lemma strIncludes_skip (sub before s : string) :
  Js.strIncludes sub s = true -> Js.strIncludes sub (before ++ s) = true.
Proof.
  intros Hs. induction before as [|a before IH]; [exact Hs|].
  change (String a before ++ s)%string with (String a (before ++ s)).
  rewrite strIncludes_unfold.
  destruct (String.prefix sub _); [reflexivity|exact IH].
Qed.

Lemma append_empty (s : string) : (s ++ "")%string = s.
Proof.
  induction s as [|a s IH]; [reflexivity|].
  change (String a s ++ "")%string with (String a (s ++ "")).
  rewrite IH. reflexivity.
Qed.

(** A joined list contains each of its elements. *)
Lemma strIncludes_join (sep x : string) (l : list string) :
  x ∈ l -> Js.strIncludes x (Js.join sep l) = true.
Proof.
  induction l as [|y l IH]; intros Hin; [inversion Hin|].
  apply elem_of_cons in Hin.
  destruct l as [|z l].
  - destruct Hin as [->|Hin]; [|inversion Hin].
    cbn [Js.join]. rewrite <- (append_empty y) at 2. apply strIncludes_here.
  - change (Js.join sep (y :: z :: l))
      with (y ++ sep ++ Js.join sep (z :: l))%string.
    destruct Hin as [->|Hin]; [apply strIncludes_here|].
    apply strIncludes_skip, strIncludes_skip, IH. exact Hin.
Qed.

(** The error text of the recorded item names every channel visited. *)
Lemma recursiveRedirectItem_names (visited : list string) (id : string) :
  id ∈ visited ->
  exists text,
    sli_error (recursiveRedirectItem visited) = Some text
    /\ Js.strIncludes id text = true.
Proof.
  intros Hin. eexists. split; [reflexivity|].
  apply strIncludes_skip, strIncludes_join. exact Hin.
Qed.

(** C3, as stated, fails.  With two channels X and Y that redirect to each
    other and nothing cached, the loop is still running after two hops; the
    third hop ends it, with the item recorded for Y. *)
Lemma redirect_cycle_needs_three_hops :
  size storeS5 = 2%nat
  /\ loopS5 2 = None
  /\ exists st,
       loopS5 3 = Some (Finished _ st)
       /\ lineupItem _ st = Some (recursiveRedirectItem ["X"; "Y"])
       /\ redirectChannels _ st = ["X"; "Y"; "X"].
Proof.
  split; [reflexivity|]. split; [vm_compute; reflexivity|].
  eexists. split; [vm_compute; reflexivity|]. split; reflexivity.
Qed.

Section WithCache.

(** The walk is studied for every value of [constants.SLACK] and every
    cache that satisfies the two hypotheses below. *)
Variable SLACK : Z.
Variable Cache : Type.
Variable getCurrentLineupItem : Cache -> string -> Z -> option StreamLineupItem.
Variable recordPlayback : Cache -> string -> Z -> StreamLineupItem -> Cache.

(** A recursive-redirect item recorded for a channel is returned when that
    channel is looked up at the same timestamp. *)
Hypothesis read_recorded :
  forall c channel t visited,
    getCurrentLineupItem
      (recordPlayback c channel t (recursiveRedirectItem visited)) channel t
    = Some (recursiveRedirectItem visited).

(** Recording for one channel leaves the items of the others. *)
Hypothesis read_other :
  forall c channel other t t' item,
    channel <> other ->
    getCurrentLineupItem (recordPlayback c channel t item) other t'
    = getCurrentLineupItem c other t'.

Section WithStore.

Variable store : gmap string Channel.
Variable startTimestamp : Z.

#[local] Abbreviation iteration :=
  (iteration SLACK Cache getCurrentLineupItem recordPlayback store
     startTimestamp).
#[local] Abbreviation redirectLoop :=
  (redirectLoop SLACK Cache getCurrentLineupItem recordPlayback store
     startTimestamp).
#[local] Abbreviation LoopInvariant :=
  (LoopInvariant Cache getCurrentLineupItem store startTimestamp).
#[local] Abbreviation remainingHops := (remainingHops Cache store).

Lemma visitedSet_step (st : LoopState Cache) (target : string) :
  (list_to_set (target :: (redirectChannels _ st ++ [channelContext _ st]))
     : gset string)
  = {[target]} ∪ visitedSet _ st.
Proof.
  unfold visitedSet. cbn [list_to_set].
  rewrite list_to_set_app_L. cbn [list_to_set]. set_solver.
Qed.

Lemma elem_of_visited (st : LoopState Cache) (x : string) :
  x ∈ redirectChannels _ st ++ [channelContext _ st] <-> x ∈ visitedSet _ st.
Proof. unfold visitedSet. set_solver. Qed.

(** What one iteration does to the cache: when the target of the redirect is
    among the channels visited so far (the current one included), the item
    [recursiveRedirectItem] is recorded for the current channel. *)
Lemma iteration_records_cycle (st : LoopState Cache) :
  let visited := redirectChannels _ st ++ [channelContext _ st] in
  Js.includes (prog_channel (program (currentProgram _ st))) visited = true ->
  match iteration st with
  | Continue _ st' | Break _ st' =>
      cache _ st'
      = recordPlayback (cache _ st) (channelContext _ st) startTimestamp
          (recursiveRedirectItem visited)
  | Rejects _ _ => True
  end.
Proof.
  intros visited Hin. unfold VideoStream.iteration. cbv zeta.
  fold visited. rewrite Hin.
  destruct (loadChannelAndLineup store _) as [newChannel|]; [|reflexivity].
  destruct (getCurrentLineupItem _ _ _); [reflexivity|].
  destruct (getCurrentProgramAndTimeElapsed _ _); [reflexivity|exact I].
Qed.

(** An iteration that continues with a redirect keeps the invariant and
    leaves fewer hops. *)
Lemma iteration_progress (st : LoopState Cache) (recorded : gset string) :
  LoopInvariant st recorded ->
  match iteration st with
  | Continue _ st' =>
      isRedirect _ st' = false
      \/ exists recorded',
           LoopInvariant st' recorded'
           /\ (remainingHops st' recorded' < remainingHops st recorded)%nat
  | Break _ _ | Rejects _ _ => True
  end.
Proof.
  intros [Hvisited Hrecorded Hcached Hcurrent].
  unfold VideoStream.iteration. cbv zeta.
  set (target := prog_channel (program (currentProgram _ st))).
  set (visited := redirectChannels _ st ++ [channelContext _ st]).
  destruct (loadChannelAndLineup store target) as [newChannel|] eqn:Hload;
    [|left; reflexivity].
  assert (Htarget : target ∈ dom store).
  { apply elem_of_dom. exists newChannel. exact Hload. }
  assert (Hctx : channelContext _ st ∈ dom store).
  { apply Hvisited. unfold visitedSet. set_solver. }
  destruct (Js.includes target visited) eqn:Hin.
  - (* the target was visited: the current channel is recorded *)
    apply includes_elem_of, elem_of_visited in Hin.
    destruct (getCurrentLineupItem _ target startTimestamp) eqn:Hlookup;
      [exact I|].
    destruct (getCurrentProgramAndTimeElapsed _ _) as [next|]; [|exact I].
    right. exists ({[channelContext _ st]} ∪ recorded).
    assert (Hcached' :
      forall r, r ∈ ({[channelContext _ st]} ∪ recorded : gset string) ->
        getCurrentLineupItem
          (recordPlayback (cache _ st) (channelContext _ st) startTimestamp
             (recursiveRedirectItem visited)) r startTimestamp <> None).
    { intros r Hr. apply elem_of_union in Hr. destruct Hr as [Hr|Hr].
      - apply elem_of_singleton in Hr. subst r.
        rewrite read_recorded. discriminate.
      - rewrite read_other; [apply Hcached; exact Hr|].
        intros Heq. subst r. contradiction. }
    assert (Hfresh : target ∉ ({[channelContext _ st]} ∪ recorded : gset string)).
    { intros Hr. apply Hcached' in Hr. contradiction. }
    split.
    + constructor; cbn [channelContext redirectChannels cache].
      * unfold visitedSet. cbn [channelContext redirectChannels].
        fold visited. unfold visited. rewrite visitedSet_step. set_solver.
      * set_solver.
      * exact Hcached'.
      * exact Hfresh.
    + unfold VideoStream.remainingHops, visitedSet.
      cbn [channelContext redirectChannels].
      fold visited. unfold visited. rewrite visitedSet_step.
      replace ({[target]} ∪ visitedSet Cache st) with (visitedSet Cache st)
        by set_solver.
      assert (Hsize : size ({[channelContext _ st]} ∪ recorded : gset string)
                      = S (size recorded)).
      { rewrite size_union by set_solver. rewrite size_singleton. reflexivity. }
      assert (Hbound : (size ({[channelContext _ st]} ∪ recorded : gset string)
                        < size (dom store))%nat).
      { apply subset_size. split; [set_solver|].
        intros Hsub. apply Hfresh. apply Hsub. exact Htarget. }
      unfold visitedSet. lia.
  - (* the target is new: one more channel is visited *)
    assert (Hnew : target ∉ visitedSet _ st).
    { intros Hv. apply elem_of_visited, includes_elem_of in Hv.
      fold visited in Hv. congruence. }
    destruct (getCurrentLineupItem _ target startTimestamp) eqn:Hlookup;
      [exact I|].
    destruct (getCurrentProgramAndTimeElapsed _ _) as [next|]; [|exact I].
    right. exists recorded.
    split.
    + constructor; cbn [channelContext redirectChannels cache].
      * unfold visitedSet. cbn [channelContext redirectChannels].
        fold visited. unfold visited. rewrite visitedSet_step. set_solver.
      * exact Hrecorded.
      * exact Hcached.
      * intros Hr. apply Hcached in Hr. contradiction.
    + unfold VideoStream.remainingHops, visitedSet.
      cbn [channelContext redirectChannels].
      fold visited. unfold visited. rewrite visitedSet_step.
      assert (Hsize : size ({[target]} ∪ visitedSet Cache st)
                      = S (size (visitedSet Cache st))).
      { rewrite size_union by set_solver. rewrite size_singleton. reflexivity. }
      assert (Hbound : (size ({[target]} ∪ visitedSet Cache st)
                        <= size (dom store))%nat).
      { apply subseteq_size. set_solver. }
      unfold visitedSet in *. lia.
Qed.

(** The loop ends within the remaining hops. *)
Lemma redirectLoop_terminates :
  forall (hops : nat) (st : LoopState Cache) (recorded : gset string),
    LoopInvariant st recorded ->
    (remainingHops st recorded < hops)%nat ->
    exists outcome, redirectLoop hops st = Some outcome.
Proof.
  induction hops as [|hops IH]; intros st recorded Hinv Hhops; [lia|].
  cbn [VideoStream.redirectLoop].
  destruct (isRedirect _ st); [|eexists; reflexivity].
  pose proof (iteration_progress st recorded Hinv) as Hstep.
  destruct (iteration st) as [st'|st'|message];
    [|eexists; reflexivity|eexists; reflexivity].
  destruct Hstep as [Hdone|(recorded' & Hinv' & Hless)].
  - destruct hops; cbn [VideoStream.redirectLoop]; rewrite Hdone;
      eexists; reflexivity.
  - apply (IH st' recorded' Hinv'). lia.
Qed.

(** The loop entered for a channel of the store ends within [2N - 1] hops,
    [N] being the number of channels. *)
Lemma redirectLoop_bound (uuid : string) (channel : Channel) (c : Cache)
    (st0 : LoopState Cache) :
  store !! uuid = Some channel ->
  enterLoop SLACK Cache startTimestamp uuid channel c = Ok st0 ->
  exists outcome, redirectLoop (2 * size store - 1) st0 = Some outcome.
Proof.
  intros Hstore Henter. unfold enterLoop in Henter.
  destruct (getCurrentProgramAndTimeElapsed _ _) as [p|]; [|discriminate].
  injection Henter as <-.
  assert (Huuid : uuid ∈ dom store).
  { apply elem_of_dom. exists channel. exact Hstore. }
  assert (Hpos : (0 < size (dom store))%nat).
  { destruct (size (dom store)) eqn:Hsize; [|lia].
    apply size_empty_inv in Hsize. set_solver. }
  apply (redirectLoop_terminates _ _ ∅).
  - constructor; cbn [channelContext redirectChannels cache].
    + unfold visitedSet. cbn [channelContext redirectChannels]. set_solver.
    + set_solver.
    + intros r Hr. set_solver.
    + set_solver.
  - unfold VideoStream.remainingHops, visitedSet.
    cbn [channelContext redirectChannels list_to_set].
    rewrite size_empty, size_dom in *.
    replace ({[uuid]} ∪ ∅ : gset string) with ({[uuid]} : gset string)
      by set_solver.
    rewrite size_singleton. lia.
Qed.

End WithStore.

(** *** Scenario S5 with any such cache *)

Lemma resolve_single_redirect (t : Z) :
  0 <= t ->
  exists elapsed,
    0 <= elapsed
    /\ forall target,
         getCurrentProgramAndTimeElapsed SLACK t
           (channelOf 0 600000 [redirectProgram target 600000])
         = Ok {| program := redirectProgram target 600000;
                 timeElapsed := elapsed; programIndex := 0 |}.
Proof.
  intros Ht.
  pose proof (Z.rem_bound_pos t 600000 Ht ltac:(lia)) as Hrem.
  exists (if (600000 >? 2 * SLACK) && (Z.rem t 600000 >? 600000 - SLACK)
          then 0 else Z.rem t 600000).
  split; [destruct (_ && _); lia|].
  intros target. unfold getCurrentProgramAndTimeElapsed, channelOf.
  cbn [ch_startTimeEpoch ch_duration ch_programs length].
  replace (0 >? t) with false by (symmetry; rewrite Z.gtb_ltb; apply Z.ltb_ge; lia).
  cbn [Z.eqb]. rewrite Z.sub_0_r.
  cbn [findProgram redirectProgram prog_duration].
  replace (Z.rem t 600000 - 600000 <? 0) with true
    by (symmetry; apply Z.ltb_lt; lia).
  destruct ((600000 >? 2 * SLACK) && (Z.rem t 600000 >? 600000 - SLACK));
    reflexivity.
Qed.

Lemma storeS5_X : loadChannelAndLineup storeS5 "X" = Some channelX.
Proof. reflexivity. Qed.

Lemma storeS5_Y : loadChannelAndLineup storeS5 "Y" = Some channelY.
Proof. reflexivity. Qed.

Lemma s5_three_hops (c0 : Cache) (t : Z) (st0 : LoopState Cache) :
  0 <= t ->
  getCurrentLineupItem c0 "X" t = None ->
  getCurrentLineupItem c0 "Y" t = None ->
  enterLoop SLACK Cache t "X" channelX c0 = Ok st0 ->
  exists final,
    VideoStream.redirectLoop SLACK Cache getCurrentLineupItem recordPlayback
      storeS5 t 3 st0 = Some (Finished _ final)
    /\ lineupItem _ final = Some (recursiveRedirectItem ["X"; "Y"])
    /\ channelContext _ final = "Y"
    /\ redirectChannels _ final = ["X"; "Y"; "X"]
    /\ 0 <= timeElapsed (currentProgram _ st0)
    /\ upperBounds _ final
       = [600000 - timeElapsed (currentProgram _ st0);
          600000 - timeElapsed (currentProgram _ st0);
          600000 - timeElapsed (currentProgram _ st0)].
Proof.
  intros Ht HX HY Henter.
  destruct (resolve_single_redirect t Ht) as (elapsed & Helapsed & Hres).
  pose proof (Hres "Y") as HresX. pose proof (Hres "X") as HresY.
  fold channelX in HresX. fold channelY in HresY.
  unfold enterLoop in Henter. rewrite HresX in Henter.
  injection Henter as <-.
  (* first hop: X to Y, nothing recorded *)
  cbn [VideoStream.redirectLoop isRedirect currentProgram program prog_type
       redirectProgram String.eqb Ascii.eqb Bool.eqb].
  unfold VideoStream.iteration at 1.
  cbn [currentProgram program prog_channel prog_duration redirectProgram
       redirectChannels upperBounds channelContext cache lineupItem
       timeElapsed app].
  change (Js.includes "Y" ["X"]) with false. cbv iota.
  rewrite storeS5_Y, HY, HresY.
  (* second hop: Y to X, the item is recorded for Y *)
  cbn [isRedirect currentProgram program prog_type redirectProgram
       String.eqb Ascii.eqb Bool.eqb].
  unfold VideoStream.iteration at 1.
  cbn [currentProgram program prog_channel prog_duration redirectProgram
       redirectChannels upperBounds channelContext cache lineupItem
       timeElapsed app].
  change (Js.includes "X" ["X"; "Y"]) with true. cbv iota.
  rewrite storeS5_X, read_other, HX, HresX by discriminate.
  (* third hop: X to Y, where the recorded item is found *)
  cbn [isRedirect currentProgram program prog_type redirectProgram
       String.eqb Ascii.eqb Bool.eqb].
  unfold VideoStream.iteration at 1.
  cbn [currentProgram program prog_channel prog_duration redirectProgram
       redirectChannels upperBounds channelContext cache lineupItem
       timeElapsed app].
  change (Js.includes "Y" ["X"; "Y"; "X"]) with true. cbv iota.
  rewrite storeS5_Y, read_other, read_recorded by discriminate.
  eexists. split; [reflexivity|].
  cbn [lineupItem channelContext redirectChannels upperBounds currentProgram
       timeElapsed].
  repeat split. exact Helapsed.
Qed.

(** The adjustment of the upper bounds changes [streamDuration] only, to a
    value that is at most the initial bound and at most each upper bound plus
    the offset. *)
Lemma adjustUpperBounds_from_bound (t : Z) :
  forall (pairs : list (string * Z)) (beginningOffset u : Z)
         (item : StreamLineupItem) (c : Cache),
    exists d,
      fst (adjustUpperBounds Cache recordPlayback t pairs beginningOffset u
             (withStreamDuration u item) c)
      = withStreamDuration d item
      /\ d <= u
      /\ forall channel bound,
           In (channel, bound) pairs -> d <= bound + beginningOffset.
Proof.
  induction pairs as [|[channel bound] pairs IH];
    intros beginningOffset u item c; cbn [adjustUpperBounds].
  - exists u. cbn [fst]. split; [reflexivity|]. split; [lia|intros ? ? []].
  - cbv zeta. cbn [withStreamDuration sli_streamDuration].
    set (n := Z.min (bound + beginningOffset) (Z.min u u)).
    change (withStreamDuration n (withStreamDuration u item))
      with (withStreamDuration n item).
    destruct (IH beginningOffset n item
                (recordPlayback c channel t (withStreamDuration n item)))
      as (d & Hd & Hle & Hall).
    assert (Hn : n <= u /\ n <= bound + beginningOffset) by (unfold n; lia).
    clearbody n.
    exists d. split; [exact Hd|]. split; [lia|].
    intros channel' bound' [[= <- <-]|Hin]; [lia|exact (Hall _ _ Hin)].
Qed.

Lemma adjustUpperBounds_item (t : Z) (pairs : list (string * Z))
    (beginningOffset upperBound : Z) (item : StreamLineupItem) (c : Cache) :
  pairs <> [] ->
  exists d,
    fst (adjustUpperBounds Cache recordPlayback t pairs beginningOffset
           upperBound item c)
    = withStreamDuration d item
    /\ d <= upperBound
    /\ forall channel bound,
         In (channel, bound) pairs -> d <= bound + beginningOffset.
Proof.
  destruct pairs as [|[channel bound] pairs]; [contradiction|]. intros _.
  cbn [adjustUpperBounds]. cbv zeta.
  set (prev := match sli_streamDuration item with
               | Some d => Z.min upperBound d
               | None => upperBound
               end).
  set (n := Z.min (bound + beginningOffset) prev).
  destruct (adjustUpperBounds_from_bound t pairs beginningOffset n item
              (recordPlayback c channel t (withStreamDuration n item)))
    as (d & Hd & Hle & Hall).
  assert (Hn : n <= upperBound /\ n <= bound + beginningOffset).
  { unfold n, prev. destruct (sli_streamDuration item); lia. }
  clearbody n. clearbody prev.
  exists d. split; [exact Hd|]. split; [lia|].
  intros channel' bound' [[= <- <-]|Hin]; [lia|exact (Hall _ _ Hin)].
Qed.

(** What an iteration does when the target of the redirect has an item in
    the cache: the loop ends, and the item is surfaced with its
    [streamDuration] adjusted. *)
Lemma iteration_surfaces (store : gmap string Channel) (t : Z) (hops : nat)
    (st : LoopState Cache) (newChannel : Channel) (item : StreamLineupItem) :
  let p := program (currentProgram _ st) in
  let visited := redirectChannels _ st ++ [channelContext _ st] in
  let c :=
    if Js.includes (prog_channel p) visited
    then recordPlayback (cache _ st) (channelContext _ st) t
           (recursiveRedirectItem visited)
    else cache _ st in
  isRedirect _ st = true ->
  store !! prog_channel p = Some newChannel ->
  getCurrentLineupItem c (prog_channel p) t = Some item ->
  exists final d c',
    VideoStream.redirectLoop SLACK Cache getCurrentLineupItem recordPlayback
      store t (S hops) st = Some (Finished _ final)
    /\ channelContext _ final = prog_channel p
    /\ lineupItem _ final = Some item
    /\ redirectChannels _ final = visited
    /\ surfaceCachedItem Cache recordPlayback t final
       = Some (withStreamDuration d item, c')
    /\ d <= MAX_SAFE_INTEGER
    /\ forall channel bound,
         In (channel, bound)
           (combine (redirectChannels _ final) (upperBounds _ final)) ->
         d <= bound + match sli_beginningOffset item with
                      | Some b => b
                      | None => 0
                      end.
Proof.
  intros p visited c Hredirect Hstore Hcached.
  cbn [VideoStream.redirectLoop]. rewrite Hredirect.
  unfold VideoStream.iteration. cbv zeta.
  fold p. fold visited. fold c.
  unfold loadChannelAndLineup. rewrite Hstore, Hcached.
  set (bounds := upperBounds _ st
                 ++ [prog_duration p - timeElapsed (currentProgram _ st)]).
  assert (Hpairs : rev (combine visited bounds) <> []).
  { assert (Hcons : exists pair rest,
                       combine visited bounds = pair :: rest).
    { unfold visited, bounds.
      destruct (redirectChannels _ st), (upperBounds _ st); cbn;
        eexists; eexists; reflexivity. }
    destruct Hcons as (pair & rest & ->). cbn [rev].
    intros Hnil. apply app_eq_nil in Hnil. destruct Hnil; discriminate. }
  destruct (adjustUpperBounds_item t (rev (combine visited bounds))
              match sli_beginningOffset item with
              | Some b => b
              | None => 0
              end MAX_SAFE_INTEGER item c Hpairs)
    as (d & Hd & Hmax & Hall).
  eexists. exists d. eexists.
  split; [reflexivity|].
  cbn [channelContext lineupItem redirectChannels upperBounds].
  split; [reflexivity|]. split; [reflexivity|]. split; [reflexivity|].
  split.
  - unfold surfaceCachedItem.
    cbn [lineupItem redirectChannels upperBounds cache].
    rewrite <- Hd. f_equal. apply surjective_pairing.
  - split; [exact Hmax|].
    intros channel bound Hin. apply (Hall channel bound).
    apply in_rev. rewrite rev_involutive. exact Hin.
Qed.

(** C3, amended.  The cache being one that returns the recursive-redirect
    item recorded for a channel at the same timestamp and keeps the items of
    the other channels: for every set of [N] channels, the redirect loop
    entered for one of them ends within [2N - 1] hops (not [N]).  A hop whose
    redirect points at a channel already visited records for the current
    channel an offline item with [duration] 60000 whose error text names
    every channel visited so far; it does not stop there: when the target has
    no item in the cache the loop goes on at the target, with the target's
    current program.  A hop whose target has an item in the cache ends the
    loop and surfaces that item with nothing but its [streamDuration]
    changed, to a value that is at most [MAX_SAFE_INTEGER] and at most the
    time left in each redirect item plus the item's [beginningOffset].  In
    particular, for channels X and Y that redirect to each other by single
    600 s items and have nothing cached, resolving X takes three hops and
    surfaces on channel Y the item recorded for Y: type 'offline', title
    'Error', [duration] 60000, start 0, the error text 'Recursive channel
    redirect found: X, Y', which contains both ids, and a [streamDuration]
    of 600000 ms minus the time elapsed in X's item. *)
Theorem redirect_walk_terminates :
  (forall (store : gmap string Channel) (t : Z) (uuid : string)
          (channel : Channel) (c : Cache) (st0 : LoopState Cache),
      store !! uuid = Some channel ->
      enterLoop SLACK Cache t uuid channel c = Ok st0 ->
      exists outcome,
        VideoStream.redirectLoop SLACK Cache getCurrentLineupItem recordPlayback
          store t (2 * size store - 1) st0 = Some outcome)
  /\ (forall (store : gmap string Channel) (t : Z) (st : LoopState Cache),
         let p := program (currentProgram _ st) in
         let visited := redirectChannels _ st ++ [channelContext _ st] in
         let recorded :=
           recordPlayback (cache _ st) (channelContext _ st) t
             (recursiveRedirectItem visited) in
         Js.includes (prog_channel p) visited = true ->
         (sli_type (recursiveRedirectItem visited) = "offline"
          /\ sli_duration (recursiveRedirectItem visited) = 60000
          /\ forall id, id ∈ visited ->
                exists text,
                  sli_error (recursiveRedirectItem visited) = Some text
                  /\ Js.strIncludes id text = true)
         /\ match VideoStream.iteration SLACK Cache getCurrentLineupItem
                  recordPlayback store t st with
            | Continue _ st' | Break _ st' => cache _ st' = recorded
            | Rejects _ _ => True
            end
         /\ forall (newChannel : Channel) (next : ProgramAndTimeElapsed),
              store !! prog_channel p = Some newChannel ->
              getCurrentLineupItem recorded (prog_channel p) t = None ->
              getCurrentProgramAndTimeElapsed SLACK t newChannel = Ok next ->
              VideoStream.iteration SLACK Cache getCurrentLineupItem
                recordPlayback store t st
              = Continue _
                  {| currentProgram := next;
                     channelContext := prog_channel p;
                     redirectChannels := visited;
                     upperBounds :=
                       upperBounds _ st
                       ++ [prog_duration p
                           - timeElapsed (currentProgram _ st)];
                     lineupItem := None;
                     cache := recorded |})
  /\ (forall (store : gmap string Channel) (t : Z) (hops : nat)
             (st : LoopState Cache) (newChannel : Channel)
             (item : StreamLineupItem),
         let p := program (currentProgram _ st) in
         let visited := redirectChannels _ st ++ [channelContext _ st] in
         let c :=
           if Js.includes (prog_channel p) visited
           then recordPlayback (cache _ st) (channelContext _ st) t
                  (recursiveRedirectItem visited)
           else cache _ st in
         isRedirect _ st = true ->
         store !! prog_channel p = Some newChannel ->
         getCurrentLineupItem c (prog_channel p) t = Some item ->
         exists final d c',
           VideoStream.redirectLoop SLACK Cache getCurrentLineupItem
             recordPlayback store t (S hops) st = Some (Finished _ final)
           /\ channelContext _ final = prog_channel p
           /\ lineupItem _ final = Some item
           /\ redirectChannels _ final = visited
           /\ surfaceCachedItem Cache recordPlayback t final
              = Some (withStreamDuration d item, c')
           /\ d <= MAX_SAFE_INTEGER
           /\ forall channel bound,
                In (channel, bound)
                  (combine (redirectChannels _ final) (upperBounds _ final)) ->
                d <= bound + match sli_beginningOffset item with
                             | Some b => b
                             | None => 0
                             end)
  /\ (forall (c0 : Cache) (t : Z) (st0 : LoopState Cache),
         0 <= t ->
         getCurrentLineupItem c0 "X" t = None ->
         getCurrentLineupItem c0 "Y" t = None ->
         enterLoop SLACK Cache t "X" channelX c0 = Ok st0 ->
         exists final c',
           VideoStream.redirectLoop SLACK Cache getCurrentLineupItem recordPlayback
             storeS5 t 3 st0 = Some (Finished _ final)
           /\ channelContext _ final = "Y"
           /\ surfaceCachedItem Cache recordPlayback t final
              = Some ({| sli_type := "offline";
                         sli_title := Some "Error";
                         sli_error :=
                           Some "Recursive channel redirect found: X, Y";
                         sli_duration := 60000;
                         sli_start := 0;
                         sli_streamDuration :=
                           Some (600000 - timeElapsed (currentProgram _ st0));
                         sli_beginningOffset := None |}, c')
           /\ 0 <= timeElapsed (currentProgram _ st0)
           /\ Js.strIncludes "X" "Recursive channel redirect found: X, Y" = true
           /\ Js.strIncludes "Y" "Recursive channel redirect found: X, Y" = true).
Proof.
  split; [|split; [|split]].
  - intros store t uuid channel c st0 Hstore Henter.
    eapply redirectLoop_bound; eassumption.
  - intros store t st p visited recorded Hin.
    split; [|split].
    + split; [reflexivity|]. split; [reflexivity|].
      intros id Hid. apply recursiveRedirectItem_names. exact Hid.
    + apply (iteration_records_cycle store t st). exact Hin.
    + intros newChannel next Hstore Hnone Hnext.
      unfold VideoStream.iteration. cbv zeta.
      fold p. fold visited. rewrite Hin. fold recorded.
      unfold loadChannelAndLineup. rewrite Hstore, Hnone, Hnext.
      reflexivity.
  - intros store t hops st newChannel item. apply iteration_surfaces.
  - intros c0 t st0 Ht HX HY Henter.
    destruct (s5_three_hops c0 t st0 Ht HX HY Henter)
      as (final & Hloop & Hitem & Hcontext & Hvisited & Helapsed & Hbounds).
    exists final. eexists.
    split; [exact Hloop|]. split; [exact Hcontext|].
    split; [|split; [exact Helapsed|split; reflexivity]].
    unfold surfaceCachedItem. rewrite Hitem, Hvisited, Hbounds.
    cbn [sli_beginningOffset recursiveRedirectItem combine rev app
         adjustUpperBounds sli_streamDuration withStreamDuration].
    cbv zeta.
    cbn [sli_beginningOffset sli_streamDuration sli_type sli_title sli_error
         sli_duration sli_start withStreamDuration].
    unfold MAX_SAFE_INTEGER.
    rewrite !Z.add_0_r.
    rewrite (Z.min_l (600000 - timeElapsed (currentProgram _ st0))
               9007199254740991) by lia.
    rewrite !Z.min_id.
    reflexivity.
Qed.

End WithCache.

(** The reference cache is such a cache. *)
Lemma recordingGet_recorded c channel t visited :
  recordingGet (recordingPut c channel t (recursiveRedirectItem visited))
    channel t
  = Some (recursiveRedirectItem visited).
Proof.
  unfold recordingGet, recordingPut. rewrite lookup_insert_eq, Z.eqb_refl.
  reflexivity.
Qed.

Lemma recordingGet_other c (channel other : string) t t' item :
  channel <> other ->
  recordingGet (recordingPut c channel t item) other t' = recordingGet c other t'.
Proof.
  intros Hne. unfold recordingGet, recordingPut.
  rewrite lookup_insert_ne by exact Hne. reflexivity.
Qed.

Lemma redirect_walk_terminates_witness :
  (exists outcome, loopS5 (2 * size storeS5 - 1) = Some outcome)
  /\ exists final c',
       loopS5 3 = Some (Finished _ final)
       /\ channelContext _ final = "Y"
       /\ surfaceCachedItem _ recordingPut 1000 final
          = Some ({| sli_type := "offline";
                     sli_title := Some "Error";
                     sli_error := Some "Recursive channel redirect found: X, Y";
                     sli_duration := 60000;
                     sli_start := 0;
                     sli_streamDuration := Some 599000;
                     sli_beginningOffset := None |}, c').
Proof.
  pose proof (redirect_walk_terminates Constants.SLACK _ recordingGet
                recordingPut
                recordingGet_recorded recordingGet_other)
    as (Hbound & _ & _ & Hs5).
  assert (Henter :
    enterS5
    = Ok {| currentProgram :=
              {| program := redirectProgram "Y" 600000; timeElapsed := 1000;
                 programIndex := 0 |};
            channelContext := "X"; redirectChannels := []; upperBounds := [];
            lineupItem := None; cache := ∅ |}) by reflexivity.
  split.
  - unfold loopS5. rewrite Henter.
    apply (Hbound storeS5 1000 "X" channelX ∅ _); [reflexivity|exact Henter].
  - assert (HX : recordingGet ∅ "X" 1000 = None) by reflexivity.
    assert (HY : recordingGet ∅ "Y" 1000 = None) by reflexivity.
    destruct (Hs5 ∅ 1000 _ ltac:(lia) HX HY Henter)
      as (final & c' & Hloop & Hcontext & Hsurface & _).
    exists final, c'. unfold loopS5. rewrite Henter.
    split; [exact Hloop|]. split; [exact Hcontext|exact Hsurface].
Defined.

End RedirectProperties.

(** * Further properties of the lineup resolver *)

Module ResolverExtras.

Import HelperFuncs.

Section WithSlack.

Variable SLACK : Z.

#[local] Abbreviation findProgram := (HelperFuncs.findProgram SLACK).
#[local] Abbreviation getCurrentProgramAndTimeElapsed :=
  (HelperFuncs.getCurrentProgramAndTimeElapsed SLACK).

(** Where the loop stops: it runs off the end, or it jumps to the start of
    the following item, or it stays inside the item at the index it returns,
    in which case the smoothing condition is false for that item. *)
Lemma findProgram_position :
  forall (rest : list Program) (l2 y t : Z),
    snd (findProgram rest l2 y t) = -1
    \/ fst (findProgram rest l2 y t) = 0
    \/ exists p,
         rest !! Z.to_nat (snd (findProgram rest l2 y t) - y) = Some p
         /\ y <= snd (findProgram rest l2 y t)
         /\ fst (findProgram rest l2 y t) < prog_duration p
         /\ (prog_duration p >? 2 * SLACK)
            && (fst (findProgram rest l2 y t) >? prog_duration p - SLACK)
            = false.
Proof.
  induction rest as [|p rest IH]; intros l2 y t;
    cbn [HelperFuncs.findProgram].
  - left. reflexivity.
  - destruct (t - prog_duration p <? 0) eqn:Hlt.
    + destruct ((prog_duration p >? 2 * SLACK)
                && (t >? prog_duration p - SLACK)) eqn:Hsmooth.
      * right. left. reflexivity.
      * right. right. exists p. cbn [fst snd]. rewrite Z.sub_diag.
        apply Z.ltb_lt in Hlt. repeat split; [lia|lia|exact Hsmooth].
    + destruct (IH l2 (y + 1) (t - prog_duration p))
        as [Hend|[Hzero|(q & Hq & Hy & Hin & Hsmooth)]].
      * left. exact Hend.
      * right. left. exact Hzero.
      * right. right. exists q.
        replace (Z.to_nat (snd (findProgram rest l2 (y + 1)
                                  (t - prog_duration p)) - y))
          with (S (Z.to_nat (snd (findProgram rest l2 (y + 1)
                                    (t - prog_duration p)) - (y + 1))))
          by lia.
        repeat split; [exact Hq|lia|exact Hin|exact Hsmooth].
Qed.

(** What a result at or after the start time was computed from. *)
Lemma resolver_result (now : Z) (channel : Channel)
    (obj : ProgramAndTimeElapsed) :
  ch_startTimeEpoch channel <= now ->
  getCurrentProgramAndTimeElapsed now channel = Ok obj ->
  ch_duration channel <> 0
  /\ findProgram (ch_programs channel)
       (Z.of_nat (length (ch_programs channel))) 0
       (Z.rem (now - ch_startTimeEpoch channel) (ch_duration channel))
     = (timeElapsed obj, programIndex obj)
  /\ programIndex obj <> -1
  /\ ch_programs channel !! Z.to_nat (programIndex obj) = Some (program obj).
Proof.
  intros Hstart. unfold HelperFuncs.getCurrentProgramAndTimeElapsed.
  cbv zeta.
  replace (ch_startTimeEpoch channel >? now) with false
    by (symmetry; rewrite Z.gtb_ltb; apply Z.ltb_ge; lia).
  destruct (Z.eqb_spec (ch_duration channel) 0) as [|Hdur]; [discriminate|].
  destruct (findProgram _ _ _ _) as [t idx].
  destruct (Z.eqb_spec idx (-1)) as [|Hidx]; [discriminate|].
  destruct (ch_programs channel !! Z.to_nat idx) as [p|] eqn:Hp;
    [|discriminate].
  intros [= <-]. cbn. repeat split; assumption.
Qed.

(** The schedule of a channel repeats with period [channel.duration]: the
    resolver returns the same item, elapsed time and index at [now] and at
    any whole number of loops later. *)
Theorem resolver_periodic (now k : Z) (channel : Channel) :
  ch_startTimeEpoch channel <= now ->
  0 < ch_duration channel ->
  0 <= k ->
  getCurrentProgramAndTimeElapsed (now + k * ch_duration channel) channel
  = getCurrentProgramAndTimeElapsed now channel.
Proof.
  intros Hstart Hdur Hk. unfold HelperFuncs.getCurrentProgramAndTimeElapsed.
  cbv zeta.
  assert (Hlater : ch_startTimeEpoch channel
                   <= now + k * ch_duration channel) by nia.
  replace (ch_startTimeEpoch channel >? now + k * ch_duration channel)
    with false by (symmetry; rewrite Z.gtb_ltb; apply Z.ltb_ge; lia).
  replace (ch_startTimeEpoch channel >? now) with false
    by (symmetry; rewrite Z.gtb_ltb; apply Z.ltb_ge; lia).
  replace (Z.rem (now + k * ch_duration channel - ch_startTimeEpoch channel)
             (ch_duration channel))
    with (Z.rem (now - ch_startTimeEpoch channel) (ch_duration channel));
    [reflexivity|].
  rewrite !Z.rem_mod_nonneg by lia.
  replace (now + k * ch_duration channel - ch_startTimeEpoch channel)
    with (now - ch_startTimeEpoch channel + k * ch_duration channel) by lia.
  rewrite Z.mod_add by lia. reflexivity.
Qed.

(** An item that the resolver returns at or after the start time is the
    lineup entry at the index it returns; the elapsed time is not negative,
    and it is either 0 or less than the duration of that entry. *)
Theorem resolver_result_in_lineup (now : Z) (channel : Channel)
    (obj : ProgramAndTimeElapsed) :
  ch_startTimeEpoch channel <= now ->
  getCurrentProgramAndTimeElapsed now channel = Ok obj ->
  0 <= programIndex obj < Z.of_nat (length (ch_programs channel))
  /\ ch_programs channel !! Z.to_nat (programIndex obj) = Some (program obj)
  /\ 0 <= timeElapsed obj
  /\ (timeElapsed obj = 0 \/ timeElapsed obj < prog_duration (program obj)).
Proof.
  intros Hstart Hres.
  pose proof (ResolverProperties.resolver_time_nonneg SLACK now channel obj
                Hres) as Hnonneg.
  destruct (resolver_result now channel obj Hstart Hres)
    as (Hdur & Hloop & Hidx & Hp).
  pose proof (ResolverProperties.findProgram_index_range SLACK
                (ch_programs channel)
                (Z.of_nat (length (ch_programs channel))) 0
                (Z.rem (now - ch_startTimeEpoch channel)
                   (ch_duration channel))
                ltac:(lia) ltac:(lia)) as Hrange.
  pose proof (findProgram_position (ch_programs channel)
                (Z.of_nat (length (ch_programs channel))) 0
                (Z.rem (now - ch_startTimeEpoch channel)
                   (ch_duration channel))) as Hpos.
  rewrite Hloop in Hrange, Hpos. cbn [fst snd] in Hrange, Hpos.
  destruct Hrange as [Hrange|Hrange]; [contradiction|].
  repeat split; try lia; try exact Hp.
  destruct Hpos as [Hend|[Hzero|(q & Hq & _ & Hin & _)]].
  - contradiction.
  - left. exact Hzero.
  - right. rewrite Z.sub_0_r, Hp in Hq. injection Hq as <-. exact Hin.
Qed.

(** The resolver never hands out the tail of a long item: when the item it
    returns lasts more than [2 * SLACK], at least [SLACK] milliseconds of it
    are left to play. *)
Theorem resolver_leaves_slack (now : Z) (channel : Channel)
    (obj : ProgramAndTimeElapsed) :
  0 <= SLACK ->
  ch_startTimeEpoch channel <= now ->
  getCurrentProgramAndTimeElapsed now channel = Ok obj ->
  2 * SLACK < prog_duration (program obj) ->
  SLACK <= prog_duration (program obj) - timeElapsed obj.
Proof.
  intros Hslack Hstart Hres Hlong.
  destruct (resolver_result now channel obj Hstart Hres)
    as (Hdur & Hloop & Hidx & Hp).
  pose proof (findProgram_position (ch_programs channel)
                (Z.of_nat (length (ch_programs channel))) 0
                (Z.rem (now - ch_startTimeEpoch channel)
                   (ch_duration channel))) as Hpos.
  rewrite Hloop in Hpos. cbn [fst snd] in Hpos.
  destruct Hpos as [Hend|[Hzero|(q & Hq & _ & _ & Hsmooth)]].
  - contradiction.
  - lia.
  - rewrite Z.sub_0_r, Hp in Hq. injection Hq as <-.
    apply andb_false_iff in Hsmooth. destruct Hsmooth as [Hshort|Hearly].
    + rewrite Z.gtb_ltb in Hshort. apply Z.ltb_ge in Hshort. lia.
    + rewrite Z.gtb_ltb in Hearly. apply Z.ltb_ge in Hearly. lia.
Qed.

(** The resolver does not throw on a lineup that is at least as long as the
    channel's loop: when the item durations sum to [channel.duration] or
    more, it returns an item at every time at or after the start time. *)
Theorem resolver_never_throws (now : Z) (channel : Channel) :
  ch_startTimeEpoch channel <= now ->
  0 < ch_duration channel ->
  ch_duration channel
  <= prefixDuration (length (ch_programs channel)) (ch_programs channel) ->
  exists obj,
    getCurrentProgramAndTimeElapsed now channel = Ok obj
    /\ programIndex obj <> -1.
Proof.
  intros Hstart Hdur Hsum.
  set (N := Z.of_nat (length (ch_programs channel))).
  pose proof (Z.mod_pos_bound (now - ch_startTimeEpoch channel)
                (ch_duration channel) Hdur) as Hbound.
  fold (elapsedInLoop now channel) in Hbound.
  pose proof (ResolverProperties.findProgram_found SLACK
                (ch_programs channel) N 0
                (elapsedInLoop now channel) ltac:(lia) ltac:(unfold N; lia)
                ltac:(lia)) as Hfound.
  pose proof (ResolverProperties.findProgram_index_range SLACK
                (ch_programs channel) N 0
                (elapsedInLoop now channel) ltac:(lia) ltac:(unfold N; lia))
    as Hrange.
  destruct (findProgram (ch_programs channel) N 0 (elapsedInLoop now channel))
    as [t idx] eqn:Hloop.
  cbn [snd] in Hfound, Hrange.
  destruct Hrange as [Hrange|Hrange]; [contradiction|].
  destruct (lookup_lt_is_Some_2 (ch_programs channel) (Z.to_nat idx))
    as [p Hp]; [unfold N in Hrange; lia|].
  eexists. split.
  - apply (ResolverProperties.resolver_unfold SLACK now channel t idx p);
      try assumption; lia.
  - exact Hfound.
Qed.

End WithSlack.

Lemma resolver_periodic_witness :
  getCurrentProgramAndTimeElapsed Constants.SLACK (70000 + 3 * 210000)
    channelS1
  = getCurrentProgramAndTimeElapsed Constants.SLACK 70000 channelS1.
Proof.
  apply (resolver_periodic Constants.SLACK 70000 3 channelS1).
  - vm_compute. discriminate.
  - reflexivity.
  - lia.
Defined.

Lemma resolver_result_in_lineup_witness :
  0 <= 1 < Z.of_nat (length (ch_programs channelS1))
  /\ ch_programs channelS1 !! Z.to_nat 1 = Some progB
  /\ 0 <= 10000
  /\ (10000 = 0 \/ 10000 < prog_duration progB).
Proof.
  apply (resolver_result_in_lineup Constants.SLACK 70000 channelS1
           {| program := progB; timeElapsed := 10000; programIndex := 1 |}).
  - vm_compute. discriminate.
  - reflexivity.
Defined.

Lemma resolver_leaves_slack_witness :
  Constants.SLACK <= prog_duration progC - 0.
Proof.
  apply (resolver_leaves_slack Constants.SLACK 175000 channelS1
           {| program := progC; timeElapsed := 0; programIndex := 2 |}).
  - vm_compute. discriminate.
  - vm_compute. discriminate.
  - reflexivity.
  - reflexivity.
Defined.

Lemma resolver_never_throws_witness :
  exists obj,
    getCurrentProgramAndTimeElapsed Constants.SLACK 70000 channelS1 = Ok obj
    /\ programIndex obj <> -1.
Proof.
  apply (resolver_never_throws Constants.SLACK 70000 channelS1).
  - vm_compute. discriminate.
  - reflexivity.
  - vm_compute. discriminate.
Defined.

End ResolverExtras.

(** * Further properties of the filler picker and of createLineup *)

Module LineupExtras.

Import HelperFuncs.

#[local] Open Scope string_scope.
#[local] Open Scope Z_scope.

Section WithParameters.

Variable SLACK : Z.
Variable logMillis : Z -> Z.

#[local] Abbreviation createLineup := (HelperFuncs.createLineup SLACK logMillis).
#[local] Abbreviation pickRandomWithMaxDuration :=
  (HelperFuncs.pickRandomWithMaxDuration SLACK logMillis).
#[local] Abbreviation clipLoop := (HelperFuncs.clipLoop SLACK logMillis).
#[local] Abbreviation collectionLoop :=
  (HelperFuncs.collectionLoop SLACK logMillis).
#[local] Abbreviation weighClip := (HelperFuncs.weighClip logMillis).

(** *** What [weighClip] changes *)

Lemma weighClip_fields (clip : Program) (timeSince n : Z) (st : PickState) :
  minimumWait (snd (weighClip clip timeSince n st)) = minimumWait st
  /\ listM (snd (weighClip clip timeSince n st)) = listM st
  /\ fillerId (snd (weighClip clip timeSince n st)) = fillerId st
  /\ (pick1 (snd (weighClip clip timeSince n st)) = pick1 st
      \/ (0 < timeSince
          /\ pick1 (snd (weighClip clip timeSince n st)) = Some clip)).
Proof.
  unfold HelperFuncs.weighClip.
  destruct (timeSince <=? 0) eqn:Hpos; cbn [snd]; [tauto|].
  apply Z.leb_gt in Hpos. cbv zeta.
  destruct (weighedPick _ _ _) as [picked g]. cbn.
  destruct picked; tauto.
Qed.

(** *** The clip picked so far *)

Section PickInvariant.

Variable channelCache : ChannelCache.
Variable number cooldown maxDuration t0 : Z.

(** [P f clip] is any property of a clip of collection [f] that holds for
    every clip passing the four tests that stand before the weighed draw. *)
Variable P : FillerCollection -> Program -> Prop.

Lemma clipLoop_pick (f : FillerCollection) (Q : Program -> Prop) :
  (forall clip, P f clip -> Q clip) ->
  forall (list : list Program) (pickedList : bool) (n : Z) (st : PickState),
    (forall clip,
        In clip list ->
        prog_duration clip <= maxDuration + SLACK ->
        cooldown - SLACK
        <= (if getProgramLastPlayTime channelCache number clip =? 0
            then D else t0 - getProgramLastPlayTime channelCache number clip) ->
        0 < (if getProgramLastPlayTime channelCache number clip =? 0
             then D else t0 - getProgramLastPlayTime channelCache number clip) ->
        fc_cooldown f
        <= (if getFillerLastPlayTime channelCache number (fc_id f) =? 0
            then D
            else t0 - getFillerLastPlayTime channelCache number (fc_id f))
           + SLACK ->
        P f clip) ->
    (pickedList = true ->
     fc_cooldown f
     <= (if getFillerLastPlayTime channelCache number (fc_id f) =? 0
         then D
         else t0 - getFillerLastPlayTime channelCache number (fc_id f))
        + SLACK) ->
    (forall c, pick1 st = Some c -> Q c) ->
    forall c,
      pick1 (clipLoop channelCache number cooldown maxDuration t0 f list
               pickedList n st) = Some c ->
      Q c.
Proof.
  intros HPQ.
  induction list as [|clip rest IH]; intros pickedList n st Hclips Hpicked Hst;
    cbn [HelperFuncs.clipLoop]; [exact Hst|].
  assert (Hrest : forall clip0,
             In clip0 rest ->
             prog_duration clip0 <= maxDuration + SLACK ->
             cooldown - SLACK
             <= (if getProgramLastPlayTime channelCache number clip0 =? 0
                 then D
                 else t0 - getProgramLastPlayTime channelCache number clip0) ->
             0 < (if getProgramLastPlayTime channelCache number clip0 =? 0
                  then D
                  else t0 - getProgramLastPlayTime channelCache number clip0) ->
             fc_cooldown f
             <= (if getFillerLastPlayTime channelCache number (fc_id f) =? 0
                 then D
                 else t0 - getFillerLastPlayTime channelCache number (fc_id f))
                + SLACK ->
             P f clip0)
    by (intros clip0 Hin; apply Hclips; right; exact Hin).
  specialize (Hclips clip (or_introl eq_refl)).
  destruct (prog_duration clip <=? maxDuration + SLACK) eqn:Hfit;
    [|apply IH; assumption].
  apply Z.leb_le in Hfit. specialize (Hclips Hfit). cbv zeta.
  destruct (_ <? cooldown - SLACK) eqn:Hrecent.
  { apply IH; try assumption.
    match goal with
    | |- context [if ?b then withMinimumWait _ _ else _] => destruct b
    end; exact Hst. }
  apply Z.ltb_ge in Hrecent. specialize (Hclips Hrecent).
  destruct pickedList; cbn [negb].
  - specialize (Hpicked eq_refl).
    match goal with
    | |- context [weighClip ?c ?t ?m ?s] =>
        pose proof (weighClip_fields c t m s) as (_ & _ & _ & Hpick);
        destruct (weighClip c t m s) as [n' st']
    end.
    cbn [snd] in Hpick. apply IH; try assumption; [tauto|].
    intros c Hc. destruct Hpick as [Hsame|[Hpos Hnew]].
    + apply Hst. rewrite <- Hsame. exact Hc.
    + rewrite Hnew in Hc. injection Hc as <-. apply HPQ. auto.
  - destruct (fc_cooldown f <=? _) eqn:Hlist.
    + apply Z.leb_le in Hlist.
      destruct (weighedPick _ _ _) as [picked g]. destruct picked.
      * match goal with
        | |- context [weighClip ?c ?t ?m ?s] =>
            pose proof (weighClip_fields c t m s) as (_ & _ & _ & Hpick);
            destruct (weighClip c t m s) as [n' st']
        end.
        cbn [snd pick1] in Hpick. apply IH; try assumption; [tauto|].
        intros c Hc. destruct Hpick as [Hsame|[Hpos Hnew]].
        -- apply Hst. rewrite <- Hsame. exact Hc.
        -- rewrite Hnew in Hc. injection Hc as <-. apply HPQ. auto.
      * exact Hst.
    + match goal with
      | |- context [if ?b then withMinimumWait _ _ else _] => destruct b
      end; exact Hst.
Qed.

Lemma collectionLoop_pick (Q : Program -> Prop) :
  forall (fillers : list FillerCollection) (st : PickState),
    (forall f clip, In f fillers -> P f clip -> Q clip) ->
    (forall f clip,
        In f fillers ->
        In clip (fc_content f) ->
        prog_duration clip <= maxDuration + SLACK ->
        cooldown - SLACK
        <= (if getProgramLastPlayTime channelCache number clip =? 0
            then D else t0 - getProgramLastPlayTime channelCache number clip) ->
        0 < (if getProgramLastPlayTime channelCache number clip =? 0
             then D else t0 - getProgramLastPlayTime channelCache number clip) ->
        fc_cooldown f
        <= (if getFillerLastPlayTime channelCache number (fc_id f) =? 0
            then D
            else t0 - getFillerLastPlayTime channelCache number (fc_id f))
           + SLACK ->
        P f clip) ->
    (forall c, pick1 st = Some c -> Q c) ->
    forall c,
      pick1 (collectionLoop channelCache number cooldown maxDuration t0
               fillers st) = Some c ->
      Q c.
Proof.
  unfold HelperFuncs.collectionLoop.
  induction fillers as [|f fillers IH]; intros st HPQ Hclips Hst;
    cbn [fold_left]; [exact Hst|].
  apply IH.
  - intros f' clip Hin. apply HPQ. right. exact Hin.
  - intros f' clip Hin. apply Hclips. right. exact Hin.
  - apply (clipLoop_pick f Q).
    + intros clip. apply HPQ. left. reflexivity.
    + intros clip. apply Hclips. left. reflexivity.
    + discriminate.
    + exact Hst.
Qed.

(** *** The collection id kept with the pick *)

Lemma clipLoop_fillerId (ids : list string) (f : FillerCollection) :
  In (fc_id f) ids ->
  forall (list : list Program) (pickedList : bool) (n : Z) (st : PickState),
    (pickedList = true -> fillerId st = Some (fc_id f)) ->
    (pick1 st <> None -> exists id, In id ids /\ fillerId st = Some id) ->
    pick1 (clipLoop channelCache number cooldown maxDuration t0 f list
             pickedList n st) <> None ->
    exists id,
      In id ids
      /\ fillerId (clipLoop channelCache number cooldown maxDuration t0 f
                     list pickedList n st) = Some id.
Proof.
  intros Hid.
  induction list as [|clip rest IH]; intros pickedList n st Hpicked Hst;
    cbn [HelperFuncs.clipLoop]; [exact Hst|].
  destruct (prog_duration clip <=? maxDuration + SLACK);
    [|apply IH; assumption].
  cbv zeta.
  destruct (_ <? cooldown - SLACK).
  { apply IH;
      match goal with
      | |- context [if ?b then withMinimumWait _ _ else _] => destruct b
      end; assumption. }
  destruct pickedList; cbn [negb].
  - specialize (Hpicked eq_refl).
    match goal with
    | |- context [weighClip ?c ?t ?m ?s] =>
        pose proof (weighClip_fields c t m s) as (_ & _ & Hfid & _);
        destruct (weighClip c t m s) as [n' st']
    end.
    cbn [snd] in Hfid. apply IH.
    + intros _. rewrite Hfid. exact Hpicked.
    + intros _. exists (fc_id f). rewrite Hfid. auto.
  - destruct (fc_cooldown f <=? _).
    + destruct (weighedPick _ _ _) as [picked g]. destruct picked.
      * match goal with
        | |- context [weighClip ?c ?t ?m ?s] =>
            pose proof (weighClip_fields c t m s) as (_ & _ & Hfid & _);
            destruct (weighClip c t m s) as [n' st']
        end.
        cbn [snd fillerId] in Hfid. apply IH.
        -- intros _. exact Hfid.
        -- intros _. exists (fc_id f). auto.
      * exact Hst.
    + match goal with
      | |- context [if ?b then withMinimumWait _ _ else _] => destruct b
      end; exact Hst.
Qed.

Lemma collectionLoop_fillerId (ids : list string) :
  forall (fillers : list FillerCollection) (st : PickState),
    (forall f, In f fillers -> In (fc_id f) ids) ->
    (pick1 st <> None -> exists id, In id ids /\ fillerId st = Some id) ->
    pick1 (collectionLoop channelCache number cooldown maxDuration t0
             fillers st) <> None ->
    exists id,
      In id ids
      /\ fillerId (collectionLoop channelCache number cooldown maxDuration
                     t0 fillers st) = Some id.
Proof.
  unfold HelperFuncs.collectionLoop.
  induction fillers as [|f fillers IH]; intros st Hids Hst;
    cbn [fold_left]; [exact Hst|].
  apply IH.
  - intros f' Hin. apply Hids. right. exact Hin.
  - apply clipLoop_fillerId.
    + apply Hids. left. reflexivity.
    + discriminate.
    + exact Hst.
Qed.

(** *** The wait kept with the pick *)

Lemma clipLoop_minimumWait (f : FillerCollection) (lo hi : Z) :
  lo <= SLACK + 1 ->
  forall (list : list Program) (pickedList : bool) (n : Z) (st : PickState),
    lo <= minimumWait st <= hi ->
    lo <= minimumWait (clipLoop channelCache number cooldown maxDuration t0 f
                         list pickedList n st) <= hi.
Proof.
  intros Hlo.
  induction list as [|clip rest IH]; intros pickedList n st Hst;
    cbn [HelperFuncs.clipLoop]; [exact Hst|].
  destruct (prog_duration clip <=? maxDuration + SLACK);
    [|apply IH; assumption].
  cbv zeta.
  destruct (_ <? cooldown - SLACK) eqn:Hrecent.
  { apply Z.ltb_lt in Hrecent. apply IH.
    match goal with
    | |- context [if ?b then withMinimumWait _ _ else _] => destruct b
    end; [|exact Hst].
    unfold withMinimumWait. cbn [minimumWait]. lia. }
  destruct pickedList; cbn [negb].
  - match goal with
    | |- context [weighClip ?c ?t ?m ?s] =>
        pose proof (weighClip_fields c t m s) as (Hwait & _);
        destruct (weighClip c t m s) as [n' st']
    end.
    cbn [snd] in Hwait. apply IH. rewrite Hwait. exact Hst.
  - destruct (fc_cooldown f <=? _) eqn:Hlist.
    + destruct (weighedPick _ _ _) as [picked g]. destruct picked.
      * match goal with
        | |- context [weighClip ?c ?t ?m ?s] =>
            pose proof (weighClip_fields c t m s) as (Hwait & _);
            destruct (weighClip c t m s) as [n' st']
        end.
        cbn [snd minimumWait] in Hwait. apply IH. rewrite Hwait. exact Hst.
      * exact Hst.
    + apply Z.leb_gt in Hlist.
      match goal with
      | |- context [if ?b then withMinimumWait _ _ else _] => destruct b
      end; [|exact Hst].
      unfold withMinimumWait. cbn [minimumWait]. lia.
Qed.

Lemma collectionLoop_minimumWait (lo hi : Z) :
  lo <= SLACK + 1 ->
  forall (fillers : list FillerCollection) (st : PickState),
    lo <= minimumWait st <= hi ->
    lo <= minimumWait (collectionLoop channelCache number cooldown
                         maxDuration t0 fillers st) <= hi.
Proof.
  intros Hlo. unfold HelperFuncs.collectionLoop.
  induction fillers as [|f fillers IH]; intros st Hst; cbn [fold_left];
    [exact Hst|].
  apply IH. apply clipLoop_minimumWait; assumption.
Qed.

(** *** Clips that are all too long *)

Lemma clipLoop_too_long (f : FillerCollection) :
  forall (list : list Program) (pickedList : bool) (n : Z) (st : PickState),
    (forall clip, In clip list -> maxDuration + SLACK < prog_duration clip) ->
    clipLoop channelCache number cooldown maxDuration t0 f list pickedList n
      st = st.
Proof.
  induction list as [|clip rest IH]; intros pickedList n st Hlong;
    cbn [HelperFuncs.clipLoop]; [reflexivity|].
  replace (prog_duration clip <=? maxDuration + SLACK) with false
    by (symmetry; apply Z.leb_gt; apply Hlong; left; reflexivity).
  apply IH. intros c Hc. apply Hlong. right. exact Hc.
Qed.

Lemma collectionLoop_too_long :
  forall (fillers : list FillerCollection) (st : PickState),
    (forall f clip, In f fillers -> In clip (fc_content f) ->
                    maxDuration + SLACK < prog_duration clip) ->
    collectionLoop channelCache number cooldown maxDuration t0 fillers st
    = st.
Proof.
  unfold HelperFuncs.collectionLoop.
  induction fillers as [|f fillers IH]; intros st Hlong; cbn [fold_left];
    [reflexivity|].
  rewrite clipLoop_too_long
    by (intros clip; apply Hlong; left; reflexivity).
  apply IH. intros f' clip Hin. apply Hlong. right. exact Hin.
Qed.

End PickInvariant.

(** *** The picker *)

(** Where a returned clip comes from, and the tests it has passed. *)
Lemma picker_origin (channelCache : ChannelCache) (channel : Channel)
    (fillers : list FillerCollection) (maxDuration t0 : Z)
    (g : Random.Engine) (c : Program) :
  filler (fst (pickRandomWithMaxDuration channelCache channel fillers
                 maxDuration t0 g)) = Some c ->
  exists f clip id,
    In f fillers /\ In clip (fc_content f)
    /\ In id (map fc_id fillers)
    /\ c = withFillerId (Some id) clip
    /\ prog_duration clip <= maxDuration + SLACK
    /\ match ch_fillerRepeatCooldown channel with
       | None => 30 * 60 * 1000
       | Some cooldown => cooldown
       end - SLACK
       <= (if getProgramLastPlayTime channelCache (ch_number channel) clip
              =? 0
           then D
           else t0 - getProgramLastPlayTime channelCache (ch_number channel)
                       clip)
    /\ 0 < (if getProgramLastPlayTime channelCache (ch_number channel) clip
               =? 0
            then D
            else t0 - getProgramLastPlayTime channelCache (ch_number channel)
                        clip)
    /\ fc_cooldown f
       <= (if getFillerLastPlayTime channelCache (ch_number channel) (fc_id f)
              =? 0
           then D
           else t0 - getFillerLastPlayTime channelCache (ch_number channel)
                       (fc_id f))
          + SLACK.
Proof.
  unfold HelperFuncs.pickRandomWithMaxDuration. cbv zeta. cbn [fst filler].
  set (cooldown := match ch_fillerRepeatCooldown channel with
                   | None => 30 * 60 * 1000
                   | Some cooldown => cooldown
                   end).
  set (st0 := mkPickState None 1000000000 0 None g).
  pose proof (collectionLoop_pick channelCache (ch_number channel) cooldown
                maxDuration t0
                (fun f clip =>
                   In f fillers /\ In clip (fc_content f)
                   /\ prog_duration clip <= maxDuration + SLACK
                   /\ cooldown - SLACK
                      <= (if getProgramLastPlayTime channelCache
                               (ch_number channel) clip =? 0
                          then D
                          else t0 - getProgramLastPlayTime channelCache
                                      (ch_number channel) clip)
                   /\ 0 < (if getProgramLastPlayTime channelCache
                                (ch_number channel) clip =? 0
                           then D
                           else t0 - getProgramLastPlayTime channelCache
                                       (ch_number channel) clip)
                   /\ fc_cooldown f
                      <= (if getFillerLastPlayTime channelCache
                               (ch_number channel) (fc_id f) =? 0
                          then D
                          else t0 - getFillerLastPlayTime channelCache
                                      (ch_number channel) (fc_id f))
                         + SLACK)
                (fun clip =>
                   exists f,
                     In f fillers /\ In clip (fc_content f)
                     /\ prog_duration clip <= maxDuration + SLACK
                     /\ cooldown - SLACK
                        <= (if getProgramLastPlayTime channelCache
                                 (ch_number channel) clip =? 0
                            then D
                            else t0 - getProgramLastPlayTime channelCache
                                        (ch_number channel) clip)
                     /\ 0 < (if getProgramLastPlayTime channelCache
                                  (ch_number channel) clip =? 0
                             then D
                             else t0 - getProgramLastPlayTime channelCache
                                         (ch_number channel) clip)
                     /\ fc_cooldown f
                        <= (if getFillerLastPlayTime channelCache
                                 (ch_number channel) (fc_id f) =? 0
                            then D
                            else t0 - getFillerLastPlayTime channelCache
                                        (ch_number channel) (fc_id f))
                           + SLACK)
                fillers st0) as Hpick.
  pose proof (collectionLoop_fillerId channelCache (ch_number channel)
                cooldown maxDuration t0 (map fc_id fillers) fillers st0)
    as Hid.
  destruct (pick1 (collectionLoop channelCache (ch_number channel) cooldown
                     maxDuration t0 fillers st0)) as [clip|] eqn:Hclip;
    [|discriminate].
  cbn [option_map]. intros [= <-].
  destruct (Hpick ltac:(intros f clip0 _ H; exists f; exact H)
              ltac:(intros; tauto) ltac:(discriminate) clip eq_refl)
    as (f & Hf & Hin & Hfit & Hcool & Hpos & Hlist).
  destruct (Hid ltac:(intros f0 Hf0; apply in_map; exact Hf0)
              ltac:(intros H; contradiction H; reflexivity)
              ltac:(discriminate))
    as (id & Hidin & Hfid).
  exists f, clip, id. rewrite Hfid. tauto.
Qed.

(** The picker only returns a clip of the collections it was given, stamped
    with the id of one of these collections. *)
Theorem picker_returns_listed_clip (channelCache : ChannelCache)
    (channel : Channel) (fillers : list FillerCollection)
    (maxDuration t0 : Z) (g : Random.Engine) (c : Program) :
  filler (fst (pickRandomWithMaxDuration channelCache channel fillers
                 maxDuration t0 g)) = Some c ->
  exists f clip f',
    In f fillers /\ In clip (fc_content f) /\ In f' fillers
    /\ c = withFillerId (Some (fc_id f')) clip.
Proof.
  intros Hpick.
  destruct (picker_origin _ _ _ _ _ _ _ Hpick)
    as (f & clip & id & Hf & Hclip & Hid & Hc & _).
  apply in_map_iff in Hid. destruct Hid as (f' & <- & Hf').
  exists f, clip, f'. tauto.
Qed.

(** The picker never returns a clip that the channel played less than
    [fillerRepeatCooldown - SLACK] milliseconds ago (thirty minutes when the
    channel does not set the cooldown), nor a clip of a collection that was
    played less than the collection's cooldown minus SLACK ago; a last-play
    time of 0 counts as seven days ago. *)
Theorem picker_respects_cooldowns (channelCache : ChannelCache)
    (channel : Channel) (fillers : list FillerCollection)
    (maxDuration t0 : Z) (g : Random.Engine) (c : Program) :
  filler (fst (pickRandomWithMaxDuration channelCache channel fillers
                 maxDuration t0 g)) = Some c ->
  exists f clip,
    In f fillers /\ In clip (fc_content f)
    /\ c = withFillerId (prog_fillerId c) clip
    /\ match ch_fillerRepeatCooldown channel with
       | None => 1800000
       | Some cooldown => cooldown
       end - SLACK
       <= (if getProgramLastPlayTime channelCache (ch_number channel) clip
              =? 0
           then 604800000
           else t0 - getProgramLastPlayTime channelCache (ch_number channel)
                       clip)
    /\ fc_cooldown f - SLACK
       <= (if getFillerLastPlayTime channelCache (ch_number channel) (fc_id f)
              =? 0
           then 604800000
           else t0 - getFillerLastPlayTime channelCache (ch_number channel)
                       (fc_id f)).
Proof.
  intros Hpick.
  destruct (picker_origin _ _ _ _ _ _ _ Hpick)
    as (f & clip & id & Hf & Hclip & Hid & Hc & _ & Hcool & _ & Hlist).
  exists f, clip. subst c. cbn [prog_fillerId withFillerId].
  change D with 604800000 in Hcool, Hlist.
  change (30 * 60 * 1000) with 1800000 in Hcool.
  repeat split; try assumption. lia.
Qed.

Lemma picker_minimumWait_bounds (channelCache : ChannelCache)
    (channel : Channel) (fillers : list FillerCollection)
    (maxDuration t0 : Z) (g : Random.Engine) (lo : Z) :
  lo <= SLACK + 1 -> lo <= 1000000000 ->
  lo <= rr_minimumWait (fst (pickRandomWithMaxDuration channelCache channel
                               fillers maxDuration t0 g))
     <= 1000000000.
Proof.
  intros Hlo Hhi.
  unfold HelperFuncs.pickRandomWithMaxDuration. cbv zeta.
  cbn [fst rr_minimumWait].
  apply collectionLoop_minimumWait; [exact Hlo|]. cbn [minimumWait]. lia.
Qed.

(** The wait that the picker reports (the time after which a clip it had to
    pass over becomes eligible) is more than SLACK and at most 1000000000 ms,
    the value it starts from. *)
Theorem picker_minimumWait_range (channelCache : ChannelCache)
    (channel : Channel) (fillers : list FillerCollection)
    (maxDuration t0 : Z) (g : Random.Engine) :
  SLACK < 1000000000 ->
  SLACK < rr_minimumWait (fst (pickRandomWithMaxDuration channelCache channel
                                 fillers maxDuration t0 g))
        <= 1000000000.
Proof.
  intros Hslack.
  pose proof (picker_minimumWait_bounds channelCache channel fillers
                maxDuration t0 g (SLACK + 1) ltac:(lia) ltac:(lia)).
  lia.
Qed.

Lemma picker_too_long (channelCache : ChannelCache) (channel : Channel)
    (fillers : list FillerCollection) (maxDuration t0 : Z)
    (g : Random.Engine) :
  (forall f clip, In f fillers -> In clip (fc_content f) ->
                  maxDuration + SLACK < prog_duration clip) ->
  pickRandomWithMaxDuration channelCache channel fillers maxDuration t0 g
  = ({| filler := None; rr_minimumWait := 1000000000 |}, g).
Proof.
  intros Hlong. unfold HelperFuncs.pickRandomWithMaxDuration. cbv zeta.
  rewrite collectionLoop_too_long by exact Hlong. reflexivity.
Qed.

(** When every clip of every collection is longer than
    [maxDuration + SLACK] (in particular when there is no clip at all) the
    picker returns no filler, reports the wait 1000000000 and draws no random
    number. *)
Theorem picker_nothing_fits (channelCache : ChannelCache) (channel : Channel)
    (fillers : list FillerCollection) (maxDuration t0 : Z)
    (g : Random.Engine) :
  (forall f clip, In f fillers -> In clip (fc_content f) ->
                  maxDuration + SLACK < prog_duration clip) ->
  pickRandomWithMaxDuration channelCache channel fillers maxDuration t0 g
  = ({| filler := None; rr_minimumWait := 1000000000 |}, g).
Proof. apply picker_too_long. Qed.

(** *** createLineup on an offline slot *)

Lemma integer_range (lo hi : Z) (g : Random.Engine) :
  lo <= hi -> lo <= fst (Random.integer lo hi g) <= hi.
Proof.
  intros Hle. unfold Random.integer. destruct g as [|r g]; cbn [fst]; [lia|].
  pose proof (Z.mod_pos_bound r (hi - lo + 1) ltac:(lia)). lia.
Qed.

(** An offline slot for which no clip is short enough and the channel has no
    fallback clip is filled with the offline screen, for the time left in
    the slot but never for more than ten minutes; no random number is
    drawn. *)
Theorem offline_gap_without_filler (channelCache : ChannelCache)
    (obj : ProgramAndTimeElapsed) (channel : Channel)
    (fillers : list FillerCollection) (isFirst : bool) (t0 : Z)
    (g : Random.Engine) :
  prog_err (program obj) = None ->
  prog_isOffline (program obj) = true ->
  (forall f clip,
      In f fillers -> In clip (fc_content f) ->
      fillerMaxDuration (prog_duration (program obj) - timeElapsed obj)
        isFirst + SLACK < prog_duration clip) ->
  ch_offlineMode channel <> "clip" \/ ch_fallback channel = [] ->
  createLineup channelCache obj channel fillers isFirst t0 g
  = ([ {| li_type := "offline"; li_title := "Channel Offline";
          li_err := None; li_key := None; li_plexFile := None;
          li_file := None; li_ratingKey := None; li_serverKey := None;
          li_fillerId := None; li_start := 0;
          li_streamDuration :=
            Z.min (prog_duration (program obj) - timeElapsed obj) 600000;
          li_duration :=
            Z.min (prog_duration (program obj) - timeElapsed obj) 600000;
          li_beginningOffset := 0 |} ], g).
Proof.
  intros Herr Hoff Hlong Hspecial.
  unfold HelperFuncs.createLineup. cbv zeta. rewrite Herr, Hoff.
  rewrite picker_too_long by exact Hlong. cbn [filler rr_minimumWait].
  assert (Hnone : (if String.eqb (ch_offlineMode channel) "clip"
                      && negb (Nat.eqb (length (ch_fallback channel)) 0)
                   then head (ch_fallback channel) else None) = None).
  { destruct Hspecial as [Hmode| ->].
    - apply String.eqb_neq in Hmode. rewrite Hmode. reflexivity.
    - rewrite andb_false_r. reflexivity. }
  rewrite Hnone.
  change (10 * 60 * 1000) with 600000.
  destruct (_ >? 1000000000) eqn:Hbig.
  - rewrite Z.gtb_ltb in Hbig. apply Z.ltb_lt in Hbig.
    rewrite !(Z.min_r _ 600000) by lia. reflexivity.
  - reflexivity.
Qed.

(** For an offline slot [createLineup] returns exactly one item: a
    commercial that streams for at least 1 ms, or the offline screen, which
    starts at 0 and never lasts more than ten minutes; in both cases the item
    streams for no longer than the time left in the slot (or 1 ms when less
    is left). *)
Theorem createLineup_offline_bounds (channelCache : ChannelCache)
    (obj : ProgramAndTimeElapsed) (channel : Channel)
    (fillers : list FillerCollection) (isFirst : bool) (t0 : Z)
    (g : Random.Engine) :
  prog_err (program obj) = None ->
  prog_isOffline (program obj) = true ->
  exists item g',
    createLineup channelCache obj channel fillers isFirst t0 g = ([item], g')
    /\ li_beginningOffset item = 0
    /\ li_streamDuration item
       <= Z.max 1 (prog_duration (program obj) - timeElapsed obj)
    /\ ((li_type item = "commercial" /\ 1 <= li_streamDuration item)
        \/ (li_type item = "offline" /\ li_title item = "Channel Offline"
            /\ li_start item = 0
            /\ li_duration item = li_streamDuration item
            /\ li_streamDuration item <= 600000)).
Proof.
  intros Herr Hoff.
  unfold HelperFuncs.createLineup. cbv zeta. rewrite Herr, Hoff.
  destruct (pickRandomWithMaxDuration channelCache channel fillers _ t0 g)
    as [randomResult g1].
  set (remaining := prog_duration (program obj) - timeElapsed obj).
  destruct (filler randomResult) as [c|].
  - destruct isFirst.
    + destruct (Random.integer _ _ g1) as [r g2].
      eexists. eexists. split; [reflexivity|]. cbn. split; [reflexivity|].
      split; [lia|]. left. split; [reflexivity|lia].
    + eexists. eexists. split; [reflexivity|]. cbn. split; [reflexivity|].
      split; [lia|]. left. split; [reflexivity|lia].
  - destruct (if String.eqb (ch_offlineMode channel) "clip"
                 && negb (Nat.eqb (length (ch_fallback channel)) 0)
              then head (ch_fallback channel) else None) as [special|].
    + eexists. eexists. split; [reflexivity|]. cbn. split; [reflexivity|].
      destruct (remaining >? rr_minimumWait randomResult) eqn:Hwait;
        [rewrite Z.gtb_ltb in Hwait; apply Z.ltb_lt in Hwait
        |rewrite Z.gtb_ltb in Hwait; apply Z.ltb_ge in Hwait];
        (split; [lia|]); left; (split; [reflexivity|lia]).
    + eexists. eexists. split; [reflexivity|]. cbn. split; [reflexivity|].
      destruct (remaining >? rr_minimumWait randomResult) eqn:Hwait;
        [rewrite Z.gtb_ltb in Hwait; apply Z.ltb_lt in Hwait
        |rewrite Z.gtb_ltb in Hwait; apply Z.ltb_ge in Hwait];
        (split; [lia|]); right; repeat split; lia.
Qed.

(** A commercial that [createLineup] returns for an offline slot with at
    least 1 ms left plays a part of the clip and ends with the slot at the
    latest: when every clip of the collections and of the fallback lasts at
    least 1 ms, the item starts at or after 0, ends at or before the end of
    the clip, and streams for at least 1 ms and at most the time left. *)
Theorem commercial_within_clip (channelCache : ChannelCache)
    (obj : ProgramAndTimeElapsed) (channel : Channel)
    (fillers : list FillerCollection) (isFirst : bool) (t0 : Z)
    (g g' : Random.Engine) (item : LineupItem) :
  0 <= SLACK ->
  prog_err (program obj) = None ->
  prog_isOffline (program obj) = true ->
  1 <= prog_duration (program obj) - timeElapsed obj ->
  (forall f clip, In f fillers -> In clip (fc_content f) ->
                  1 <= prog_duration clip) ->
  (forall clip, In clip (ch_fallback channel) -> 1 <= prog_duration clip) ->
  createLineup channelCache obj channel fillers isFirst t0 g = ([item], g') ->
  li_type item = "commercial" ->
  0 <= li_start item
  /\ li_start item + li_streamDuration item <= li_duration item
  /\ 1 <= li_streamDuration item
     <= prog_duration (program obj) - timeElapsed obj.
Proof.
  intros Hslack Herr Hoff Hleft Hclips Hfallback.
  unfold HelperFuncs.createLineup. cbv zeta. rewrite Herr, Hoff.
  set (remaining := prog_duration (program obj) - timeElapsed obj) in *.
  pose proof (picker_minimumWait_bounds channelCache channel fillers
                (fillerMaxDuration remaining isFirst) t0 g 1
                ltac:(lia) ltac:(lia)) as Hwait.
  pose proof (picker_origin channelCache channel fillers
                (fillerMaxDuration remaining isFirst) t0 g) as Horigin.
  destruct (pickRandomWithMaxDuration channelCache channel fillers _ t0 g)
    as [randomResult g1].
  cbn [fst] in Hwait, Horigin.
  destruct (filler randomResult) as [c|].
  - destruct (Horigin c eq_refl)
      as (f & clip & id & Hf & Hclip & _ & Hc & _).
    assert (Hlong : 1 <= prog_duration c)
      by (subst c; cbn [prog_duration withFillerId]; eauto).
    destruct isFirst.
    + pose proof (integer_range 0
                    (Z.max 0 (prog_duration c
                              - Z.max 0 (prog_duration c - remaining)
                              - 15000 - SLACK)) g1 ltac:(lia)) as Hr.
      destruct (Random.integer _ _ g1) as [r g2]. cbn [fst] in Hr.
      intros [= <- _] _. cbn. lia.
    + intros [= <- _] _. cbn. lia.
  - destruct (if String.eqb (ch_offlineMode channel) "clip"
                 && negb (Nat.eqb (length (ch_fallback channel)) 0)
              then head (ch_fallback channel) else None) as [special|]
      eqn:Hspecial.
    + assert (Hlong : 1 <= prog_duration special).
      { destruct (_ && _); [|discriminate].
        destruct (ch_fallback channel) as [|s rest]; [discriminate|].
        injection Hspecial as <-. apply Hfallback. left. reflexivity. }
      intros [= <- _] _. cbn.
      destruct (remaining >? rr_minimumWait randomResult) eqn:Hmw;
        [rewrite Z.gtb_ltb in Hmw; apply Z.ltb_lt in Hmw
        |rewrite Z.gtb_ltb in Hmw; apply Z.ltb_ge in Hmw];
        match goal with
        | |- context [if ?b then _ else _] =>
            destruct b eqn:Hcut;
              [rewrite Z.gtb_ltb in Hcut; apply Z.ltb_lt in Hcut
              |rewrite Z.gtb_ltb in Hcut; apply Z.ltb_ge in Hcut]
        end; lia.
    + intros [= <- _]. cbn. discriminate.
Qed.

(** *** When a filler is certain *)

Lemma bool_certain (w : Z) (g : Random.Engine) :
  0 < w -> Random.bool w w g = (true, g).
Proof.
  intros Hw. unfold Random.bool.
  replace (w <=? 0) with false by (symmetry; apply Z.leb_gt; lia).
  rewrite Z.leb_refl. reflexivity.
Qed.

Lemma ceilDiv_pos (a b : Z) : 0 < a -> 0 < b -> 1 <= Js.ceilDiv a b.
Proof.
  intros Ha Hb. unfold Js.ceilDiv.
  assert ((- a) / b < 0); [|lia].
  apply Z.div_lt_upper_bound; lia.
Qed.

Lemma norm_s_pos (x : Z) : 0 < x -> 2 <= norm_s x.
Proof.
  intros Hx. unfold norm_s. cbv zeta.
  pose proof (ceilDiv_pos x 600 Hx ltac:(lia)).
  pose proof (ceilDiv_pos ((Js.ceilDiv x 600 + 1) * (Js.ceilDiv x 600 + 1))
                1000000 ltac:(nia) ltac:(lia)).
  lia.
Qed.

Lemma norm_d_pos (x : Z) :
  (forall d, 0 <= logMillis d) -> 0 <= x -> 2 <= norm_d logMillis x.
Proof.
  intros Hlog Hx. unfold norm_d. cbv zeta.
  assert (Hc : 0 <= (if 180000 <=? x then logMillis x else Js.ceilDiv x 60)).
  { destruct (180000 <=? x); [apply Hlog|].
    destruct (Z.eq_dec x 0) as [->|]; [reflexivity|].
    pose proof (ceilDiv_pos x 60 ltac:(lia) ltac:(lia)). lia. }
  pose proof (ceilDiv_pos
                (10000 * ((if 180000 <=? x then logMillis x
                           else Js.ceilDiv x 60) + 1))
                1000000 ltac:(lia) ltac:(lia)).
  lia.
Qed.

Section Certain.

Variable channelCache : ChannelCache.
Variable number cooldown maxDuration t0 : Z.

Hypothesis logMillis_nonneg : forall d, 0 <= logMillis d.

(** The first clip that is weighed is picked. *)
Lemma weighClip_first (clip : Program) (timeSince : Z) (st : PickState) :
  0 < timeSince -> 0 <= prog_duration clip ->
  pick1 (snd (weighClip clip timeSince 0 st)) = Some clip.
Proof.
  intros Hsince Hduration. unfold HelperFuncs.weighClip.
  replace (timeSince <=? 0) with false by (symmetry; apply Z.leb_gt; lia).
  cbv zeta. unfold weighedPick.
  assert (Hs : 2 <= norm_s (if E <=? timeSince then E else timeSince)).
  { apply norm_s_pos. destruct (E <=? timeSince); [reflexivity|lia]. }
  pose proof (norm_d_pos (prog_duration clip) logMillis_nonneg Hduration).
  rewrite Z.add_0_l, bool_certain by lia. reflexivity.
Qed.

Lemma clipLoop_stays (f : FillerCollection) :
  forall (list : list Program) (pickedList : bool) (n : Z) (st : PickState),
    pick1 st <> None ->
    pick1 (clipLoop channelCache number cooldown maxDuration t0 f list
             pickedList n st) <> None.
Proof.
  induction list as [|clip rest IH]; intros pickedList n st Hst;
    cbn [HelperFuncs.clipLoop]; [exact Hst|].
  destruct (prog_duration clip <=? maxDuration + SLACK);
    [|apply IH; assumption].
  cbv zeta.
  destruct (_ <? cooldown - SLACK).
  { apply IH.
    match goal with
    | |- context [if ?b then withMinimumWait _ _ else _] => destruct b
    end; exact Hst. }
  destruct pickedList; cbn [negb].
  - match goal with
    | |- context [weighClip ?c ?t ?m ?s] =>
        pose proof (weighClip_fields c t m s) as (_ & _ & _ & Hpick);
        destruct (weighClip c t m s) as [n' st']
    end.
    cbn [snd] in Hpick. apply IH.
    destruct Hpick as [->|[_ ->]]; [exact Hst|discriminate].
  - destruct (fc_cooldown f <=? _).
    + destruct (weighedPick _ _ _) as [picked g]. destruct picked.
      * match goal with
        | |- context [weighClip ?c ?t ?m ?s] =>
            pose proof (weighClip_fields c t m s) as (_ & _ & _ & Hpick);
            destruct (weighClip c t m s) as [n' st']
        end.
        cbn [snd pick1] in Hpick. apply IH.
        destruct Hpick as [->|[_ ->]]; [exact Hst|discriminate].
      * exact Hst.
    + match goal with
      | |- context [if ?b then withMinimumWait _ _ else _] => destruct b
      end; exact Hst.
Qed.

Lemma collectionLoop_stays :
  forall (fillers : list FillerCollection) (st : PickState),
    pick1 st <> None ->
    pick1 (collectionLoop channelCache number cooldown maxDuration t0
             fillers st) <> None.
Proof.
  unfold HelperFuncs.collectionLoop.
  induction fillers as [|f fillers IH]; intros st Hst; cbn [fold_left];
    [exact Hst|].
  apply IH. apply clipLoop_stays. exact Hst.
Qed.

(** A collection none of whose clips is both short enough and out of its
    cooldown is passed over: nothing is drawn and nothing picked. *)
Lemma clipLoop_passed_over (f : FillerCollection) :
  forall (list : list Program) (pickedList : bool) (n : Z) (st : PickState),
    (forall clip,
        In clip list ->
        maxDuration + SLACK < prog_duration clip
        \/ (if getProgramLastPlayTime channelCache number clip =? 0
            then D else t0 - getProgramLastPlayTime channelCache number clip)
           < cooldown - SLACK) ->
    pick1 (clipLoop channelCache number cooldown maxDuration t0 f list
             pickedList n st) = pick1 st
    /\ listM (clipLoop channelCache number cooldown maxDuration t0 f list
                pickedList n st) = listM st.
Proof.
  induction list as [|clip rest IH]; intros pickedList n st Hnone;
    cbn [HelperFuncs.clipLoop]; [split; reflexivity|].
  assert (Hrest : forall c, In c rest ->
             maxDuration + SLACK < prog_duration c
             \/ (if getProgramLastPlayTime channelCache number c =? 0
                 then D
                 else t0 - getProgramLastPlayTime channelCache number c)
                < cooldown - SLACK)
    by (intros c Hc; apply Hnone; right; exact Hc).
  specialize (Hnone clip (or_introl eq_refl)).
  destruct (prog_duration clip <=? maxDuration + SLACK) eqn:Hfit;
    [|apply IH; exact Hrest].
  apply Z.leb_le in Hfit. cbv zeta.
  destruct Hnone as [Hlong|Hrecent]; [lia|].
  apply Z.ltb_lt in Hrecent. rewrite Hrecent.
  match goal with
  | |- context [if ?b then withMinimumWait _ _ else _] => destruct b
  end;
    match goal with
    | |- context [clipLoop _ _ _ _ _ f rest pickedList n ?s] =>
        destruct (IH pickedList n s Hrest) as [-> ->]
    end; split; reflexivity.
Qed.

(** In a collection of positive weight whose cooldown has passed, a clip
    that is short enough, out of its cooldown and last played in the past
    makes the loop leave with a pick, when it is entered with nothing
    weighed yet and no collection drawn before. *)
Lemma clipLoop_picks (f : FillerCollection) :
  0 < fc_weight f ->
  fc_cooldown f
  <= (if getFillerLastPlayTime channelCache number (fc_id f) =? 0
      then D else t0 - getFillerLastPlayTime channelCache number (fc_id f))
     + SLACK ->
  forall (list : list Program) (pickedList : bool) (st : PickState),
    (forall clip, In clip list -> 0 <= prog_duration clip) ->
    (pickedList = false -> listM st = 0) ->
    (exists clip,
        In clip list
        /\ prog_duration clip <= maxDuration + SLACK
        /\ cooldown - SLACK
           <= (if getProgramLastPlayTime channelCache number clip =? 0
               then D
               else t0 - getProgramLastPlayTime channelCache number clip)
        /\ 0 < (if getProgramLastPlayTime channelCache number clip =? 0
                then D
                else t0 - getProgramLastPlayTime channelCache number clip)) ->
    pick1 (clipLoop channelCache number cooldown maxDuration t0 f list
             pickedList 0 st) <> None.
Proof.
  intros Hweight Hcooldown.
  induction list as [|clip rest IH];
    intros pickedList st Hdurations HlistM (ready & Hin & Hfits & Hout & Hpast);
    [contradiction|].
  cbn [HelperFuncs.clipLoop].
  assert (Hrest : forall c, In c rest -> 0 <= prog_duration c)
    by (intros c Hc; apply Hdurations; right; exact Hc).
  specialize (Hdurations clip (or_introl eq_refl)).
  destruct (prog_duration clip <=? maxDuration + SLACK) eqn:Hfit.
  2:{ apply Z.leb_gt in Hfit.
      destruct Hin as [->|Hin]; [lia|].
      apply IH; try assumption. exists ready. tauto. }
  cbv zeta.
  destruct (_ <? cooldown - SLACK) eqn:Hrecent.
  { apply Z.ltb_lt in Hrecent.
    destruct Hin as [->|Hin]; [lia|].
    apply IH; try assumption.
    - intros Hp. specialize (HlistM Hp).
      match goal with
      | |- context [if ?b then withMinimumWait _ _ else _] => destruct b
      end; exact HlistM.
    - exists ready. tauto. }
  destruct (Z.ltb_spec 0
              (if getProgramLastPlayTime channelCache number clip =? 0
               then D
               else t0 - getProgramLastPlayTime channelCache number clip))
    as [Hweighed|Hskipped].
  - (* this clip is weighed first, and picked *)
    destruct pickedList; cbn [negb].
    + match goal with
      | |- context [weighClip ?c ?t 0 ?s] =>
          pose proof (weighClip_first c t s Hweighed Hdurations) as Hpick;
          destruct (weighClip c t 0 s) as [n' st']
      end.
      cbn [snd] in Hpick. apply clipLoop_stays. rewrite Hpick. discriminate.
    + apply Z.leb_le in Hcooldown. rewrite Hcooldown.
      rewrite (HlistM eq_refl), Z.add_0_l. unfold weighedPick at 1.
      rewrite bool_certain by exact Hweight.
      match goal with
      | |- context [weighClip ?c ?t 0 ?s] =>
          pose proof (weighClip_first c t s Hweighed Hdurations) as Hpick;
          destruct (weighClip c t 0 s) as [n' st']
      end.
      cbn [snd] in Hpick. apply clipLoop_stays. rewrite Hpick. discriminate.
  - (* this clip is not weighed: the ready one comes later *)
    assert (Hlater : In ready rest) by (destruct Hin as [->|Hin]; [lia|exact Hin]).
    destruct pickedList; cbn [negb].
    + unfold HelperFuncs.weighClip.
      replace (_ <=? 0) with true by (symmetry; apply Z.leb_le; lia).
      apply IH; try assumption; try discriminate. exists ready. tauto.
    + apply Z.leb_le in Hcooldown. rewrite Hcooldown.
      rewrite (HlistM eq_refl), Z.add_0_l. unfold weighedPick at 1.
      rewrite bool_certain by exact Hweight.
      unfold HelperFuncs.weighClip.
      replace (_ <=? 0) with true by (symmetry; apply Z.leb_le; lia).
      apply IH; try assumption; try discriminate. exists ready. tauto.
Qed.

End Certain.

(** The picker finds a filler whenever it can be certain of one: when the
    first collection that has a clip short enough and out of its repeat
    cooldown has a positive weight, has itself passed its cooldown, and holds
    such a clip whose last play lies in the past, a filler is returned
    whatever the random engine produces.  (The logarithmic term of [norm_d]
    and the clip durations are not negative.) *)
Theorem picker_finds_filler (channelCache : ChannelCache) (channel : Channel)
    (before after : list FillerCollection) (f : FillerCollection)
    (ready : Program) (maxDuration t0 : Z) (g : Random.Engine) :
  (forall d, 0 <= logMillis d) ->
  (forall clip, In clip (fc_content f) -> 0 <= prog_duration clip) ->
  (forall f' clip,
      In f' before -> In clip (fc_content f') ->
      maxDuration + SLACK < prog_duration clip
      \/ (if getProgramLastPlayTime channelCache (ch_number channel) clip
             =? 0
          then 604800000
          else t0 - getProgramLastPlayTime channelCache (ch_number channel)
                      clip)
         < match ch_fillerRepeatCooldown channel with
           | None => 1800000
           | Some cooldown => cooldown
           end - SLACK) ->
  0 < fc_weight f ->
  fc_cooldown f - SLACK
  <= (if getFillerLastPlayTime channelCache (ch_number channel) (fc_id f)
         =? 0
      then 604800000
      else t0 - getFillerLastPlayTime channelCache (ch_number channel)
                  (fc_id f)) ->
  In ready (fc_content f) ->
  prog_duration ready <= maxDuration + SLACK ->
  match ch_fillerRepeatCooldown channel with
  | None => 1800000
  | Some cooldown => cooldown
  end - SLACK
  <= (if getProgramLastPlayTime channelCache (ch_number channel) ready =? 0
      then 604800000
      else t0 - getProgramLastPlayTime channelCache (ch_number channel)
                  ready) ->
  0 < (if getProgramLastPlayTime channelCache (ch_number channel) ready =? 0
       then 604800000
       else t0 - getProgramLastPlayTime channelCache (ch_number channel)
                   ready) ->
  exists c,
    filler (fst (pickRandomWithMaxDuration channelCache channel
                   (before ++ f :: after) maxDuration t0 g)) = Some c.
Proof.
  intros Hlog Hdurations Hbefore Hweight Hcooldown Hin Hfits Hout Hpast.
  unfold HelperFuncs.pickRandomWithMaxDuration. cbv zeta. cbn [fst filler].
  change (30 * 60 * 1000) with 1800000.
  set (cooldown := match ch_fillerRepeatCooldown channel with
                   | None => 1800000
                   | Some cooldown => cooldown
                   end) in *.
  change 604800000 with D in *.
  assert (Hpick :
    pick1 (collectionLoop channelCache (ch_number channel) cooldown
             maxDuration t0 (before ++ f :: after)
             (mkPickState None 1000000000 0 None g)) <> None).
  { unfold HelperFuncs.collectionLoop. rewrite fold_left_app.
    cbn [fold_left]. apply collectionLoop_stays.
    assert (Hidle : forall st,
               listM st = 0 ->
               listM (fold_left
                        (fun st0 f0 =>
                           clipLoop channelCache (ch_number channel) cooldown
                             maxDuration t0 f0 (fc_content f0) false 0 st0)
                        before st) = 0).
    { clear -Hbefore. induction before as [|f' before' IH];
        intros st Hst; [exact Hst|].
      cbn [fold_left]. apply IH.
      - intros f0 clip Hf0. apply Hbefore. right. exact Hf0.
      - destruct (clipLoop_passed_over channelCache (ch_number channel)
                    cooldown maxDuration t0 f' (fc_content f') false 0 st)
          as [_ HlistM].
        + intros clip. apply Hbefore. left. reflexivity.
        + rewrite HlistM. exact Hst. }
    apply (clipLoop_picks channelCache (ch_number channel) cooldown
             maxDuration t0 Hlog f Hweight ltac:(lia) (fc_content f) false).
    - exact Hdurations.
    - intros _. apply Hidle. reflexivity.
    - exists ready. tauto. }
  destruct (pick1 _) as [c|]; [|contradiction].
  eexists. reflexivity.
Qed.

(** *** From the resolver to the item that is played *)

(** A content item resolved at or after the start time of a channel whose
    items all have a positive duration is played from a point inside the
    program to its end: the item starts at or after 0 and before the end,
    streams for the rest of the program, which is more than nothing, and the
    start and the [beginningOffset] (which is less than 30000 ms) add up to
    the time elapsed in the program. *)
Theorem content_plays_to_end (channelCache : ChannelCache) (now : Z)
    (channel : Channel) (obj : ProgramAndTimeElapsed)
    (fillers : list FillerCollection) (isFirst : bool) (t0 : Z)
    (g : Random.Engine) :
  ch_startTimeEpoch channel <= now ->
  (forall p, In p (ch_programs channel) -> 0 < prog_duration p) ->
  HelperFuncs.getCurrentProgramAndTimeElapsed SLACK now channel = Ok obj ->
  prog_err (program obj) = None ->
  prog_isOffline (program obj) = false ->
  exists item,
    createLineup channelCache obj channel fillers isFirst t0 g = ([item], g)
    /\ 0 <= li_start item < li_duration item
    /\ li_start item + li_streamDuration item = li_duration item
    /\ 0 < li_streamDuration item
    /\ li_start item + li_beginningOffset item = timeElapsed obj
    /\ 0 <= li_beginningOffset item < 30000.
Proof.
  intros Hstart Hpositive Hres Herr Hcontent.
  pose proof (ResolverProperties.resolver_time_nonneg SLACK now channel obj
                Hres) as Hnonneg.
  destruct (ResolverExtras.resolver_result SLACK now channel obj Hstart Hres)
    as (_ & Hloop & Hidx & Hp).
  pose proof (ResolverExtras.findProgram_position SLACK (ch_programs channel)
                (Z.of_nat (length (ch_programs channel))) 0
                (Z.rem (now - ch_startTimeEpoch channel)
                   (ch_duration channel))) as Hpos.
  rewrite Hloop in Hpos. cbn [fst snd] in Hpos.
  assert (Hduration : 0 < prog_duration (program obj)).
  { apply Hpositive. apply list_elem_of_In.
    eapply list_elem_of_lookup_2. exact Hp. }
  assert (Hinside : timeElapsed obj < prog_duration (program obj)).
  { destruct Hpos as [Hend|[Hzero|(q & Hq & _ & Hin & _)]].
    - contradiction.
    - lia.
    - rewrite Z.sub_0_r, Hp in Hq. injection Hq as <-. exact Hin. }
  unfold HelperFuncs.createLineup. cbv zeta. rewrite Herr, Hcontent.
  eexists. split; [reflexivity|]. cbn.
  destruct (timeElapsed obj <? 30000) eqn:Hsnap;
    [apply Z.ltb_lt in Hsnap|apply Z.ltb_ge in Hsnap]; lia.
Qed.

End WithParameters.

Lemma picker_returns_listed_clip_witness :
  exists f clip f',
    In f oneCollection /\ In clip (fc_content f) /\ In f' oneCollection
    /\ withFillerId (Some "filler-1") longClip
       = withFillerId (Some (fc_id f')) clip.
Proof.
  apply (picker_returns_listed_clip Constants.SLACK logMillisUnread
           neverPlayed offlineChannel oneCollection 200000 0 []).
  vm_compute. reflexivity.
Defined.

Lemma picker_respects_cooldowns_witness :
  exists f clip,
    In f oneCollection /\ In clip (fc_content f)
    /\ withFillerId (Some "filler-1") longClip
       = withFillerId (Some "filler-1") clip
    /\ 1800000 - Constants.SLACK <= 604800000
    /\ fc_cooldown f - Constants.SLACK <= 604800000.
Proof.
  apply (picker_respects_cooldowns Constants.SLACK logMillisUnread
           neverPlayed offlineChannel oneCollection 200000 0 []
           (withFillerId (Some "filler-1") longClip)).
  vm_compute. reflexivity.
Defined.

Lemma picker_minimumWait_range_witness :
  Constants.SLACK
  < rr_minimumWait
      (fst (HelperFuncs.pickRandomWithMaxDuration Constants.SLACK
              logMillisUnread neverPlayed offlineChannel oneCollection
              200000 0 []))
  <= 1000000000.
Proof.
  apply (picker_minimumWait_range Constants.SLACK logMillisUnread).
  reflexivity.
Defined.

Lemma picker_nothing_fits_witness :
  HelperFuncs.pickRandomWithMaxDuration Constants.SLACK logMillisUnread
    neverPlayed offlineChannel oneCollection 10000 0 [5]
  = ({| filler := None; rr_minimumWait := 1000000000 |}, [5]).
Proof.
  apply (picker_nothing_fits Constants.SLACK logMillisUnread).
  intros f clip [<-|[]] [<-|[]]. vm_compute. reflexivity.
Defined.

Lemma offline_gap_without_filler_witness :
  HelperFuncs.createLineup Constants.SLACK logMillisUnread neverPlayed
    {| program := offlineProgram 10000; timeElapsed := 0;
       programIndex := 0 |}
    offlineChannel oneCollection false 0 [5]
  = ([ {| li_type := "offline"; li_title := "Channel Offline";
          li_err := None; li_key := None; li_plexFile := None;
          li_file := None; li_ratingKey := None; li_serverKey := None;
          li_fillerId := None; li_start := 0;
          li_streamDuration := Z.min (10000 - 0) 600000;
          li_duration := Z.min (10000 - 0) 600000;
          li_beginningOffset := 0 |} ], [5]).
Proof.
  apply (offline_gap_without_filler Constants.SLACK logMillisUnread
           neverPlayed
           {| program := offlineProgram 10000; timeElapsed := 0;
              programIndex := 0 |}
           offlineChannel oneCollection false 0 [5]).
  - reflexivity.
  - reflexivity.
  - intros f clip [<-|[]] [<-|[]]. vm_compute. reflexivity.
  - left. discriminate.
Defined.

Lemma createLineup_offline_bounds_witness :
  exists item g',
    HelperFuncs.createLineup Constants.SLACK logMillisUnread neverPlayed
      {| program := offlineProgram 10000; timeElapsed := 0;
         programIndex := 0 |}
      offlineChannel oneCollection true 0 [] = ([item], g')
    /\ li_beginningOffset item = 0
    /\ li_streamDuration item <= Z.max 1 (10000 - 0)
    /\ ((li_type item = "commercial" /\ 1 <= li_streamDuration item)
        \/ (li_type item = "offline" /\ li_title item = "Channel Offline"
            /\ li_start item = 0
            /\ li_duration item = li_streamDuration item
            /\ li_streamDuration item <= 600000)).
Proof.
  apply (createLineup_offline_bounds Constants.SLACK logMillisUnread
           neverPlayed
           {| program := offlineProgram 10000; timeElapsed := 0;
              programIndex := 0 |}
           offlineChannel oneCollection true 0 []);
    reflexivity.
Defined.

Lemma commercial_within_clip_witness :
  0 <= 90000
  /\ 90000 + 10000 <= 100000
  /\ 1 <= 10000 <= 10000 - 0.
Proof.
  refine (commercial_within_clip Constants.SLACK logMillisUnread neverPlayed
            {| program := offlineProgram 10000; timeElapsed := 0;
               programIndex := 0 |}
            offlineChannel oneCollection true 0 [] []
            {| li_type := "commercial"; li_title := "clip";
               li_err := None; li_key := Some "clip";
               li_plexFile := Some ""; li_file := Some "";
               li_ratingKey := Some ""; li_serverKey := Some "";
               li_fillerId := Some "filler-1"; li_start := 90000;
               li_streamDuration := 10000; li_duration := 100000;
               li_beginningOffset := 0 |}
            _ _ _ _ _ _ _ _).
  - vm_compute. discriminate.
  - reflexivity.
  - reflexivity.
  - vm_compute. discriminate.
  - intros f clip [<-|[]] [<-|[]]. vm_compute. discriminate.
  - intros clip [].
  - vm_compute. reflexivity.
  - reflexivity.
Defined.

Lemma picker_finds_filler_witness :
  exists c,
    filler (fst (HelperFuncs.pickRandomWithMaxDuration Constants.SLACK
                   (fun _ => 4099) neverPlayed offlineChannel
                   ([] ++ {| fc_id := "filler-1"; fc_content := [longClip];
                             fc_weight := 1; fc_cooldown := 0 |} :: [])
                   200000 0 [7; 11])) = Some c.
Proof.
  apply (picker_finds_filler Constants.SLACK (fun _ => 4099) neverPlayed
           offlineChannel [] []
           {| fc_id := "filler-1"; fc_content := [longClip];
              fc_weight := 1; fc_cooldown := 0 |}
           longClip 200000 0 [7; 11]).
  - intros d. lia.
  - intros clip [<-|[]]. vm_compute. discriminate.
  - intros f' clip [].
  - reflexivity.
  - vm_compute. discriminate.
  - left. reflexivity.
  - vm_compute. discriminate.
  - vm_compute. discriminate.
  - reflexivity.
Defined.

Lemma content_plays_to_end_witness :
  exists item,
    HelperFuncs.createLineup Constants.SLACK logMillisUnread neverPlayed
      {| program := progB; timeElapsed := 10000; programIndex := 1 |}
      channelS1 [] false 0 [] = ([item], [])
    /\ 0 <= li_start item < li_duration item
    /\ li_start item + li_streamDuration item = li_duration item
    /\ 0 < li_streamDuration item
    /\ li_start item + li_beginningOffset item = 10000
    /\ 0 <= li_beginningOffset item < 30000.
Proof.
  apply (content_plays_to_end Constants.SLACK logMillisUnread neverPlayed
           70000 channelS1
           {| program := progB; timeElapsed := 10000; programIndex := 1 |}
           [] false 0 []).
  - vm_compute. discriminate.
  - intros p [<-|[<-|[<-|[]]]]; reflexivity.
  - reflexivity.
  - reflexivity.
  - reflexivity.
Defined.

End LineupExtras.

(** * Further properties of the FFMPEG wrapper *)

Module FfmpegExtras.

Import Settings Ffmpeg.

#[local] Open Scope string_scope.
#[local] Open Scope list_scope.
#[local] Open Scope Z_scope.

(** *** [gcd] *)

Lemma gcdLoop_gcd :
  forall (fuel : nat) (a b : Z),
    (Z.abs_nat b < fuel)%nat -> Z.abs (gcdLoop fuel a b) = Z.gcd a b.
Proof.
  induction fuel as [|fuel IH]; intros a b Hfuel; [lia|].
  cbn [gcdLoop]. destruct (Z.eqb_spec b 0) as [->|Hb].
  - rewrite Z.gcd_0_r. reflexivity.
  - pose proof (Z.rem_bound_abs a b Hb) as Hrem.
    rewrite IH by lia.
    rewrite (Z.gcd_comm b (Z.rem a b)), Z.gcd_rem by exact Hb.
    apply Z.gcd_comm.
Qed.

Lemma gcdLoop_nonneg :
  forall (fuel : nat) (a b : Z),
    0 <= a -> 0 <= b -> 0 <= gcdLoop fuel a b.
Proof.
  induction fuel as [|fuel IH]; intros a b Ha Hb; [exact Ha|].
  cbn [gcdLoop]. destruct (Z.eqb_spec b 0) as [|Hnz]; [exact Ha|].
  apply IH; [exact Hb|]. apply Z.rem_nonneg; assumption.
Qed.

Lemma gcd_nonneg (a b : Z) : 0 <= a -> 0 <= b -> gcd a b = Z.gcd a b.
Proof.
  intros Ha Hb. unfold gcd.
  rewrite <- (gcdLoop_gcd (S (Z.abs_nat b)) a b) by lia.
  symmetry. apply Z.abs_eq. apply gcdLoop_nonneg; assumption.
Qed.

(** The loop of [gcd] ends and computes the greatest common divisor: up to
    its sign on every pair of integers, and exactly when neither is
    negative. *)
Theorem gcd_correct (a b : Z) :
  Z.abs (gcd a b) = Z.gcd a b
  /\ (0 <= a -> 0 <= b -> gcd a b = Z.gcd a b).
Proof.
  split.
  - unfold gcd. apply gcdLoop_gcd. lia.
  - apply gcd_nonneg.
Qed.

Lemma gcd_correct_witness :
  Z.abs (gcd 1080 1920) = 120 /\ gcd 1080 1920 = 120.
Proof.
  destruct (gcd_correct 1080 1920) as [Habs Hpos].
  split; [exact Habs|]. apply Hpos; lia.
Defined.

(** *** The resolution fix *)

Lemma append_assoc (a b c : string) : ((a ++ b) ++ c = a ++ b ++ c)%string.
Proof.
  induction a as [|x a IH]; [reflexivity|].
  change (String x a ++ b)%string with (String x (a ++ b)%string).
  change (String x (a ++ b) ++ c)%string
    with (String x ((a ++ b) ++ c)%string).
  change (String x a ++ b ++ c)%string with (String x (a ++ b ++ c)%string).
  rewrite IH. reflexivity.
Qed.

Lemma append_assoc2 (a b c d : string) :
  (((a ++ b) ++ c) ++ d = a ++ b ++ c ++ d)%string.
Proof. rewrite !append_assoc. reflexivity. Qed.

(** The size that keeps the aspect ratio [p : q] inside a frame of
    [W] x [H]: the full width when the height that goes with it fits, the
    full height otherwise. *)
Lemma scaled_size (W H p q : Z) :
  0 <= W -> 0 <= H -> 0 < p -> 0 < q ->
  (W * q / p <= H ->
   0 <= W * q / p
   /\ (W * q / p) * p <= W * q < (W * q / p + 1) * p)
  /\ (H < W * q / p ->
      0 <= H * p / q <= W
      /\ (H * p / q) * q <= H * p < (H * p / q + 1) * q).
Proof.
  intros HW HH Hp Hq. split.
  - intros _.
    pose proof (Z.div_pos (W * q) p ltac:(nia) Hp).
    pose proof (Z.mul_div_le (W * q) p Hp).
    pose proof (Z.mul_succ_div_gt (W * q) p Hp).
    nia.
  - intros Hhigh.
    pose proof (Z.mul_div_le (W * q) p Hp).
    pose proof (Z.div_pos (H * p) q ltac:(nia) Hq).
    pose proof (Z.mul_div_le (H * p) q Hq).
    pose proof (Z.mul_succ_div_gt (H * p) q Hq).
    assert (H * p / q <= W); [|nia].
    apply Z.div_le_upper_bound; [exact Hq|]. nia.
Qed.

(** For a source with positive dimensions and pixel aspect ratio,
    [fixResolution] stays within the integers.  When it rescales, the size
    [cw] x [ch] of its scale filter fits the wanted frame, touches it in
    width or in height, and has the display aspect ratio of the source
    rounded down to a whole pixel; the frame that results, which later
    filters are computed from, is the wrapper's wanted size and is not
    smaller than [cw] x [ch]. *)
Theorem fixResolution_fits (this : FFMPEG) (stats : VideoStats) (l : Locals)
    (pp pq : Z) :
  0 < iW l -> 0 < iH l ->
  0 <= wantedW this -> 0 <= wantedH this ->
  pixelP stats = Some pp -> pixelQ stats = Some pq ->
  0 < pp -> 0 < pq ->
  exists this' l',
    fixResolution this stats l = Some (this', l')
    /\ ((this' = this /\ l' = l)
        \/ exists cw ch rest,
             videoComplex l'
             = (videoComplex l
                ++ Js.template [";"; currentVideo l; "scale="; Js.showZ cw;
                                ":"; Js.showZ ch; ":flags=";
                                scalingAlgorithm (opts this); "[scaled]"]
                ++ rest)%string
             /\ 0 <= cw <= wantedW this
             /\ 0 <= ch <= wantedH this
             /\ ((cw = wantedW this
                  /\ ch * (iW l * pp) <= cw * (iH l * pq)
                     < (ch + 1) * (iW l * pp))
                 \/ (ch = wantedH this
                     /\ cw * (iH l * pq) <= ch * (iW l * pp)
                        < (cw + 1) * (iH l * pq)))
             /\ iW l' = wantedW this' /\ iH l' = wantedH this'
             /\ cw <= wantedW this' /\ ch <= wantedH this').
Proof.
  intros HiW HiH HW HH HP HQ Hpp Hpq.
  unfold fixResolution. cbv zeta.
  destruct (negb (vs_audioOnly stats) && _) eqn:Hresize;
    [|exists this, l; split; [reflexivity|left; split; reflexivity]].
  rewrite HP, HQ.
  set (p := iW l * pp). set (q := iH l * pq).
  assert (Hp : 0 < p) by (unfold p; nia).
  assert (Hq : 0 < q) by (unfold q; nia).
  rewrite (gcd_nonneg q p) by lia.
  set (g := Z.gcd q p).
  assert (Hg : 0 < g).
  { pose proof (Z.gcd_nonneg q p). fold g in H.
    destruct (Z.eq_dec g 0) as [Hzero|]; [|lia].
    apply Z.gcd_eq_0_l in Hzero. lia. }
  destruct (Z.gcd_divide_l q p) as [q' Hq']. fold g in Hq'.
  destruct (Z.gcd_divide_r q p) as [p' Hp']. fold g in Hp'.
  assert (Hpdiv : p / g = p') by (rewrite Hp'; apply Z.div_mul; lia).
  assert (Hqdiv : q / g = q') by (rewrite Hq'; apply Z.div_mul; lia).
  rewrite Hpdiv, Hqdiv.
  assert (Hp'pos : 0 < p') by nia.
  assert (Hq'pos : 0 < q') by nia.
  replace (g =? 0) with false by (symmetry; apply Z.eqb_neq; lia).
  replace (p' =? 0) with false by (symmetry; apply Z.eqb_neq; lia).
  replace (q' =? 0) with false by (symmetry; apply Z.eqb_neq; lia).
  destruct (scaled_size (wantedW this) (wantedH this) p' q' HW HH Hp'pos
              Hq'pos) as [Hwide Hhigh].
  destruct (wantedW this * q' / p' <=? wantedH this) eqn:Hfit.
  - apply Z.leb_le in Hfit. specialize (Hwide Hfit).
    set (ch := wantedW this * q' / p') in *.
    destruct (ensureResolution this) eqn:Hensure;
      [|destruct ((Z.rem (wantedW this) 2 =? 1) || (Z.rem ch 2 =? 1))
          eqn:Hodd];
      read_locals;
      match goal with
      | |- context [if ?b then addVideoFilter _ _ _ else _] =>
          destruct b eqn:Hpad
      end;
      read_locals;
      (eexists; eexists; split; [reflexivity|]; right;
       exists (wantedW this), ch; read_locals;
       eexists; split;
       [first [apply append_assoc2 | apply append_assoc]|]);
      (split; [lia|]); (split; [lia|]);
      (split; [left; split; [reflexivity|nia]|]);
      (split; [reflexivity|]); (split; [reflexivity|]);
      try (pose proof (Z.rem_bound_pos (wantedW this) 2 HW ltac:(lia));
           pose proof (Z.rem_bound_pos ch 2 ltac:(lia) ltac:(lia)));
      split; lia.
  - apply Z.leb_gt in Hfit. specialize (Hhigh Hfit).
    set (cw := wantedH this * p' / q') in *.
    destruct (ensureResolution this) eqn:Hensure;
      [|destruct ((Z.rem cw 2 =? 1) || (Z.rem (wantedH this) 2 =? 1))
          eqn:Hodd];
      read_locals;
      match goal with
      | |- context [if ?b then addVideoFilter _ _ _ else _] =>
          destruct b eqn:Hpad
      end;
      read_locals;
      (eexists; eexists; split; [reflexivity|]; right;
       exists cw, (wantedH this); read_locals;
       eexists; split;
       [first [apply append_assoc2 | apply append_assoc]|]);
      (split; [lia|]); (split; [lia|]);
      (split; [right; split; [reflexivity|nia]|]);
      (split; [reflexivity|]); (split; [reflexivity|]);
      try (pose proof (Z.rem_bound_pos cw 2 ltac:(lia) ltac:(lia));
           pose proof (Z.rem_bound_pos (wantedH this) 2 HH ltac:(lia)));
      split; lia.
Qed.

Lemma fixResolution_fits_witness :
  exists this' l',
    fixResolution
      (newFFMPEG sampleEnv unnormalisedSettings sampleChannel)
      oddSizedStats
      (openingArgs (newFFMPEG sampleEnv unnormalisedSettings sampleChannel)
         (Url "http://plex/video.mkv") oddSizedStats None None true None)
    = Some (this', l')
    /\ iW l' = wantedW this' /\ iH l' = wantedH this'.
Proof.
  pose proof (fixResolution_fits
              (newFFMPEG sampleEnv unnormalisedSettings sampleChannel)
              oddSizedStats
              (openingArgs
                 (newFFMPEG sampleEnv unnormalisedSettings sampleChannel)
                 (Url "http://plex/video.mkv") oddSizedStats None None true
                 None)
              1 1 eq_refl eq_refl
              ltac:(vm_compute; discriminate) ltac:(vm_compute; discriminate)
              eq_refl eq_refl eq_refl eq_refl)
    as (this' & l' & Hfix & Hcases).
  exists this', l'. split; [exact Hfix|].
  destruct Hcases as [[-> ->]|(cw & ch & rest & _ & _ & _ & _ & HW & HH & _)].
  - vm_compute in Hfix. discriminate Hfix.
  - split; assumption.
Defined.

(** *** What the methods leave alone *)

Import FfmpegFrame.

Lemma keeps_refl (a : FFMPEG) : keeps a a.
Proof. repeat split. Qed.

Lemma keeps_trans (a b c : FFMPEG) : keeps a b -> keeps b c -> keeps a c.
Proof.
  unfold keeps. intros H1 H2.
  repeat match goal with H : _ /\ _ |- _ => destruct H end.
  repeat split; congruence.
Qed.

Lemma generateInputs_keeps env this streamUrl stats l :
  keeps this (fst (generateInputs env this streamUrl stats l)).
Proof.
  unfold generateInputs, generateAudio, keeps.
  break_conditions; repeat split.
Qed.

Lemma overlayInput_keeps this watermark l :
  keeps this (fst (overlayInput this watermark l)).
Proof. unfold overlayInput, keeps. break_conditions; repeat split. Qed.

Lemma fixResolution_keeps this stats l this' l' :
  fixResolution this stats l = Some (this', l') -> keeps this this'.
Proof.
  unfold fixResolution, keeps. cbv zeta.
  break_conditions; intros [= <- <-] || discriminate; repeat split.
Qed.

(** [spawn] changes none of these fields unless it starts a child, and then
    only [ffmpeg]; it starts none on a killed wrapper. *)
Lemma spawn_keeps env this streamUrl streamStats startTime d limitRead
    watermark :
  let r := spawn env this streamUrl streamStats startTime d limitRead
             watermark in
  opts (snd r) = opts this
  /\ sentData (snd r) = sentData this
  /\ hasBeenKilled (snd r) = hasBeenKilled this
  /\ emitted (snd r) = emitted this
  /\ ((exists args, fst r = Spawned args /\ ffmpeg (snd r) = Some args
                    /\ hasBeenKilled this = false)
      \/ ((forall args, fst r <> Spawned args)
          /\ ffmpeg (snd r) = ffmpeg this)).
Proof.
  unfold spawn. destruct streamStats as [stats|];
    [|cbn; repeat split; right; split; [discriminate|reflexivity]].
  match goal with
  | |- context [generateInputs ?e ?t ?u ?s ?m] =>
      pose proof (generateInputs_keeps e t u s m) as Hgen;
      destruct (generateInputs e t u s m) as [this1 l1]
  end.
  pose proof (overlayInput_keeps this1 watermark l1) as Hov.
  destruct (overlayInput this1 watermark l1) as [this2 l2].
  cbn [fst] in Hgen, Hov.
  pose proof (keeps_trans _ _ _ Hgen Hov) as H2.
  destruct (fixResolution this2 stats l2) as [[this3 l3]|] eqn:Hfix.
  - apply fixResolution_keeps in Hfix.
    pose proof (keeps_trans _ _ _ H2 Hfix) as H3.
    unfold keeps in H3.
    destruct H3 as (Ho & _ & _ & _ & Hs & Hk & _ & _ & Hf & He).
    destruct (hasBeenKilled this3) eqn:Hkilled; cbn [fst snd].
    + repeat split; try congruence. right. split; [discriminate|congruence].
    + read_locals. repeat split; try congruence.
      left. eexists. repeat split. congruence.
  - unfold keeps in H2.
    destruct H2 as (Ho & _ & _ & _ & Hs & Hk & _ & _ & Hf & He).
    cbn [fst snd]. repeat split; try congruence.
    right. split; [discriminate|congruence].
Qed.

Lemma emit_all_keeps (events : list Event) :
  forall this,
    opts (fold_left (fun t e => emit e t) events this) = opts this
    /\ hasBeenKilled (fold_left (fun t e => emit e t) events this)
       = hasBeenKilled this
    /\ ffmpeg (fold_left (fun t e => emit e t) events this) = ffmpeg this.
Proof.
  induction events as [|e events IH]; intros this; [repeat split|].
  cbn [fold_left]. destruct (IH (emit e this)) as (Ho & Hk & Hf).
  rewrite Ho, Hk, Hf. repeat split.
Qed.

(** No operation changes the settings of the wrapper, and none revives a
    killed wrapper or starts a child on it. *)
Lemma perform_keeps env this op :
  opts (perform env this op) = opts this
  /\ (hasBeenKilled this = true ->
      hasBeenKilled (perform env this op) = true
      /\ ffmpeg (perform env this op) = ffmpeg this).
Proof.
  destruct op as [b|streamUrl streamStats startTime d limitRead watermark
                 |title subtitle d|d| |code]; cbn [perform].
  - split; [reflexivity|]. intros Hk. split; [exact Hk|reflexivity].
  - pose proof (spawn_keeps env this streamUrl streamStats startTime
                  d limitRead watermark) as H.
    cbv zeta in H. destruct H as (Ho & _ & Hk & _ & Hf).
    split; [exact Ho|]. intros Hkilled. split; [congruence|].
    destruct Hf as [(args & _ & _ & Hlive)|[_ Hf]]; congruence.
  - unfold spawnError. destruct (_ || _).
    + split; [reflexivity|]. intros Hk. split; [exact Hk|reflexivity].
    + match goal with
      | |- context [spawn ?e ?t ?u ?s ?st ?d ?r ?w] =>
          pose proof (spawn_keeps e t u s st d r w) as H
      end.
      cbv zeta in H. destruct H as (Ho & _ & Hk & _ & Hf).
      split; [exact Ho|]. intros Hkilled. split; [congruence|].
      destruct Hf as [(args & _ & _ & Hlive)|[_ Hf]]; congruence.
  - unfold spawnOffline. destruct (negb _).
    + split; [reflexivity|]. intros Hk. split; [exact Hk|reflexivity].
    + match goal with
      | |- context [spawn ?e ?t ?u ?s ?st ?d ?r ?w] =>
          pose proof (spawn_keeps e t u s st d r w) as H
      end.
      cbv zeta in H. destruct H as (Ho & _ & Hk & _ & Hf).
      split; [exact Ho|]. intros Hkilled. split; [congruence|].
      destruct Hf as [(args & _ & _ & Hlive)|[_ Hf]]; congruence.
  - split; [reflexivity|]. intros _. split; reflexivity.
  - destruct (ffmpeg this) as [args|] eqn:Hargs.
    + unfold onExit.
      destruct (emit_all_keeps (exitEvents this args code) this)
        as (Ho & Hk & Hf).
      split; [exact Ho|]. intros Hkilled. split; congruence.
    + split; [reflexivity|]. intros Hk. split; [exact Hk|exact Hargs].
Qed.

Lemma perform_all_opts env (ops : list Operation) :
  forall this, opts (fold_left (perform env) ops this) = opts this.
Proof.
  induction ops as [|op ops IH]; intros this; [reflexivity|].
  cbn [fold_left]. rewrite IH. apply perform_keeps.
Qed.

(** [kill] cannot be undone: whatever is called on a killed wrapper
    afterwards, it stays killed and no child process is started on it; in
    particular [spawn] never answers that it started one. *)
Theorem killed_wrapper_starts_nothing (env : ServerOptions)
    (ops : list Operation) (this : FFMPEG) :
  hasBeenKilled this = true ->
  hasBeenKilled (fold_left (perform env) ops this) = true
  /\ ffmpeg (fold_left (perform env) ops this) = ffmpeg this
  /\ forall streamUrl streamStats startTime d limitRead watermark args,
       fst (spawn env (fold_left (perform env) ops this) streamUrl
              streamStats startTime d limitRead watermark)
       <> Spawned args.
Proof.
  intros Hkilled.
  assert (Hfold : hasBeenKilled (fold_left (perform env) ops this) = true
                  /\ ffmpeg (fold_left (perform env) ops this)
                     = ffmpeg this).
  { revert this Hkilled.
    induction ops as [|op ops IH]; intros this Hkilled;
      [split; [exact Hkilled|reflexivity]|].
    cbn [fold_left].
    destruct (perform_keeps env this op) as [_ Hstep].
    destruct (Hstep Hkilled) as [Hk Hf].
    destruct (IH _ Hk) as [Hk' Hf']. split; congruence. }
  destruct Hfold as [Hk Hf]. split; [exact Hk|]. split; [exact Hf|].
  intros streamUrl streamStats startTime d limitRead watermark args.
  pose proof (spawn_keeps env (fold_left (perform env) ops this) streamUrl
                streamStats startTime d limitRead watermark) as H.
  cbv zeta in H. destruct H as (_ & _ & _ & _ & Hspawn).
  destruct Hspawn as [(args' & _ & _ & Hlive)|[Hnot _]]; [congruence|].
  apply Hnot.
Qed.

Lemma killed_wrapper_starts_nothing_witness :
  hasBeenKilled
    (fold_left (perform sampleEnv)
       [OpSpawnError "boom" None None; OpSetAudioOnly true;
        OpSpawnOffline 5000]
       (kill sampleFFMPEG)) = true
  /\ ffmpeg
       (fold_left (perform sampleEnv)
          [OpSpawnError "boom" None None; OpSetAudioOnly true;
           OpSpawnOffline 5000]
          (kill sampleFFMPEG)) = None.
Proof.
  destruct (killed_wrapper_starts_nothing sampleEnv
              [OpSpawnError "boom" None None; OpSetAudioOnly true;
               OpSpawnOffline 5000]
              (kill sampleFFMPEG) eq_refl) as (Hk & Hf & _).
  split; [exact Hk|exact Hf].
Defined.

(** On a wrapper made by the constructor, whatever was called on it since,
    a child that exits with code 255 without the wrapper having been killed
    makes the handler emit 'error' and then 'close': the flag [sentData],
    which would suppress the 'error', is never set. *)
Theorem exit_255_reports_error (env : ServerOptions)
    (settings : FfmpegSettings) (ch : ContextChannel)
    (ops : list Operation) (ffmpegArgs : list string) :
  let this := fold_left (perform env) ops (newFFMPEG env settings ch) in
  hasBeenKilled this = false ->
  exitEvents this ffmpegArgs (Some 255)
  = [EvError 255 (exitCommand this ffmpegArgs); EvClose (Some 255)].
Proof.
  intros this Hlive. unfold exitEvents. cbn [Z.eqb Pos.eqb].
  rewrite Hlive. unfold this.
  rewrite FfmpegProperties.sentData_never_set. reflexivity.
Qed.

Lemma exit_255_reports_error_witness :
  exitEvents
    (fold_left (perform sampleEnv) [OpSpawnOffline 5000]
       (newFFMPEG sampleEnv HelperFuncs.sampleSettings sampleChannel))
    [] (Some 255)
  = [EvError 255
       (exitCommand
          (fold_left (perform sampleEnv) [OpSpawnOffline 5000]
             (newFFMPEG sampleEnv HelperFuncs.sampleSettings sampleChannel))
          []);
     EvClose (Some 255)].
Proof.
  apply (exit_255_reports_error sampleEnv HelperFuncs.sampleSettings
           sampleChannel [OpSpawnOffline 5000] []).
  vm_compute. reflexivity.
Defined.

Lemma newFFMPEG_enableTranscoding env o ch :
  enableTranscoding (opts (newFFMPEG env o ch)) = enableTranscoding o.
Proof.
  unfold newFFMPEG. cbn [opts].
  destruct (cc_transcoding ch) as [tr|];
    [destruct (ct_videoBitrate tr) as [b|];
     [destruct (negb (b =? 0))|];
     (destruct (ct_videoBufferSize tr) as [s|];
      [destruct (negb (s =? 0))|])|];
    destruct (negb (enableTranscoding o)); reflexivity.
Qed.

(** A wrapper constructed from settings with transcoding disabled never
    renders an error or offline screen, whatever was called on it before:
    [spawnError] starts no child and emits one 'error' event with code -1,
    [spawnOffline] starts no child and emits one 'end' event with
    code -1. *)
Theorem disabled_wrapper_renders_no_screen (env : ServerOptions)
    (settings : FfmpegSettings) (ch : ContextChannel)
    (ops : list Operation) (title : string) (subtitle : option string)
    (d : option Z) (duration : Z) :
  enableTranscoding settings = false ->
  let this := fold_left (perform env) ops (newFFMPEG env settings ch) in
  spawnError env this title subtitle d
  = (Disabled,
     emit (EvError (-1)
             (Js.template ["error stream disabled. "; title; " ";
                           Js.showOption subtitle])) this)
  /\ spawnOffline env this duration
     = (Disabled, emit (EvEnd (Some (-1, "offline stream disabled."))) this).
Proof.
  intros Hoff this.
  assert (Hopts : enableTranscoding (opts this) = false).
  { unfold this. rewrite perform_all_opts, newFFMPEG_enableTranscoding.
    exact Hoff. }
  unfold spawnError, spawnOffline. rewrite Hopts. split; reflexivity.
Qed.

Lemma disabled_wrapper_renders_no_screen_witness :
  fst (spawnError sampleEnv
         (fold_left (perform sampleEnv) [OpSetAudioOnly true]
            (newFFMPEG sampleEnv
               (mkFfmpegSettings "/usr/bin/ffmpeg" false false 4 0 "libx264"
                  "aac" (mkResolution 1280 720) 10000 1000 192 50 100 2 48
                  "pic" "silent" true true true true 60 "bicubic" "none"
                  false)
               sampleChannel))
         "boom" None None) = Disabled.
Proof.
  destruct (disabled_wrapper_renders_no_screen sampleEnv
              (mkFfmpegSettings "/usr/bin/ffmpeg" false false 4 0 "libx264"
                 "aac" (mkResolution 1280 720) 10000 1000 192 50 100 2 48
                 "pic" "silent" true true true true 60 "bicubic" "none"
                 false)
              sampleChannel [OpSetAudioOnly true] "boom" None None 0 eq_refl)
    as [Herror _].
  cbv zeta in Herror. rewrite Herror. reflexivity.
Defined.

(** *** A wrapper that normalises nothing *)

(** Case analysis on every condition of a step, with the boolean operators
    reduced as the cases fix their arguments. *)
Ltac break_reduced_conditions :=
  repeat (read_locals; cbn [negb andb orb];
          match goal with
          | |- context [match ?x with _ => _ end] =>
              lazymatch x with
              | context [match _ with _ => _ end] => fail
              | _ => destruct x
              end
          end);
  read_locals; cbn [negb andb orb].

(** Without resolution normalisation, and with no filter before it, the
    resolution fix labels its output [minsiz] and touches neither the
    arguments nor the audio side. *)
Lemma fixResolution_minsiz this stats l this' l' :
  ensureResolution this = false ->
  currentVideo l = "[video]" ->
  fixResolution this stats l = Some (this', l') ->
  keeps this this'
  /\ apad this' = apad this
  /\ audioChannelsSampleRate this' = audioChannelsSampleRate this
  /\ volumePercent this' = volumePercent this
  /\ ffmpegArgs l' = ffmpegArgs l
  /\ useStillImageTune l' = useStillImageTune l
  /\ duration l' = duration l
  /\ videoFile l' = videoFile l
  /\ audioFile l' = audioFile l
  /\ currentAudio l' = currentAudio l
  /\ audioComplex l' = audioComplex l
  /\ doOverlay l' = doOverlay l
  /\ (currentVideo l' = "[video]" \/ currentVideo l' = "[minsiz]").
Proof.
  intros Hensure Hvideo Hfix.
  split; [exact (fixResolution_keeps _ _ _ _ _ Hfix)|].
  revert Hfix. destruct this, l. cbn [ensureResolution currentVideo] in *.
  subst. unfold fixResolution. cbv zeta. read_locals.
  change (String.eqb "[video]" "[fpchange]") with false.
  break_reduced_conditions; intros [= <- <-] || discriminate; read_locals;
    repeat split; auto.
Qed.

(** With video and audio codec normalisation, resolution normalisation and
    audio padding off and the volume at 100 %, a real source that needs
    neither a frame-rate cap nor deinterlacing is passed through: no filter
    graph, and both streams copied. *)
Lemma spawn_plain_copy env this url stats startTime d limitRead args this' :
  normalizeVideoCodec (opts this) = false ->
  normalizeAudioCodec (opts this) = false ->
  ensureResolution this = false ->
  apad this = false ->
  volumePercent this = 100 ->
  audioOnly this = false ->
  url <> "" ->
  vs_audioOnly stats = false ->
  Qle_bool (Qplus (inject_Z (maxFPS (opts this))) (Qmake 1 1000000))
    (match videoFramerate stats with Some f => f | None => 0%Q end)
  = false ->
  match videoScanType stats with
  | Some t => String.eqb t "interlaced"
  | None => false
  end && negb (String.eqb (deinterlaceFilter (opts this)) "none") = false ->
  spawn env this (Url url) (Some stats) startTime d limitRead None
  = (Spawned args, this') ->
  args
  = ["-threads"; Js.showZ (numThreads (opts this)); "-fflags";
     "+genpts+discardcorrupt+igndts"]
    ++ (if limitRead then ["-re"] else [])
    ++ match startTime with
       | Some s => ["-ss"; Js.showZ s]
       | None => []
       end
    ++ ["-i"; url;
        "-map"; "0:v"; "-c:v"; "copy"; "-sc_threshold"; "1000000000";
        "-map"; Js.template ["0"; ":"; audioIndexOf stats];
        "-flags"; "cgop+ilme";
        "-c:a"; "copy"; "-map_metadata"; "-1"; "-movflags"; "+faststart";
        "-muxdelay"; "0"; "-muxpreload"; "0";
        "-metadata";
        Js.template ["service_provider="; Js.dquote; "tunarr"; Js.dquote];
        "-metadata";
        Js.template ["service_name="; Js.dquote; cc_name (channel this);
                     Js.dquote]]
    ++ closingArgs d.
Proof.
  intros Hnv Hna Hensure Hapad Hvol Haonly Hurl Hstats Hfps Hscan.
  unfold spawn.
  assert (Hl0 :
    frameRateAndDeinterlace this stats
      (openingArgs this (Url url) stats startTime d limitRead None)
    = openingArgs this (Url url) stats startTime d limitRead None).
  { unfold frameRateAndDeinterlace. cbv zeta. rewrite Hfps, Hscan.
    reflexivity. }
  rewrite Hl0.
  assert (Hopen :
    openingArgs this (Url url) stats startTime d limitRead None
    = {| ffmpegArgs :=
           ["-threads"; Js.showZ (numThreads (opts this)); "-fflags";
            "+genpts+discardcorrupt+igndts"]
           ++ (if limitRead then ["-re"] else [])
           ++ match startTime with
              | Some s => ["-ss"; Js.showZ s]
              | None => []
              end
           ++ ["-i"; url];
         useStillImageTune := false;
         duration := d;
         inputFiles := 1;
         audioFile := 0;
         videoFile := 0;
         overlayFile := -1;
         doOverlay := false;
         iW := videoWidth stats;
         iH := videoHeight stats;
         currentVideo := "[video]";
         currentAudio := "[audio]";
         audioComplex :=
           Js.template [";["; Js.showZ 0; ":"; audioIndexOf stats;
                        "]anull[audio]"];
         videoComplex :=
           Js.template [";["; Js.showZ 0; ":"; "v"; "]null[video]"] |}).
  { unfold openingArgs. cbv zeta. rewrite Haonly.
    pose proof Hurl as Hne. apply String.eqb_neq in Hne. rewrite Hne.
    cbn [negb orb andb isString].
    destruct limitRead; destruct startTime; cbn [app];
      rewrite <- ?app_assoc; reflexivity. }
  rewrite Hopen.
  match goal with
  | |- context [generateInputs _ _ _ _ ?l] => set (l0 := l)
  end.
  assert (Hgen : generateInputs env this (Url url) stats l0 = (this, l0)).
  { unfold generateInputs. cbn [isString isEmptyUrl negb orb].
    apply String.eqb_neq in Hurl. rewrite Hurl, Hstats. reflexivity. }
  rewrite Hgen. cbn [overlayInput].
  assert (Hv0 : currentVideo l0 = "[video]") by reflexivity.
  destruct (fixResolution this stats l0) as [[this3 l3]|] eqn:Hfix;
    [|discriminate].
  destruct (fixResolution_minsiz _ _ _ _ _ Hensure Hv0 Hfix)
    as (Hkeeps & Hapad3 & Hacsr & Hvol3 & Hargs & Htune & Hdur & Hvf & Haf
        & Hca & Hac & Hov & Hcv).
  destruct Hkeeps as (Ho & _ & Hch & _ & _ & Hk & Hao & Hal & _ & _).
  destruct (hasBeenKilled this3); [discriminate|].
  intros [= <- _].
  unfold overlayFilter, volumeFilter, padAudio.
  rewrite Hvol3, Hvol, Hapad3, Hapad. cbn [Z.eqb Pos.eqb negb andb].
  unfold mappingArgs. cbv zeta.
  rewrite Ho, Hnv, Hna, Hao, Haonly, Hca, Hargs, Htune, Hvf, Haf, Hch, Hdur.
  cbn [andb negb].
  assert (Hcv' : (if String.eqb (currentVideo l3) "[minsiz]"
                  then "[video]" else currentVideo l3) = "[video]").
  { destruct Hcv as [-> | ->]; reflexivity. }
  rewrite Hcv'.
  change (String.eqb "[video]" "[video]") with true.
  unfold l0. read_locals.
  change (String.eqb "[audio]" "[audio]") with true.
  cbn [negb]. change (String.eqb "" "") with true. cbn [negb andb].
  destruct limitRead, startTime; reflexivity.
Qed.

Lemma openingArgs_size this streamUrl stats startTime d limitRead watermark :
  iW (openingArgs this streamUrl stats startTime d limitRead watermark)
  = videoWidth stats
  /\ iH (openingArgs this streamUrl stats startTime d limitRead watermark)
     = videoHeight stats.
Proof.
  unfold openingArgs. cbv zeta.
  destruct streamUrl as [url|title subtitle];
    [destruct (negb (String.eqb url ""))|]; split; reflexivity.
Qed.

(** For a source with positive dimensions and pixel aspect ratio the
    resolution fix stays within the integers. *)
Lemma fixResolution_defined this stats l pp pq :
  0 < iW l -> 0 < iH l ->
  pixelP stats = Some pp -> pixelQ stats = Some pq ->
  0 < pp -> 0 < pq ->
  exists r, fixResolution this stats l = Some r.
Proof.
  intros HiW HiH HP HQ Hpp Hpq.
  unfold fixResolution. cbv zeta.
  destruct (negb (vs_audioOnly stats) && _); [|eexists; reflexivity].
  rewrite HP, HQ.
  set (p := iW l * pp). set (q := iH l * pq).
  assert (Hp : 0 < p) by (unfold p; nia).
  assert (Hq : 0 < q) by (unfold q; nia).
  rewrite (gcd_nonneg q p) by lia.
  set (g := Z.gcd q p).
  assert (Hg : 0 < g).
  { pose proof (Z.gcd_nonneg q p) as Hnonneg. fold g in Hnonneg.
    destruct (Z.eq_dec g 0) as [Hzero|]; [|lia].
    apply Z.gcd_eq_0_l in Hzero. lia. }
  destruct (Z.gcd_divide_l q p) as [q' Hq']. fold g in Hq'.
  destruct (Z.gcd_divide_r q p) as [p' Hp']. fold g in Hp'.
  assert (Hpdiv : p / g = p') by (rewrite Hp'; apply Z.div_mul; lia).
  assert (Hqdiv : q / g = q') by (rewrite Hq'; apply Z.div_mul; lia).
  rewrite Hpdiv, Hqdiv.
  replace (g =? 0) with false by (symmetry; apply Z.eqb_neq; lia).
  replace (p' =? 0) with false by (symmetry; apply Z.eqb_neq; nia).
  replace (q' =? 0) with false by (symmetry; apply Z.eqb_neq; nia).
  destruct (_ <=? _); eexists; reflexivity.
Qed.

(** A real source on a wrapper that was not killed starts a child process
    whenever the resolution fix stays within the integers. *)
Lemma spawn_real_source env this url stats startTime d limitRead :
  url <> "" ->
  vs_audioOnly stats = false ->
  hasBeenKilled this = false ->
  (exists r,
      fixResolution this stats
        (frameRateAndDeinterlace this stats
           (openingArgs this (Url url) stats startTime d limitRead None))
      = Some r) ->
  exists args this',
    spawn env this (Url url) (Some stats) startTime d limitRead None
    = (Spawned args, this').
Proof.
  intros Hurl Hstats Hkilled [[this3 l3] Hfix]. unfold spawn.
  match goal with
  | |- context [generateInputs env this ?u ?s ?l] =>
      assert (Hgen : generateInputs env this u s l = (this, l))
  end.
  { unfold generateInputs. cbn [isString isEmptyUrl negb orb].
    apply String.eqb_neq in Hurl. rewrite Hurl, Hstats. reflexivity. }
  rewrite Hgen. cbn [overlayInput]. rewrite Hfix.
  pose proof (fixResolution_keeps _ _ _ _ _ Hfix) as Hkeeps.
  destruct Hkeeps as (_ & _ & _ & _ & _ & Hk & _).
  rewrite Hk, Hkilled. eexists. eexists. reflexivity.
Qed.

(** A wrapper constructed from settings with transcoding disabled passes a
    real source through untouched when no watermark is given, whatever the
    other settings and the channel ask for: if the source runs at less than
    120.000001 frames per second, is not interlaced (or the deinterlace
    filter is 'none'), and either has an even size within the target
    resolution or has positive dimensions and a positive pixel aspect ratio,
    then [spawn] starts a child process, and its argument list has no filter
    graph and copies both streams. *)
Theorem disabled_transcoding_copies (env : ServerOptions)
    (settings : FfmpegSettings) (ch : ContextChannel) (url : string)
    (stats : VideoStats) (startTime : option Z) (d : option string)
    (limitRead : bool) :
  enableTranscoding settings = false ->
  url <> "" ->
  vs_audioOnly stats = false ->
  Qle_bool (Qplus (inject_Z 120) (Qmake 1 1000000))
    (match videoFramerate stats with Some f => f | None => 0%Q end)
  = false ->
  match videoScanType stats with
  | Some t => String.eqb t "interlaced"
  | None => false
  end && negb (String.eqb (deinterlaceFilter settings) "none") = false ->
  isLargerResolution (videoWidth stats) (videoHeight stats)
    (wantedW (newFFMPEG env settings ch))
    (wantedH (newFFMPEG env settings ch)) = false
  \/ (0 < videoWidth stats /\ 0 < videoHeight stats
      /\ exists pp pq,
           pixelP stats = Some pp /\ pixelQ stats = Some pq
           /\ 0 < pp /\ 0 < pq) ->
  exists this',
    spawn env (newFFMPEG env settings ch) (Url url) (Some stats) startTime d
      limitRead None
    = (Spawned
         (["-threads"; Js.showZ (numThreads settings); "-fflags";
           "+genpts+discardcorrupt+igndts"]
          ++ (if limitRead then ["-re"] else [])
          ++ match startTime with
             | Some s => ["-ss"; Js.showZ s]
             | None => []
             end
          ++ ["-i"; url;
              "-map"; "0:v"; "-c:v"; "copy"; "-sc_threshold"; "1000000000";
              "-map"; Js.template ["0"; ":"; audioIndexOf stats];
              "-flags"; "cgop+ilme";
              "-c:a"; "copy"; "-map_metadata"; "-1"; "-movflags";
              "+faststart"; "-muxdelay"; "0"; "-muxpreload"; "0";
              "-metadata";
              Js.template ["service_provider="; Js.dquote; "tunarr";
                           Js.dquote];
              "-metadata";
              Js.template ["service_name="; Js.dquote; cc_name ch;
                           Js.dquote]]
          ++ closingArgs d),
       this').
Proof.
  intros Hoff Hurl Hstats Hfps Hscan Hsize.
  assert (Hfields :
    normalizeVideoCodec (opts (newFFMPEG env settings ch)) = false
    /\ normalizeAudioCodec (opts (newFFMPEG env settings ch)) = false
    /\ maxFPS (opts (newFFMPEG env settings ch)) = 120
    /\ deinterlaceFilter (opts (newFFMPEG env settings ch))
       = deinterlaceFilter settings
    /\ numThreads (opts (newFFMPEG env settings ch)) = numThreads settings
    /\ ensureResolution (newFFMPEG env settings ch) = false
    /\ apad (newFFMPEG env settings ch) = false
    /\ volumePercent (newFFMPEG env settings ch) = 100).
  { unfold newFFMPEG. rewrite Hoff.
    cbn [negb opts ensureResolution apad volumePercent].
    destruct (cc_transcoding ch) as [tr|];
      [destruct (ct_videoBitrate tr) as [b|];
       [destruct (negb (b =? 0))|];
       (destruct (ct_videoBufferSize tr) as [s|];
        [destruct (negb (s =? 0))|])|];
      repeat split. }
  destruct Hfields as (Hnv & Hna & Hmax & Hdeint & Hthreads & Hensure & Hapad
                       & Hvol).
  set (this := newFFMPEG env settings ch) in *.
  assert (Hl0 :
    frameRateAndDeinterlace this stats
      (openingArgs this (Url url) stats startTime d limitRead None)
    = openingArgs this (Url url) stats startTime d limitRead None).
  { unfold frameRateAndDeinterlace. cbv zeta.
    rewrite Hmax, Hdeint, Hfps, Hscan. reflexivity. }
  destruct (openingArgs_size this (Url url) stats startTime d limitRead None)
    as [HiW HiH].
  assert (Hfix : exists r,
             fixResolution this stats
               (frameRateAndDeinterlace this stats
                  (openingArgs this (Url url) stats startTime d limitRead
                     None))
             = Some r).
  { rewrite Hl0.
    destruct Hsize as [Hfits|(Hw & Hh & pp & pq & HP & HQ & Hpp & Hpq)].
    - unfold fixResolution. cbv zeta.
      rewrite Hensure, HiW, HiH, Hfits, Hstats. eexists. reflexivity.
    - apply (fixResolution_defined this stats _ pp pq);
        rewrite ?HiW, ?HiH; assumption. }
  destruct (spawn_real_source env this url stats startTime d limitRead Hurl
              Hstats eq_refl Hfix) as (args & this' & Hspawn).
  exists this'. rewrite Hspawn. f_equal. f_equal.
  pose proof (spawn_plain_copy env this url stats startTime d limitRead args
                this' Hnv Hna Hensure Hapad Hvol eq_refl Hurl Hstats)
    as Hcopy.
  rewrite Hmax, Hdeint, Hthreads in Hcopy.
  exact (Hcopy Hfps Hscan Hspawn).
Qed.

Lemma disabled_transcoding_copies_witness :
  exists this',
    spawn sampleEnv
      (newFFMPEG sampleEnv
         (mkFfmpegSettings "/usr/bin/ffmpeg" false false 4 0 "libx264" "aac"
            (mkResolution 1280 720) 10000 1000 192 50 100 2 48 "pic"
            "silent" true true true true 60 "bicubic" "none" false)
         sampleChannel)
      (Url "http://plex/video.mkv") (Some oddSizedStats) (Some 12)
      (Some "30000ms") true None
    = (Spawned
         ["-threads"; "4"; "-fflags"; "+genpts+discardcorrupt+igndts"; "-re";
          "-ss"; "12"; "-i"; "http://plex/video.mkv";
          "-map"; "0:v"; "-c:v"; "copy"; "-sc_threshold"; "1000000000";
          "-map"; "0:1"; "-flags"; "cgop+ilme";
          "-c:a"; "copy"; "-map_metadata"; "-1"; "-movflags"; "+faststart";
          "-muxdelay"; "0"; "-muxpreload"; "0";
          "-metadata";
          Js.template ["service_provider="; Js.dquote; "tunarr"; Js.dquote];
          "-metadata";
          Js.template ["service_name="; Js.dquote; "Channel 1"; Js.dquote];
          "-t"; "30000ms"; "-f"; "mpegts"; "pipe:1"],
       this').
Proof.
  apply (disabled_transcoding_copies sampleEnv
           (mkFfmpegSettings "/usr/bin/ffmpeg" false false 4 0 "libx264"
              "aac" (mkResolution 1280 720) 10000 1000 192 50 100 2 48 "pic"
              "silent" true true true true 60 "bicubic" "none" false)
           sampleChannel
           "http://plex/video.mkv" oddSizedStats (Some 12) (Some "30000ms")
           true
           eq_refl ltac:(discriminate) eq_refl eq_refl eq_refl).
  right. split; [reflexivity|]. split; [reflexivity|].
  exists 1, 1. repeat split.
Defined.

(** *** The shape of every argument list *)

(** A list that only grew. *)
Ltac solve_suffix :=
  first [ exists []; rewrite app_nil_r; reflexivity
        | eexists; rewrite <- ?app_assoc; reflexivity ].

Lemma openingArgs_args this streamUrl stats startTime d limitRead watermark :
  exists extra,
    ffmpegArgs (openingArgs this streamUrl stats startTime d limitRead
                  watermark)
    = ["-threads"; Js.showZ (numThreads (opts this)); "-fflags";
       "+genpts+discardcorrupt+igndts"] ++ extra.
Proof.
  unfold openingArgs. cbv zeta.
  destruct (limitRead && _); destruct startTime; destruct streamUrl as [s|];
    [destruct (negb (String.eqb s ""))| |destruct (negb (String.eqb s ""))|
    |destruct (negb (String.eqb s ""))| |destruct (negb (String.eqb s ""))|];
    cbn [ffmpegArgs]; solve_suffix.
Qed.

Lemma frameRateAndDeinterlace_args this stats l :
  ffmpegArgs (frameRateAndDeinterlace this stats l) = ffmpegArgs l.
Proof. unfold frameRateAndDeinterlace. break_conditions; reflexivity. Qed.

Lemma generateInputs_args env this streamUrl stats l :
  exists extra,
    ffmpegArgs (snd (generateInputs env this streamUrl stats l))
    = ffmpegArgs l ++ extra.
Proof.
  unfold generateInputs, generateVideo, generateAudio.
  break_conditions; solve_suffix.
Qed.

Lemma overlayInput_args this watermark l :
  exists extra,
    ffmpegArgs (snd (overlayInput this watermark l)) = ffmpegArgs l ++ extra.
Proof. unfold overlayInput. break_conditions; solve_suffix. Qed.

Lemma fixResolution_args this stats l this' l' :
  fixResolution this stats l = Some (this', l') ->
  ffmpegArgs l' = ffmpegArgs l.
Proof.
  unfold fixResolution. cbv zeta.
  break_conditions; intros [= <- <-] || discriminate; reflexivity.
Qed.

Lemma overlayFilter_args this watermark l :
  ffmpegArgs (overlayFilter this watermark l) = ffmpegArgs l.
Proof. unfold overlayFilter. break_conditions; reflexivity. Qed.

Lemma volumeFilter_args this l :
  ffmpegArgs (volumeFilter this l) = ffmpegArgs l.
Proof. unfold volumeFilter. break_conditions; reflexivity. Qed.

Lemma padAudio_args this stats l :
  ffmpegArgs (padAudio this stats l) = ffmpegArgs l.
Proof. unfold padAudio. break_conditions; reflexivity. Qed.

Lemma mappingArgs_args this stats l beforeSizeChange :
  exists extra,
    mappingArgs this stats l beforeSizeChange = ffmpegArgs l ++ extra.
Proof.
  unfold mappingArgs. cbv zeta.
  break_conditions; solve_suffix.
Qed.

(** Every child process that [spawn] starts is given the thread count and
    the input flags first, and is told last to write an MPEG transport stream
    to its standard output, whatever source, screen, filters and codecs lie
    in between. *)
Theorem spawn_args_shape (env : ServerOptions) (this : FFMPEG)
    (streamUrl : StreamUrl) (streamStats : option VideoStats)
    (startTime : option Z) (d : option string) (limitRead : bool)
    (watermark : option Watermark) (args : list string) (this' : FFMPEG) :
  spawn env this streamUrl streamStats startTime d limitRead watermark
  = (Spawned args, this') ->
  exists middle,
    args
    = ["-threads"; Js.showZ (numThreads (opts this)); "-fflags";
       "+genpts+discardcorrupt+igndts"]
      ++ middle ++ ["-f"; "mpegts"; "pipe:1"].
Proof.
  unfold spawn. destruct streamStats as [stats|]; [|discriminate].
  destruct (openingArgs_args this streamUrl stats startTime d limitRead
              watermark) as [e0 H0].
  pose proof (frameRateAndDeinterlace_args this stats
                (openingArgs this streamUrl stats startTime d limitRead
                   watermark)) as H1.
  match goal with
  | |- context [generateInputs ?e ?t ?u ?s ?m] =>
      destruct (generateInputs_args e t u s m) as [e2 H2];
      destruct (generateInputs e t u s m) as [this1 l1]
  end.
  destruct (overlayInput_args this1 watermark l1) as [e3 H3].
  destruct (overlayInput this1 watermark l1) as [this2 l2].
  cbn [snd] in H2, H3.
  destruct (fixResolution this2 stats l2) as [[this3 l3]|] eqn:Hfix;
    [|discriminate].
  apply fixResolution_args in Hfix.
  destruct (hasBeenKilled this3); [discriminate|].
  intros [= <- _].
  match goal with
  | |- context [mappingArgs ?t ?s ?l ?b] =>
      destruct (mappingArgs_args t s l b) as [e4 H4]
  end.
  rewrite H4, padAudio_args, volumeFilter_args, overlayFilter_args, Hfix, H3,
    H2, H1, H0.
  match goal with
  | |- context [closingArgs ?x] => generalize x
  end.
  intros d0.
  unfold closingArgs.
  exists (e0 ++ e2 ++ e3 ++ e4
          ++ match d0 with Some t => ["-t"; t] | None => [] end).
  rewrite <- !app_assoc. reflexivity.
Qed.

Lemma spawn_args_shape_witness :
  exists args this' middle,
    spawn sampleEnv sampleFFMPEG (ErrorDescriptor "offline" None)
      (Some (errorStats sampleFFMPEG 5000)) None (Some "5000ms") true None
    = (Spawned args, this')
    /\ args
       = ["-threads"; "4"; "-fflags"; "+genpts+discardcorrupt+igndts"]
         ++ middle ++ ["-f"; "mpegts"; "pipe:1"].
Proof.
  destruct (spawn sampleEnv sampleFFMPEG (ErrorDescriptor "offline" None)
              (Some (errorStats sampleFFMPEG 5000)) None (Some "5000ms") true
              None) as [result this'] eqn:Hspawn.
  assert (Hresult : exists args, result = Spawned args).
  { vm_compute in Hspawn. injection Hspawn as <- _. eexists. reflexivity. }
  destruct Hresult as [args ->].
  destruct (spawn_args_shape sampleEnv sampleFFMPEG
              (ErrorDescriptor "offline" None)
              (Some (errorStats sampleFFMPEG 5000)) None (Some "5000ms") true
              None args this' Hspawn) as [middle Hargs].
  exists args, this', middle. split; [reflexivity|exact Hargs].
Defined.

End FfmpegExtras.

(** * Further properties of the redirect walk of startStream *)

Module RedirectExtras.

Import HelperFuncs VideoStream.

#[local] Open Scope Z_scope.

Section WithCache.

Variable SLACK : Z.
Variable Cache : Type.
Variable getCurrentLineupItem : Cache -> string -> Z -> option StreamLineupItem.
Variable recordPlayback : Cache -> string -> Z -> StreamLineupItem -> Cache.
Variable store : gmap string Channel.
Variable startTimestamp : Z.

#[local] Abbreviation iteration :=
  (VideoStream.iteration SLACK Cache getCurrentLineupItem recordPlayback store
     startTimestamp).
#[local] Abbreviation redirectLoop :=
  (VideoStream.redirectLoop SLACK Cache getCurrentLineupItem recordPlayback
     store startTimestamp).
#[local] Abbreviation adjustUpperBounds :=
  (VideoStream.adjustUpperBounds Cache recordPlayback startTimestamp).

(** *** The upper bounds *)

Lemma adjustUpperBounds_from :
  forall (pairs : list (string * Z)) (beginningOffset u : Z)
         (item : StreamLineupItem) (c : Cache),
    sli_streamDuration item = Some u ->
    exists d,
      sli_streamDuration
        (fst (adjustUpperBounds pairs beginningOffset u item c)) = Some d
      /\ d <= u
      /\ (forall channel bound,
             In (channel, bound) pairs -> d <= bound + beginningOffset)
      /\ (d = u
          \/ exists channel bound,
               In (channel, bound) pairs /\ d = bound + beginningOffset).
Proof.
  induction pairs as [|[channel bound] pairs IH];
    intros beginningOffset u item c Hitem;
    cbn [VideoStream.adjustUpperBounds].
  - exists u. cbn [fst]. split; [exact Hitem|]. split; [lia|].
    split; [intros ? ? []|left; reflexivity].
  - cbv zeta. rewrite Hitem.
    set (n := Z.min (bound + beginningOffset) (Z.min u u)).
    destruct (IH beginningOffset n (withStreamDuration n item)
                (recordPlayback c channel startTimestamp
                   (withStreamDuration n item)) eq_refl)
      as (d & Hd & Hle & Hall & Hexact).
    assert (Hn : n <= u /\ n <= bound + beginningOffset
                 /\ (n = u \/ n = bound + beginningOffset))
      by (unfold n; lia).
    clearbody n.
    exists d. split; [exact Hd|]. split; [lia|]. split.
    + intros channel' bound' [[= <- <-]|Hin];
        [lia|exact (Hall _ _ Hin)].
    + destruct Hexact as [->|(channel' & bound' & Hin & ->)].
      * destruct Hn as (_ & _ & [-> | ->]); [left; reflexivity|].
        right. exists channel, bound. split; [left; reflexivity|lia].
      * right. exists channel', bound'. split; [right; exact Hin|reflexivity].
Qed.

(** After the walk over at least one redirect, the item that is played has
    a stream duration, and it is the least of: the duration it came with (if
    any), [Number.MAX_SAFE_INTEGER] (the initial bound), and the time left in
    each redirect item plus the item's [beginningOffset]. *)
Theorem adjustUpperBounds_least (pairs : list (string * Z))
    (beginningOffset upperBound : Z) (item : StreamLineupItem) (c : Cache) :
  pairs <> [] ->
  exists d,
    sli_streamDuration
      (fst (adjustUpperBounds pairs beginningOffset upperBound item c))
    = Some d
    /\ d <= upperBound
    /\ (forall d0, sli_streamDuration item = Some d0 -> d <= d0)
    /\ (forall channel bound,
           In (channel, bound) pairs -> d <= bound + beginningOffset)
    /\ (d = upperBound
        \/ sli_streamDuration item = Some d
        \/ exists channel bound,
             In (channel, bound) pairs /\ d = bound + beginningOffset).
Proof.
  destruct pairs as [|[channel bound] pairs]; [contradiction|]. intros _.
  cbn [VideoStream.adjustUpperBounds]. cbv zeta.
  set (prev := match sli_streamDuration item with
               | Some d => Z.min upperBound d
               | None => upperBound
               end).
  set (n := Z.min (bound + beginningOffset) prev).
  destruct (adjustUpperBounds_from pairs beginningOffset n
              (withStreamDuration n item)
              (recordPlayback c channel startTimestamp
                 (withStreamDuration n item)) eq_refl)
    as (d & Hd & Hle & Hall & Hexact).
  assert (Hprev : prev <= upperBound
                  /\ (forall d0, sli_streamDuration item = Some d0 ->
                                 prev <= d0)
                  /\ (prev = upperBound
                      \/ sli_streamDuration item = Some prev)).
  { unfold prev. destruct (sli_streamDuration item) as [d0|].
    - split; [lia|]. split; [intros ? [= <-]; lia|].
      destruct (Z.le_ge_cases upperBound d0);
        [left; lia|right; f_equal; lia].
    - split; [lia|]. split; [discriminate|]. left. reflexivity. }
  destruct Hprev as (Hupper & Hitem & Hwhich).
  assert (Hn : n <= prev /\ n <= bound + beginningOffset
               /\ (n = prev \/ n = bound + beginningOffset))
    by (unfold n; lia).
  clearbody n. clearbody prev.
  exists d. split; [exact Hd|]. split; [lia|]. split.
  { intros d0 Hd0. specialize (Hitem d0 Hd0). lia. }
  split.
  - intros channel' bound' [[= <- <-]|Hin]; [lia|exact (Hall _ _ Hin)].
  - destruct Hexact as [->|(channel' & bound' & Hin & ->)].
    + destruct Hn as (_ & _ & [-> | ->]).
      * destruct Hwhich as [->|Hsame]; [left; reflexivity|right; left].
        exact Hsame.
      * right. right. exists channel, bound.
        split; [left; reflexivity|reflexivity].
    + right. right. exists channel', bound'.
      split; [right; exact Hin|reflexivity].
Qed.

(** *** The records of the walk *)

Section Recording.

(** A cache that returns at a timestamp what was recorded last for the
    channel at that timestamp, and keeps the items of other channels. *)
Hypothesis read_back :
  forall c channel t item,
    getCurrentLineupItem (recordPlayback c channel t item) channel t
    = Some item.
Hypothesis read_other :
  forall c channel other t t' item,
    channel <> other ->
    getCurrentLineupItem (recordPlayback c channel t item) other t'
    = getCurrentLineupItem c other t'.

Lemma adjustUpperBounds_record_kept (channel : string) (limit : Z) :
  forall (pairs : list (string * Z)) (beginningOffset u : Z)
         (item : StreamLineupItem) (c : Cache),
    sli_streamDuration item = Some u ->
    (exists recorded d,
        getCurrentLineupItem c channel startTimestamp = Some recorded
        /\ sli_streamDuration recorded = Some d
        /\ d <= limit /\ u <= d) ->
    exists recorded d,
      getCurrentLineupItem
        (snd (adjustUpperBounds pairs beginningOffset u item c)) channel
        startTimestamp = Some recorded
      /\ sli_streamDuration recorded = Some d
      /\ d <= limit
      /\ exists played,
           sli_streamDuration
             (fst (adjustUpperBounds pairs beginningOffset u item c))
           = Some played
           /\ played <= d.
Proof.
  induction pairs as [|[channel' bound'] pairs IH];
    intros beginningOffset u item c Hitem (recorded & d & Hget & Hd & Hlimit
                                           & Hu);
    cbn [VideoStream.adjustUpperBounds].
  - exists recorded, d. cbn [fst snd]. repeat split; try assumption.
    exists u. split; [exact Hitem|exact Hu].
  - cbv zeta. rewrite Hitem.
    set (n := Z.min (bound' + beginningOffset) (Z.min u u)).
    assert (Hn : n <= u) by (unfold n; lia).
    clearbody n.
    apply IH; [reflexivity|].
    destruct (String.eqb_spec channel' channel) as [->|Hne].
    + exists (withStreamDuration n item), n.
      rewrite read_back. repeat split; lia.
    + exists recorded, d. rewrite read_other by exact Hne.
      repeat split; try assumption. lia.
Qed.

(** The adjustment records an item for every channel of the redirect chain:
    afterwards the cache returns, for each of them at the timestamp of the
    request, an item whose stream duration is at most the time that was left
    in that channel's redirect item plus the [beginningOffset], and at least
    the stream duration of the item that is played. *)
Theorem adjustUpperBounds_records (pairs : list (string * Z))
    (beginningOffset upperBound : Z) (item : StreamLineupItem) (c : Cache)
    (channel : string) (bound : Z) :
  In (channel, bound) pairs ->
  exists recorded d,
    getCurrentLineupItem
      (snd (adjustUpperBounds pairs beginningOffset upperBound item c))
      channel startTimestamp = Some recorded
    /\ sli_streamDuration recorded = Some d
    /\ d <= bound + beginningOffset
    /\ exists played,
         sli_streamDuration
           (fst (adjustUpperBounds pairs beginningOffset upperBound item c))
         = Some played
         /\ played <= d.
Proof.
  revert upperBound item c.
  induction pairs as [|[channel' bound'] pairs IH];
    intros upperBound item c Hin; [contradiction|].
  cbn [VideoStream.adjustUpperBounds]. cbv zeta.
  set (n := Z.min (bound' + beginningOffset)
              match sli_streamDuration item with
              | Some d => Z.min upperBound d
              | None => upperBound
              end).
  assert (Hn : n <= bound' + beginningOffset) by (unfold n; lia).
  clearbody n.
  destruct Hin as [[= -> ->]|Hin].
  - apply adjustUpperBounds_record_kept; [reflexivity|].
    exists (withStreamDuration n item), n. rewrite read_back.
    repeat split; lia.
  - apply IH. exact Hin.
Qed.

End Recording.

(** *** The lists of the walk *)

Lemma iteration_lists (st : LoopState Cache) :
  match iteration st with
  | Continue _ st' | Break _ st' =>
      redirectChannels _ st'
      = redirectChannels _ st ++ [channelContext _ st]
      /\ upperBounds _ st'
         = upperBounds _ st
           ++ [prog_duration (program (currentProgram _ st))
               - timeElapsed (currentProgram _ st)]
  | Rejects _ _ => True
  end.
Proof.
  unfold VideoStream.iteration. cbv zeta.
  destruct (loadChannelAndLineup store _); [|split; reflexivity].
  destruct (getCurrentLineupItem _ _ _); [split; reflexivity|].
  destruct (getCurrentProgramAndTimeElapsed _ _ _); [split; reflexivity|].
  exact I.
Qed.

(** The walk keeps its two lists in step: it appends one channel and one
    upper bound per hop, so that when it ends every channel it went through
    has its upper bound, and no more channels were gone through than hops
    were made. *)
Theorem redirect_lists_in_step (hops : nat) (st st' : LoopState Cache) :
  length (redirectChannels _ st) = length (upperBounds _ st) ->
  redirectLoop hops st = Some (Finished _ st') ->
  length (redirectChannels _ st') = length (upperBounds _ st')
  /\ (length (redirectChannels _ st')
      <= length (redirectChannels _ st) + hops)%nat
  /\ exists more,
       redirectChannels _ st' = redirectChannels _ st ++ more.
Proof.
  revert st.
  induction hops as [|hops IH]; intros st Hlen;
    cbn [VideoStream.redirectLoop].
  - destruct (isRedirect _ st); [discriminate|].
    intros [= <-]. split; [exact Hlen|]. split; [lia|].
    exists []. rewrite app_nil_r. reflexivity.
  - destruct (isRedirect _ st).
    + pose proof (iteration_lists st) as Hlists.
      destruct (iteration st) as [st1|st1|message]; [| |discriminate].
      * destruct Hlists as [Hch Hub]. intros Hloop.
        destruct (IH st1 ltac:(rewrite Hch, Hub, !length_app; cbn; lia)
                    Hloop) as (Hlen' & Hhops & more & Hmore).
        split; [exact Hlen'|]. split.
        -- rewrite Hch, length_app in Hhops. cbn in Hhops. lia.
        -- exists ([channelContext _ st] ++ more).
           rewrite Hmore, Hch, <- app_assoc. reflexivity.
      * destruct Hlists as [Hch Hub]. intros [= <-].
        split; [rewrite Hch, Hub, !length_app; cbn; lia|].
        split; [rewrite Hch, length_app; cbn; lia|].
        exists [channelContext _ st]. exact Hch.
    + intros [= <-]. split; [exact Hlen|]. split; [lia|].
      exists []. rewrite app_nil_r. reflexivity.
Qed.

(** *** A redirect to a channel that does not exist *)

(** When the current item redirects to a channel that the store does not
    have, the walk ends with this hop: the position becomes an offline
    program of 60000 ms that carries the error "Invalid redirect to a channel
    that doesn't exist", at elapsed time 0 and index -1, on the channel the
    walk was at. *)
Theorem redirect_to_missing_channel (hops : nat) (st : LoopState Cache) :
  isRedirect _ st = true ->
  store !! prog_channel (program (currentProgram _ st)) = None ->
  exists st',
    redirectLoop (S hops) st = Some (Finished _ st')
    /\ currentProgram _ st'
       = {| program := offlineProgramWithError 60000 invalidRedirect;
            timeElapsed := 0; programIndex := -1 |}
    /\ prog_duration (program (currentProgram _ st')) = 60000
    /\ prog_err (program (currentProgram _ st')) = Some invalidRedirect
    /\ channelContext _ st' = channelContext _ st
    /\ lineupItem _ st' = lineupItem _ st
    /\ redirectChannels _ st'
       = redirectChannels _ st ++ [channelContext _ st].
Proof.
  intros Hredirect Hmissing.
  cbn [VideoStream.redirectLoop]. rewrite Hredirect.
  unfold VideoStream.iteration. cbv zeta.
  unfold loadChannelAndLineup. rewrite Hmissing.
  eexists. split.
  - destruct hops; cbn [VideoStream.redirectLoop]; reflexivity.
  - repeat split.
Qed.

End WithCache.

Lemma recordingGet_read_back c channel t item :
  recordingGet (recordingPut c channel t item) channel t = Some item.
Proof.
  unfold recordingGet, recordingPut. rewrite lookup_insert_eq, Z.eqb_refl.
  reflexivity.
Qed.

Lemma adjustUpperBounds_least_witness :
  exists d,
    sli_streamDuration
      (fst (adjustUpperBounds _ recordingPut 1000
              [("Y", 599000); ("X", 200000)] 5000 MAX_SAFE_INTEGER
              (recursiveRedirectItem ["X"; "Y"]) ∅))
    = Some d
    /\ d <= 205000.
Proof.
  destruct (adjustUpperBounds_least _ recordingPut 1000
              [("Y", 599000); ("X", 200000)] 5000 MAX_SAFE_INTEGER
              (recursiveRedirectItem ["X"; "Y"]) ∅ ltac:(discriminate))
    as (d & Hd & _ & _ & Hall & _).
  exists d. split; [exact Hd|].
  apply (Hall "X" 200000). right. left. reflexivity.
Defined.

Lemma adjustUpperBounds_records_witness :
  exists recorded d,
    recordingGet
      (snd (adjustUpperBounds _ recordingPut 1000
              [("Y", 599000); ("X", 200000)] 5000 MAX_SAFE_INTEGER
              (recursiveRedirectItem ["X"; "Y"]) ∅))
      "Y" 1000 = Some recorded
    /\ sli_streamDuration recorded = Some d
    /\ d <= 599000 + 5000.
Proof.
  destruct (adjustUpperBounds_records _ recordingGet recordingPut 1000
              recordingGet_read_back
              RedirectProperties.recordingGet_other
              [("Y", 599000); ("X", 200000)] 5000 MAX_SAFE_INTEGER
              (recursiveRedirectItem ["X"; "Y"]) ∅ "Y" 599000
              ltac:(left; reflexivity))
    as (recorded & d & Hget & Hd & Hle & _).
  exists recorded, d. repeat split; assumption.
Defined.

Lemma redirect_lists_in_step_witness :
  exists final,
    redirectLoop Constants.SLACK _ recordingGet recordingPut storeS5 1000 3
      {| currentProgram :=
           {| program := redirectProgram "Y" 600000; timeElapsed := 1000;
              programIndex := 0 |};
         channelContext := "X"; redirectChannels := []; upperBounds := [];
         lineupItem := None; cache := ∅ |}
    = Some (Finished _ final)
    /\ length (redirectChannels _ final) = length (upperBounds _ final)
    /\ (length (redirectChannels _ final) <= 0 + 3)%nat.
Proof.
  assert (Hloop : exists final,
             redirectLoop Constants.SLACK _ recordingGet recordingPut
               storeS5 1000 3
               {| currentProgram :=
                    {| program := redirectProgram "Y" 600000;
                       timeElapsed := 1000; programIndex := 0 |};
                  channelContext := "X"; redirectChannels := [];
                  upperBounds := []; lineupItem := None; cache := ∅ |}
             = Some (Finished _ final))
    by (vm_compute; eexists; reflexivity).
  destruct Hloop as [final Hloop].
  exists final. split; [exact Hloop|].
  destruct (fun Hstart =>
              redirect_lists_in_step Constants.SLACK _ recordingGet
                recordingPut storeS5 1000 3 _ final Hstart Hloop)
    as (Hlen & Hhops & _).
  - reflexivity.
  - split; [exact Hlen|exact Hhops].
Defined.

Lemma redirect_to_missing_channel_witness :
  exists st',
    redirectLoop Constants.SLACK _ recordingGet recordingPut
      (∅ : gmap string Channel) 1000 1
      {| currentProgram :=
           {| program := redirectProgram "Y" 600000; timeElapsed := 1000;
              programIndex := 0 |};
         channelContext := "X"; redirectChannels := []; upperBounds := [];
         lineupItem := None; cache := ∅ |}
    = Some (Finished _ st')
    /\ prog_err (program (currentProgram _ st')) = Some invalidRedirect.
Proof.
  destruct (redirect_to_missing_channel Constants.SLACK _ recordingGet
              recordingPut (∅ : gmap string Channel) 1000 0
              {| currentProgram :=
                   {| program := redirectProgram "Y" 600000;
                      timeElapsed := 1000; programIndex := 0 |};
                 channelContext := "X"; redirectChannels := [];
                 upperBounds := []; lineupItem := None; cache := ∅ |}
              eq_refl ltac:(apply lookup_empty))
    as (st' & Hloop & _ & _ & Herr & _).
  exists st'. split; [exact Hloop|exact Herr].
Defined.

End RedirectExtras.

(** * Further properties of the watermark selection *)

Module WatermarkExtras.

Import HelperFuncs.

(** [getWatermark] returns a watermark exactly when transcoding is enabled,
    the channel overlay is not globally disabled, the item is not a
    commercial or the channel sets [disableFillerOverlay] to false, the
    channel has an enabled watermark, and the watermark's own icon or the
    channel's icon has a non-empty path. *)
Theorem getWatermark_returns_iff (ffmpegSettings : Settings.FfmpegSettings)
    (channel : Channel) (type : string) :
  (exists w, getWatermark ffmpegSettings channel type = Some w)
  <-> (Settings.enableTranscoding ffmpegSettings = true
       /\ Settings.disableChannelOverlay ffmpegSettings = false
       /\ (type <> "commercial"%string
           \/ ch_disableFillerOverlay channel = Some false)
       /\ exists wm,
            ch_watermark channel = Some wm
            /\ wm_enabled wm = true
            /\ (iconUsable (wm_url wm) = true
                \/ iconUsable (ch_icon channel) = true)).
Proof.
  unfold getWatermark.
  destruct (Settings.enableTranscoding ffmpegSettings),
           (Settings.disableChannelOverlay ffmpegSettings),
           (String.eqb_spec type "commercial") as [Htype|Htype],
           (ch_disableFillerOverlay channel) as [[|]|],
           (ch_watermark channel) as [wm|];
    cbn [negb orb andb];
    try (destruct (wm_enabled wm) eqn:Henabled; cbn [negb];
         [destruct (iconUsable (wm_url wm)) eqn:Hown;
          [rewrite ?Hown
          |destruct (iconUsable (ch_icon channel)) eqn:Hchannel]|]);
    (split;
     [intros [w Hw]; try discriminate;
      repeat (split; [solve [auto]|]); exists wm; auto
     |intros (H1 & H2 & [H3|H3] & wm' & H4 & H5 & [H6|H6]);
      try discriminate; try contradiction;
      try (injection H4 as <-; congruence);
      eexists; reflexivity]).
Qed.

(** A watermark returned by [getWatermark] carries the channel watermark's
    own icon when that has a non-empty path and the channel's icon
    otherwise; it copies the width, both margins, the duration and the
    position of the channel's watermark, and its [fixedSize] and [animated]
    are booleans that are true only when the channel's are exactly true. *)
Theorem getWatermark_prefers_own_icon
    (ffmpegSettings : Settings.FfmpegSettings) (channel : Channel)
    (type : string) (wm w : Watermark) :
  ch_watermark channel = Some wm ->
  getWatermark ffmpegSettings channel type = Some w ->
  wm_url w = (if iconUsable (wm_url wm) then wm_url wm else ch_icon channel)
  /\ wm_width w = wm_width wm
  /\ wm_verticalMargin w = wm_verticalMargin wm
  /\ wm_horizontalMargin w = wm_horizontalMargin wm
  /\ wm_duration w = wm_duration wm
  /\ wm_position w = wm_position wm
  /\ wm_fixedSize w = Some (match wm_fixedSize wm with
                            | Some true => true
                            | _ => false
                            end)
  /\ wm_animated w = Some (match wm_animated wm with
                           | Some true => true
                           | _ => false
                           end).
Proof.
  intros Hwm. unfold getWatermark. rewrite Hwm.
  destruct (_ || _); [discriminate|].
  destruct (_ && _); [discriminate|].
  destruct (negb (wm_enabled wm)); [discriminate|].
  destruct (iconUsable (if iconUsable (wm_url wm) then wm_url wm
                        else ch_icon channel)); [|discriminate].
  intros [= <-]. cbn. repeat split; reflexivity.
Qed.

Lemma getWatermark_prefers_own_icon_witness :
  exists w,
    getWatermark sampleSettings watermarkedChannel "program" = Some w
    /\ wm_url w = (if iconUsable (wm_url sampleWatermark)
                   then wm_url sampleWatermark
                   else ch_icon watermarkedChannel)
    /\ wm_width w = wm_width sampleWatermark
    /\ wm_verticalMargin w = wm_verticalMargin sampleWatermark
    /\ wm_horizontalMargin w = wm_horizontalMargin sampleWatermark
    /\ wm_duration w = wm_duration sampleWatermark
    /\ wm_position w = wm_position sampleWatermark
    /\ wm_fixedSize w = Some (match wm_fixedSize sampleWatermark with
                              | Some true => true
                              | _ => false
                              end)
    /\ wm_animated w = Some (match wm_animated sampleWatermark with
                             | Some true => true
                             | _ => false
                             end).
Proof.
  eexists. split; [reflexivity|].
  apply (getWatermark_prefers_own_icon sampleSettings watermarkedChannel
           "program" sampleWatermark); reflexivity.
Defined.

End WatermarkExtras.
